(** * cocoa_analysis: the reshape / clean / chart pipeline of [src/analysis.py]

    The program is a pandas script.  Its functions are embedded as programs of
    a small state-and-exception monad over a world made of the Python object
    store (tables are mutable objects reached through references), the file
    system and the console.  The pandas operations the script calls are
    embedded as pure functions on table values.

    Conventions of the embedding:
    - a table cell is a missing value, a number or a text; the dtype of a
      column is not tracked, so [Int z] in a column that pandas stores as
      float64 stands for the float of the same value;
    - finite floats are the rationals they denote and integers are unbounded:
      binary64 rounding and the overflow of numpy casts are not modelled, and
      the values of cleaned cells are stated for the numbers on which this
      makes no difference ([float_exact], [int64_exact]);
    - three library functions are parameters of the pipeline: the
      numeric-literal recogniser of pandas ([parse_number]), the permutation
      computed by numpy's argsort ([argsort], constrained by [argsort_spec])
      and the text pandas writes for a number ([format_number]);
      [decimal_number], [insertion_argsort] and [decimal_text] instantiate
      them where a concrete run is evaluated;
    - file-system calls succeed ([os.makedirs], [savefig], [to_csv]): I/O
      failures are outside the embedding, and the theorems that say a chart
      is drawn or skipped take as hypotheses the conditions on the names
      under which the calls do succeed ([creatable], [image_name]) and on the
      cells matplotlib draws ([plottable]);
    - [read_csv] is embedded on tokenised records; the files on which the
      embedding is the library's are the plain files ([plain_csv]);
    - [main] starts from the parsed arguments. *)

From Stdlib Require Import List ZArith QArith Lia Bool String Ascii.
From Stdlib Require Import Permutation Sorted Arith DecimalString.
Import ListNotations.
Local Close Scope Q_scope.
Local Open Scope string_scope.
Local Open Scope list_scope.

(** ** Values held by table cells *)

Inductive number : Type :=
| Int (z : Z)
| Float (q : Q)
| Inf (negative : bool).

Inductive cell : Type :=
| NaN
| Num (n : number)
| Str (s : string).

Definition isna (c : cell) : bool :=
  match c with NaN => true | _ => false end.

Definition notna (c : cell) : bool := negb (isna c).

(** The rational denoted by a finite number (infinities are handled apart). *)
Definition to_Q (n : number) : Q :=
  match n with
  | Int z => inject_Z z
  | Float q => q
  | Inf _ => 0%Q
  end.

Definition number_compare (a b : number) : comparison :=
  match a, b with
  | Inf true, Inf true => Eq
  | Inf true, _ => Lt
  | _, Inf true => Gt
  | Inf false, Inf false => Eq
  | Inf false, _ => Gt
  | _, Inf false => Lt
  | _, _ => Qcompare (to_Q a) (to_Q b)
  end.

(** Order used when keys are sorted: numbers by value, before texts by code
    point, missing values last. *)
Definition cell_compare (a b : cell) : comparison :=
  match a, b with
  | Num x, Num y => number_compare x y
  | Num _, _ => Lt
  | Str _, Num _ => Gt
  | Str s, Str t => String.compare s t
  | Str _, NaN => Lt
  | NaN, NaN => Eq
  | NaN, _ => Gt
  end.

Definition cell_leb (a b : cell) : bool :=
  match cell_compare a b with Gt => false | _ => true end.

(** Python's [==] on cell values: numbers by value (so [1961 == 1961.0]),
    texts by content, and a missing value is equal to nothing.  Numbers are
    compared through their canonical form. *)
Definition canon (n : number) : number :=
  match n with
  | Int z => Float (inject_Z z)
  | Float q => Float (Qred q)
  | Inf b => Inf b
  end.

Definition number_eqb (a b : number) : bool :=
  match canon a, canon b with
  | Float p, Float q => (Z.eqb (Qnum p) (Qnum q) && Pos.eqb (Qden p) (Qden q))%bool
  | Inf x, Inf y => Bool.eqb x y
  | _, _ => false
  end.

Definition cell_eqb (a b : cell) : bool :=
  match a, b with
  | Num x, Num y => number_eqb x y
  | Str s, Str t => String.eqb s t
  | _, _ => false
  end.

Definition canon_cell (c : cell) : cell :=
  match c with Num n => Num (canon n) | _ => c end.

(** ** Exceptions and outcomes *)

Inductive exn : Type :=
| KeyError (missing : list cell)
| ValueError (msg : string)
| TypeError (msg : string)
| IntCastingNaNError
| FileNotFoundError (path : string)
| ParserError
| ReferenceError.

Inductive result (A : Type) : Type :=
| Ok (a : A)
| Raise (e : exn).
Arguments Ok {A} a.
Arguments Raise {A} e.

Definition rbind {A B} (r : result A) (f : A -> result B) : result B :=
  match r with Ok a => f a | Raise e => Raise e end.

Fixpoint rmap {A B} (f : A -> result B) (l : list A) : result (list B) :=
  match l with
  | [] => Ok []
  | x :: r => rbind (f x) (fun y => rbind (rmap f r) (fun ys => Ok (y :: ys)))
  end.

(** ** Tables *)

Definition Series := list cell.

Record DataFrame : Type := mkDataFrame {
  index_name : option cell;
  index : list cell;
  columns : list (cell * Series)
}.

Definition labels (df : DataFrame) : list cell := map fst (columns df).

Definition nrows (df : DataFrame) : nat := List.length (index df).

(** [c in df.columns] *)
Definition contains (c : cell) (ls : list cell) : bool := existsb (cell_eqb c) ls.

Fixpoint lookup_column (c : cell) (cols : list (cell * Series)) : option Series :=
  match cols with
  | [] => None
  | (l, s) :: r => if cell_eqb c l then Some s else lookup_column c r
  end.

(** [df[c]] *)
Definition getitem (df : DataFrame) (c : cell) : result Series :=
  match lookup_column c (columns df) with
  | Some s => Ok s
  | None => Raise (KeyError [c])
  end.

Fixpoint replace_column (c : cell) (s : Series) (cols : list (cell * Series))
  : list (cell * Series) :=
  match cols with
  | [] => [(c, s)]
  | (l, old) :: r =>
      if cell_eqb c l then (l, s) :: r else (l, old) :: replace_column c s r
  end.

(** [df[c] = s]: an existing column is replaced in place, a new one is
    appended.  The series assigned by the script always comes from the same
    table, so index alignment is positional. *)
Definition setitem (df : DataFrame) (c : cell) (s : Series) : DataFrame :=
  mkDataFrame (index_name df) (index df) (replace_column c s (columns df)).

Fixpoint select_mask {A} (m : list bool) (l : list A) : list A :=
  match m, l with
  | b :: m', x :: l' => if b then x :: select_mask m' l' else select_mask m' l'
  | _, _ => []
  end.

(** [df[mask]]: boolean indexing keeps the rows whose mask entry is true,
    with their index labels. *)
Definition filter_rows (m : list bool) (df : DataFrame) : DataFrame :=
  mkDataFrame (index_name df) (select_mask m (index df))
    (map (fun cs => (fst cs, select_mask m (snd cs))) (columns df)).

Definition missing_labels (want : list cell) (have : list cell) : list cell :=
  filter (fun c => negb (contains c have)) want.

(** [df[[c1; ...; cn]]] *)
Definition select_columns (df : DataFrame) (want : list cell) : result DataFrame :=
  match missing_labels want (labels df) with
  | [] =>
      rbind (rmap (fun c => rbind (getitem df c) (fun s => Ok (c, s))) want)
        (fun cols => Ok (mkDataFrame (index_name df) (index df) cols))
  | miss => Raise (KeyError miss)
  end.

Definition range_index (n : nat) : list cell :=
  map (fun i => Num (Int (Z.of_nat i))) (seq 0 n).

(** [df.reset_index()]: the index becomes the first column, under the name of
    the index, and rows are numbered from zero. *)
Definition reset_index (df : DataFrame) : result DataFrame :=
  let name := match index_name df with Some n => n | None => Str "index" end in
  if contains name (labels df)
  then Raise (ValueError "cannot insert, already exists")
  else Ok (mkDataFrame None (range_index (nrows df)) ((name, index df) :: columns df)).

(** [df.reset_index(drop=True)] *)
Definition reset_index_drop (df : DataFrame) : DataFrame :=
  mkDataFrame None (range_index (nrows df)) (columns df).

Fixpoint rename_label (mapping : list (cell * cell)) (c : cell) : cell :=
  match mapping with
  | [] => c
  | (old, new) :: r => if cell_eqb c old then new else rename_label r c
  end.

(** [df.rename(columns=mapping)] *)
Definition rename (mapping : list (cell * cell)) (df : DataFrame) : DataFrame :=
  mkDataFrame (index_name df) (index df)
    (map (fun cs => (rename_label mapping (fst cs), snd cs)) (columns df)).

(** [df.dropna(subset=cs)]: rows with a missing value in one of the columns
    [cs] are dropped; the remaining rows keep their index labels. *)
Definition dropna (subset : list cell) (df : DataFrame) : result DataFrame :=
  match missing_labels subset (labels df) with
  | [] =>
      rbind (rmap (getitem df) subset)
        (fun cols =>
           let keep i := forallb (fun s : Series => notna (nth i s NaN)) cols in
           Ok (filter_rows (map keep (seq 0 (nrows df))) df))
  | miss => Raise (KeyError miss)
  end.

(** [df.empty] *)
Definition empty (df : DataFrame) : bool :=
  (Nat.eqb (nrows df) 0 || Nat.eqb (List.length (columns df)) 0)%bool.

(** Rows at the given positions, in that order. *)
Definition take_rows (pos : list nat) (df : DataFrame) : DataFrame :=
  mkDataFrame (index_name df) (map (fun i => nth i (index df) NaN) pos)
    (map (fun cs => (fst cs, map (fun i => nth i (snd cs) NaN) pos)) (columns df)).

(** *** Sorting of keys *)

Fixpoint insert_sorted (x : cell) (l : list cell) : list cell :=
  match l with
  | [] => [x]
  | y :: r => if cell_leb x y then x :: l else y :: insert_sorted x r
  end.

Definition sort_keys (l : list cell) : list cell :=
  fold_right insert_sorted [] l.

(** Distinct values in order of first occurrence. *)
Fixpoint unique {A} (eqb : A -> A -> bool) (l : list A) : list A :=
  match l with
  | [] => []
  | x :: r => x :: filter (fun y => negb (eqb x y)) (unique eqb r)
  end.

(** *** pivot_table *)

Definition key : Type := (cell * cell)%type.

Definition key_eqb (k1 k2 : key) : bool :=
  (cell_eqb (fst k1) (fst k2) && cell_eqb (snd k1) (snd k2))%bool.

(** [GroupBy.first]: the first entry of the group that is not missing. *)
Fixpoint first_valid (vs : list cell) : cell :=
  match vs with
  | [] => NaN
  | v :: r => if notna v then v else first_valid r
  end.

(** [groupby([index; columns])[values].agg("first")]: rows with a missing
    key are left out of every group. *)
Definition groupby_first (rows : list (key * cell)) : list (key * cell) :=
  let valid := filter (fun r => (notna (fst (fst r)) && notna (snd (fst r)))%bool) rows in
  map (fun k => (k, first_valid (map snd (filter (fun r => key_eqb k (fst r)) valid))))
      (unique key_eqb (map fst valid)).

Definition agged_lookup (agged : list (key * cell)) (k : key) : cell :=
  match find (fun kv => key_eqb k (fst kv)) agged with
  | Some kv => snd kv
  | None => NaN
  end.

(** [df.pivot_table(index=i, columns=c, values=v, aggfunc="first")] with the
    defaults [dropna=True], [sort=True], [fill_value=None]: group by the two
    keys, aggregate with [first], drop the groups whose aggregate is missing,
    unstack the column key (row and column keys sorted, absent combinations
    missing) and drop the columns that hold no value. *)
Definition pivot_table (df : DataFrame) (i c v : cell) : result DataFrame :=
  rbind (getitem df i) (fun is_ =>
  rbind (getitem df c) (fun cs =>
  rbind (getitem df v) (fun vs =>
    let agged :=
      filter (fun kv => notna (snd kv))
             (groupby_first (combine (combine is_ cs) vs)) in
    let idx := sort_keys (unique cell_eqb (map (fun kv => fst (fst kv)) agged)) in
    let cols := sort_keys (unique cell_eqb (map (fun kv => snd (fst kv)) agged)) in
    let table := map (fun e => (e, map (fun y => agged_lookup agged (y, e)) idx)) cols in
    Ok (mkDataFrame (Some i) idx
          (filter (fun cs => existsb notna (snd cs)) table))))).

(** *** Numeric conversion *)

(** [Series.astype(int)]: non-finite values cannot be cast; finite floats are
    truncated toward zero.  A text would go through Python's [int]; the script
    only casts a column that [to_numeric] has already cleared of texts. *)
Definition astype_int_cell (c : cell) : result cell :=
  match c with
  | NaN => Raise IntCastingNaNError
  | Num (Inf _) => Raise IntCastingNaNError
  | Num (Int z) => Ok (Num (Int z))
  | Num (Float q) => Ok (Num (Int (Z.quot (Qnum q) (Zpos (Qden q)))))
  | Str _ => Raise (ValueError "invalid literal for int()")
  end.

Definition astype_int (s : Series) : result Series := rmap astype_int_cell s.

(** ** The world: object store, file system, console *)

Inductive artist : Type :=
| Scatter (x y : Series) (s : Z) (color : string)
| Bar (x y : Series) (color : string).

Record axes : Type := mkAxes {
  artists : list artist;
  title : string;
  xlabel : string;
  ylabel : string;
  grid : bool
}.

Record figure : Type := mkFigure {
  fig_axes : list axes;
  suptitle : string
}.

Inductive file : Type :=
| CsvFile (header : list string) (records : list (list string))
| ImageFile (fig : figure) (dpi : Z).

Definition addr : Type := nat.

Record world : Type := mkWorld {
  heap : list DataFrame;
  files : list (string * file);
  dirs : list string;
  stdout : list string
}.

(** Programs: a state monad over the world in which a call may raise. *)
Definition M (A : Type) : Type := world -> result A * world.

Definition ret {A} (a : A) : M A := fun w => (Ok a, w).

Definition bind {A B} (m : M A) (f : A -> M B) : M B :=
  fun w => match m w with
           | (Ok a, w') => f a w'
           | (Raise e, w') => (Raise e, w')
           end.

Definition lift {A} (r : result A) : M A := fun w => (r, w).

Notation "x <- m ;; k" := (bind m (fun x => k))
  (at level 61, m at next level, right associativity).
Notation "m ;; k" := (bind m (fun _ => k))
  (at level 61, right associativity).

Fixpoint for_each {A} (l : list A) (body : A -> M unit) : M unit :=
  match l with
  | [] => ret tt
  | x :: r => body x ;; for_each r body
  end.

Definition deref (p : addr) : M DataFrame :=
  fun w => match nth_error (heap w) p with
           | Some df => (Ok df, w)
           | None => (Raise ReferenceError, w)
           end.

Definition alloc (df : DataFrame) : M addr :=
  fun w => (Ok (List.length (heap w)),
            mkWorld (heap w ++ [df]) (files w) (dirs w) (stdout w)).

Fixpoint update {A} (l : list A) (i : nat) (x : A) : list A :=
  match l, i with
  | [], _ => []
  | _ :: r, O => x :: r
  | y :: r, S j => y :: update r j x
  end.

Definition store (p : addr) (df : DataFrame) : M unit :=
  fun w => (Ok tt, mkWorld (update (heap w) p df) (files w) (dirs w) (stdout w)).

(** A method that returns a new table and leaves its receiver alone. *)
Definition new_from (f : DataFrame -> result DataFrame) (p : addr) : M addr :=
  df <- deref p ;; df' <- lift (f df) ;; alloc df'.

Definition DataFrame_copy : addr -> M addr := new_from (fun df => Ok df).

Definition DataFrame_getitem (p : addr) (c : cell) : M Series :=
  df <- deref p ;; lift (getitem df c).

Definition DataFrame_setitem (p : addr) (c : cell) (s : Series) : M unit :=
  df <- deref p ;; store p (setitem df c s).

Definition DataFrame_columns (p : addr) : M (list cell) :=
  df <- deref p ;; ret (labels df).

Definition DataFrame_empty (p : addr) : M bool :=
  df <- deref p ;; ret (empty df).

Definition print (line : string) : M unit :=
  fun w => (Ok tt, mkWorld (heap w) (files w) (dirs w) (stdout w ++ [line])).

(** [os.makedirs(d, exist_ok=True)] *)
Definition makedirs (d : string) : M unit :=
  fun w => (Ok tt,
            mkWorld (heap w) (files w)
              (if existsb (String.eqb d) (dirs w) then dirs w else d :: dirs w)
              (stdout w)).

Fixpoint ends_with_slash (s : string) : bool :=
  match s with
  | EmptyString => false
  | String c EmptyString => Ascii.eqb c "/"%char
  | String _ r => ends_with_slash r
  end.

(** [os.path.join(a, b)] *)
Definition path_join (a b : string) : string :=
  if String.prefix "/" b then b
  else if (String.eqb a "" || ends_with_slash a)%bool then a ++ b
  else a ++ "/" ++ b.

(** [fig.savefig(path, dpi=dpi)]: the file is created or overwritten. *)
Definition savefig (fig : figure) (path : string) (dpi : Z) : M unit :=
  fun w => (Ok tt,
            mkWorld (heap w) ((path, ImageFile fig dpi) :: files w) (dirs w) (stdout w)).

Definition write_file (path : string) (f : file) : M unit :=
  fun w => (Ok tt, mkWorld (heap w) ((path, f) :: files w) (dirs w) (stdout w)).

Definition read_file (path : string) : M file :=
  fun w => match find (fun pf => String.eqb path (fst pf)) (files w) with
           | Some pf => (Ok (snd pf), w)
           | None => (Raise (FileNotFoundError path), w)
           end.

Definition empty_axes : axes := mkAxes [] "" "" "" false.

(** [plt.subplots(r, c)]: a figure with [r * c] empty panels, row by row. *)
Definition subplots (r c : nat) : figure := mkFigure (repeat empty_axes (r * c)) "".

Definition on_axes (fig : figure) (i : nat) (f : axes -> axes) : figure :=
  mkFigure (update (fig_axes fig) i (f (nth i (fig_axes fig) empty_axes))) (suptitle fig).

Definition add_artist (a : artist) (ax : axes) : axes :=
  mkAxes (artists ax ++ [a]) (title ax) (xlabel ax) (ylabel ax) (grid ax).

Definition set_title (t : string) (ax : axes) : axes :=
  mkAxes (artists ax) t (xlabel ax) (ylabel ax) (grid ax).

Definition set_xlabel (t : string) (ax : axes) : axes :=
  mkAxes (artists ax) (title ax) t (ylabel ax) (grid ax).

Definition set_ylabel (t : string) (ax : axes) : axes :=
  mkAxes (artists ax) (title ax) (xlabel ax) t (grid ax).

Definition set_grid (ax : axes) : axes :=
  mkAxes (artists ax) (title ax) (xlabel ax) (ylabel ax) true.

Definition set_suptitle (t : string) (fig : figure) : figure :=
  mkFigure (fig_axes fig) t.

(** ** read_csv: tokens to typed columns *)

(** The texts [read_csv] reads as a missing value by default. *)
Definition default_na : list string :=
  [""; "#N/A"; "#N/A N/A"; "#NA"; "-1.#IND"; "-1.#QNAN"; "-NaN"; "-nan";
   "1.#IND"; "1.#QNAN"; "<NA>"; "N/A"; "NA"; "NULL"; "NaN"; "None"; "n/a";
   "nan"; "null"].

Definition is_na_token (t : string) : bool := existsb (String.eqb t) default_na.

Section Library.

(** The numeric literals pandas recognises in a text. *)
Variable parse_number : string -> option number.

(** The positions of a list of keys in ascending order of the keys, as
    numpy's argsort returns them for the default [kind="quicksort"]. *)
Variable argsort : list cell -> list nat.

(** The text pandas writes for a number. *)
Variable format_number : number -> string.

Definition to_numeric_cell (c : cell) : cell :=
  match c with
  | Str s => match parse_number s with Some n => Num n | None => NaN end
  | _ => c
  end.

(** [pd.to_numeric(s, errors="coerce")] *)
Definition to_numeric (s : Series) : Series := map to_numeric_cell s.

Definition is_number (c : cell) : bool :=
  match c with Num _ => true | _ => false end.

Definition is_text (c : cell) : bool :=
  match c with Str _ => true | _ => false end.

(** [df.sort_values(by)] with the defaults [ascending=True],
    [kind="quicksort"], [na_position="last"]: the rows whose key is not
    missing, in the order argsort gives, then the rows whose key is missing.
    Numbers and texts cannot be compared with each other. *)
Definition sort_values (by_ : cell) (df : DataFrame) : result DataFrame :=
  rbind (getitem df by_) (fun keys =>
    let pos := seq 0 (List.length keys) in
    let valid := filter (fun i => notna (nth i keys NaN)) pos in
    let missing := filter (fun i => isna (nth i keys NaN)) pos in
    let vals := map (fun i => nth i keys NaN) valid in
    if (forallb is_number vals || forallb is_text vals)%bool
    then Ok (take_rows (map (fun j => nth j valid 0) (argsort vals) ++ missing) df)
    else Raise (TypeError "'<' not supported between instances of 'str' and 'int'")).

(** Type inference of one column of [read_csv]: the default markers are
    missing values; when every other token is a numeric literal the column
    holds numbers, otherwise it keeps its texts.  (Boolean and date
    inference, quoting and duplicate header names are outside the
    embedding.) *)
Definition is_numeric_token (t : string) : bool :=
  match parse_number t with Some _ => true | None => false end.

Definition infer_column (tokens : list string) : Series :=
  if forallb is_numeric_token (filter (fun t => negb (is_na_token t)) tokens)
  then map (fun t => if is_na_token t then NaN else to_numeric_cell (Str t)) tokens
  else map (fun t => if is_na_token t then NaN else Str t) tokens.

(** A record with more fields than the header cannot be parsed; a shorter
    one is completed with empty fields. *)
Definition read_csv_table (header : list string) (records : list (list string))
  : result DataFrame :=
  if existsb (fun r => Nat.ltb (List.length header) (List.length r)) records
  then Raise ParserError
  else
    let field j (r : list string) := nth j r "" in
    Ok (mkDataFrame None (range_index (List.length records))
          (map (fun j => (Str (nth j header ""), infer_column (map (field j) records)))
               (seq 0 (List.length header)))).

(** [pd.read_csv(path)] *)
Definition read_csv (path : string) : M addr :=
  f <- read_file path ;;
  match f with
  | CsvFile header records => df <- lift (read_csv_table header records) ;; alloc df
  | ImageFile _ _ => lift (Raise ParserError)
  end.

(** ** The functions of [src/analysis.py] *)

Definition load_data (file_path : string) : M addr :=
  read_csv file_path.

Definition process_countries_data (df : addr) (country : string) : M addr :=
  area <- DataFrame_getitem df (Str "Area") ;;
  country_df <- new_from (fun d => Ok (filter_rows (map (fun a => cell_eqb a (Str country)) area) d)) df ;;
  country_df <- new_from (fun d => select_columns d [Str "Year"; Str "Element"; Str "Value"]) country_df ;;
  pivot_df <- new_from (fun d => pivot_table d (Str "Year") (Str "Element") (Str "Value")) country_df ;;
  pivot_df <- new_from reset_index pivot_df ;;
  pivot_df <- new_from (fun d => Ok (rename [(Str "Area harvested", Str "Area harvested");
                                             (Str "Yield", Str "Yield");
                                             (Str "Production", Str "Production")] d)) pivot_df ;;
  let cols := [Str "Year"; Str "Area harvested"; Str "Yield"; Str "Production"] in
  pivot_columns <- DataFrame_columns pivot_df ;;
  let existing := filter (fun c => contains c pivot_columns) cols in
  new_from (fun d => select_columns d existing) pivot_df.

Definition cell_text (c : cell) : string :=
  match c with
  | NaN => ""
  | Num n => format_number n
  | Str s => s
  end.

(** [df.to_csv(path, index=False)]: a header row, then one record per row,
    without the index. *)
Definition to_csv (df : addr) (path : string) : M unit :=
  d <- deref df ;;
  write_file path
    (CsvFile (map cell_text (labels d))
       (map (fun i => map (fun cs : cell * Series => cell_text (nth i (snd cs) NaN)) (columns d))
            (seq 0 (nrows d)))).

Definition save_table (df : addr) (output_dir filename : string) : M unit :=
  makedirs output_dir ;;
  let file_path := path_join output_dir filename in
  to_csv df file_path.

Definition clean_and_sort (df : addr) : M addr :=
  df <- DataFrame_copy df ;;
  year <- DataFrame_getitem df (Str "Year") ;;
  DataFrame_setitem df (Str "Year") (to_numeric year) ;;
  df <- new_from (dropna [Str "Year"]) df ;;
  year <- DataFrame_getitem df (Str "Year") ;;
  year <- lift (astype_int year) ;;
  DataFrame_setitem df (Str "Year") year ;;
  for_each [Str "Area harvested"; Str "Yield"; Str "Production"] (fun col =>
    df_columns <- DataFrame_columns df ;;
    if contains col df_columns
    then s <- DataFrame_getitem df col ;; DataFrame_setitem df col (to_numeric s)
    else ret tt) ;;
  df <- new_from (sort_values (Str "Year")) df ;;
  new_from (fun d => Ok (reset_index_drop d)) df.

Definition plot_scatter (df : addr) (country_name output_dir filename color : string)
    (marker_size : Z) : M unit :=
  makedirs output_dir ;;
  df_columns <- DataFrame_columns df ;;
  if negb (contains (Str "Yield") df_columns)
  then print ("Warning: 'Yield' column not found for " ++ country_name
              ++ ". Skipping scatter plot.")%string
  else
    df_plot <- new_from (dropna [Str "Yield"]) df ;;
    is_empty <- DataFrame_empty df_plot ;;
    if is_empty
    then print ("Warning: No valid Yield values for " ++ country_name
                ++ ". Skipping scatter plot.")%string
    else
      let fig := subplots 1 1 in
      x <- DataFrame_getitem df_plot (Str "Year") ;;
      y <- DataFrame_getitem df_plot (Str "Yield") ;;
      let fig := on_axes fig 0 (add_artist (Scatter x y marker_size color)) in
      let fig := on_axes fig 0 (set_title (country_name ++ " — Yield by Year")%string) in
      let fig := on_axes fig 0 (set_xlabel "Year") in
      let fig := on_axes fig 0 (set_ylabel "Yield") in
      let fig := on_axes fig 0 set_grid in
      let out_path := path_join output_dir filename in
      savefig fig out_path 300 ;;
      print ("Saved scatter plot for " ++ country_name ++ ": " ++ out_path)%string.

Definition plot_bar (df : addr) (country_name output_dir filename color : string)
  : M unit :=
  makedirs output_dir ;;
  df_columns <- DataFrame_columns df ;;
  if negb (contains (Str "Area harvested") df_columns)
  then print ("Warning: 'Area harvested' column not found for " ++ country_name
              ++ ". Skipping bar chart.")%string
  else
    df_plot <- new_from (dropna [Str "Area harvested"]) df ;;
    is_empty <- DataFrame_empty df_plot ;;
    if is_empty
    then print ("Warning: No valid Area harvested values for " ++ country_name
                ++ ". Skipping bar chart.")%string
    else
      let fig := subplots 1 1 in
      x <- DataFrame_getitem df_plot (Str "Year") ;;
      y <- DataFrame_getitem df_plot (Str "Area harvested") ;;
      let fig := on_axes fig 0 (add_artist (Bar x y color)) in
      let fig := on_axes fig 0 (set_title (country_name ++ " — Area harvested by Year")%string) in
      let fig := on_axes fig 0 (set_xlabel "Year") in
      let fig := on_axes fig 0 (set_ylabel "Area harvested") in
      let fig := on_axes fig 0 set_grid in
      let out_path := path_join output_dir filename in
      savefig fig out_path 300 ;;
      print ("Saved bar chart for " ++ country_name ++ ": " ++ out_path)%string.

Definition plot_combined (ghana_df coast_df : addr) (output_dir filename : string)
  : M unit :=
  makedirs output_dir ;;
  let fig := subplots 2 2 in
  (* Ghana scatter *)
  g_scatter <- new_from (dropna [Str "Yield"]) ghana_df ;;
  x <- DataFrame_getitem g_scatter (Str "Year") ;;
  y <- DataFrame_getitem g_scatter (Str "Yield") ;;
  let fig := on_axes fig 0 (add_artist (Scatter x y 60 "seagreen")) in
  let fig := on_axes fig 0 (set_title "Ghana — Yield by Year") in
  let fig := on_axes fig 0 (set_xlabel "Year") in
  let fig := on_axes fig 0 (set_ylabel "Yield (hg/ha)") in
  let fig := on_axes fig 0 set_grid in
  (* Côte d'Ivoire scatter *)
  c_scatter <- new_from (dropna [Str "Yield"]) coast_df ;;
  x <- DataFrame_getitem c_scatter (Str "Year") ;;
  y <- DataFrame_getitem c_scatter (Str "Yield") ;;
  let fig := on_axes fig 1 (add_artist (Scatter x y 60 "darkorange")) in
  let fig := on_axes fig 1 (set_title "Côte d'Ivoire — Yield by Year") in
  let fig := on_axes fig 1 (set_xlabel "Year") in
  let fig := on_axes fig 1 (set_ylabel "Yield (hg/ha)") in
  let fig := on_axes fig 1 set_grid in
  (* Ghana bar *)
  g_bar <- new_from (dropna [Str "Area harvested"]) ghana_df ;;
  x <- DataFrame_getitem g_bar (Str "Year") ;;
  y <- DataFrame_getitem g_bar (Str "Area harvested") ;;
  let fig := on_axes fig 2 (add_artist (Bar x y "royalblue")) in
  let fig := on_axes fig 2 (set_title "Ghana — Area harvested by Year") in
  let fig := on_axes fig 2 (set_xlabel "Year") in
  let fig := on_axes fig 2 (set_ylabel "Area harvested (ha)") in
  let fig := on_axes fig 2 set_grid in
  (* Côte d'Ivoire bar *)
  c_bar <- new_from (dropna [Str "Area harvested"]) coast_df ;;
  x <- DataFrame_getitem c_bar (Str "Year") ;;
  y <- DataFrame_getitem c_bar (Str "Area harvested") ;;
  let fig := on_axes fig 3 (add_artist (Bar x y "firebrick")) in
  let fig := on_axes fig 3 (set_title "Côte d'Ivoire — Area harvested by Year") in
  let fig := on_axes fig 3 (set_xlabel "Year") in
  let fig := on_axes fig 3 (set_ylabel "Area harvested (ha)") in
  let fig := on_axes fig 3 set_grid in
  (* Overall title *)
  let fig := set_suptitle "Cocoa Production in Ghana and Côte d'Ivoire (1961–2022)" fig in
  let out_path := path_join output_dir filename in
  savefig fig out_path 300 ;;
  print ("Saved combined plot with annotations: " ++ out_path)%string.

(** [main], from the parsed arguments [args.file] and [args.output] on. *)
Definition main (args_file args_output : string) : M unit :=
  df <- load_data args_file ;;
  (* Ghana *)
  ghana_table <- process_countries_data df "Ghana" ;;
  ghana_table <- clean_and_sort ghana_table ;;
  save_table ghana_table args_output "ghana_table.csv" ;;
  plot_scatter ghana_table "Ghana" args_output "ghana_yield_scatter.png" "tab:green" 40 ;;
  plot_bar ghana_table "Ghana" args_output "ghana_area_bar.png" "tab:blue" ;;
  (* Côte d'Ivoire *)
  coast_table <- process_countries_data df "Côte d'Ivoire" ;;
  coast_table <- clean_and_sort coast_table ;;
  save_table coast_table args_output "coast_table.csv" ;;
  plot_scatter coast_table "Côte d'Ivoire" args_output "coast_yield_scatter.png" "tab:orange" 40 ;;
  plot_bar coast_table "Côte d'Ivoire" args_output "coast_area_bar.png" "tab:red" ;;
  (* Combined multi-panel PDF *)
  plot_combined ghana_table coast_table args_output "combined_plots.pdf" ;;
  print ("All outputs saved in: " ++ args_output)%string.

End Library.

(** ** Value-level summaries of the two transforms

    What [process_countries_data] and [clean_and_sort] compute on the value
    of the table they are given; [process_countries_data_run] and
    [clean_and_sort_run] relate them to the programs. *)

Definition metric_labels : list cell :=
  [Str "Area harvested"; Str "Yield"; Str "Production"].

Definition process_frame (df : DataFrame) (country : string) : result DataFrame :=
  rbind (getitem df (Str "Area")) (fun area =>
  let country_df := filter_rows (map (fun a => cell_eqb a (Str country)) area) df in
  rbind (select_columns country_df [Str "Year"; Str "Element"; Str "Value"]) (fun country_df =>
  rbind (pivot_table country_df (Str "Year") (Str "Element") (Str "Value")) (fun pivot_df =>
  rbind (reset_index pivot_df) (fun pivot_df =>
  let pivot_df := rename [(Str "Area harvested", Str "Area harvested");
                          (Str "Yield", Str "Yield");
                          (Str "Production", Str "Production")] pivot_df in
  select_columns pivot_df
    (filter (fun c => contains c (labels pivot_df))
            [Str "Year"; Str "Area harvested"; Str "Yield"; Str "Production"]))))).

(** Every column has one cell per row. *)
Definition well_formed (df : DataFrame) : Prop :=
  Forall (fun cs : cell * Series => List.length (snd cs) = nrows df) (columns df).

(** The cell of row [i] in column [c] ([NaN] when the column is absent). *)
Definition cell_at (df : DataFrame) (c : cell) (i : nat) : cell :=
  match lookup_column c (columns df) with
  | Some s => nth i s NaN
  | None => NaN
  end.

Section Frames.

Variable parse_number : string -> option number.
Variable argsort : list cell -> list nat.

Definition coerce_column (d : DataFrame) (col : cell) : DataFrame :=
  if contains col (labels d)
  then match getitem d col with
       | Ok s => setitem d col (to_numeric parse_number s)
       | Raise _ => d
       end
  else d.

Definition clean_frame (df : DataFrame) : result DataFrame :=
  rbind (getitem df (Str "Year")) (fun year =>
  let d1 := setitem df (Str "Year") (to_numeric parse_number year) in
  rbind (dropna [Str "Year"] d1) (fun d2 =>
  rbind (getitem d2 (Str "Year")) (fun year =>
  rbind (astype_int year) (fun year =>
  let d3 := setitem d2 (Str "Year") year in
  let d4 := fold_left coerce_column metric_labels d3 in
  rbind (sort_values argsort (Str "Year") d4) (fun d5 =>
  Ok (reset_index_drop d5)))))).

(** The rows whose Year reads as a number, by position. *)
Definition year_parses (df : DataFrame) (i : nat) : bool :=
  notna (to_numeric_cell parse_number (cell_at df (Str "Year") i)).

Definition surviving_rows (df : DataFrame) : list nat :=
  filter (year_parses df) (seq 0 (nrows df)).

(** What numpy promises of argsort whatever the kind: the positions of the
    keys, each once, so that the keys read in that order ascend. *)
Definition argsort_spec : Prop :=
  forall keys : list cell,
    Permutation (argsort keys) (seq 0 (List.length keys)) /\
    Sorted (fun a b => cell_leb a b = true)
           (map (fun i => nth i keys NaN) (argsort keys)).

End Frames.

(** The values of the rows grouped under a key, in input order. *)
Definition group_values (rows : list (key * cell)) (k : key) : list cell :=
  map snd (filter (fun r => key_eqb k (fst r)) rows).

(** The groups [pivot_table] keeps: those whose aggregate is not missing. *)
Definition pivot_groups (rows : list (key * cell)) : list (key * cell) :=
  filter (fun kv => notna (snd kv)) (groupby_first rows).

(** The Values, in input order, of the rows of a raw table recorded for an
    entity, a year and an element. *)
Definition matching_values (df : DataFrame) (country : string) (y e : cell) : list cell :=
  map (fun i => cell_at df (Str "Value") i)
      (filter (fun i => (cell_eqb (cell_at df (Str "Area") i) (Str country) &&
                         (cell_eqb (cell_at df (Str "Year") i) y &&
                          cell_eqb (cell_at df (Str "Element") i) e))%bool)
              (seq 0 (nrows df))).

(** The column [c] of a table (empty when the table has no such column). *)
Definition column (df : DataFrame) (c : cell) : Series :=
  match lookup_column c (columns df) with
  | Some s => s
  | None => []
  end.

(** The rows of a table that have a value in column [c]. *)
Definition valid_rows (c : cell) (df : DataFrame) : DataFrame :=
  match dropna [c] df with
  | Ok d => d
  | Raise _ => df
  end.

(** The integer held by a cell of an integer column. *)
Definition int_value (c : cell) : Z :=
  match c with Num (Int z) => z | _ => 0%Z end.


(** ** What a call may change

    [extends paths d w w']: the world [w'] comes from [w] by allocating
    tables (no table of [w] is changed), writing files at paths among
    [paths] only, creating no directory other than [d], and printing. *)
Definition extends (paths : list string) (d : string) (w w' : world) : Prop :=
  (exists tables, heap w' = heap w ++ tables) /\
  (exists new, files w' = new ++ files w /\
               Forall (fun pf : string * file => In (fst pf) paths) new) /\
  (incl (dirs w) (dirs w') /\ forall x, In x (dirs w') -> x = d \/ In x (dirs w)) /\
  (exists lines, stdout w' = stdout w ++ lines).

Definition footprint {A} (paths : list string) (d : string) (m : M A) : Prop :=
  forall w, extends paths d w (snd (m w)).

(** The names of the files [main] writes in the output directory. *)
Definition output_names : list string :=
  ["ghana_table.csv"; "ghana_yield_scatter.png"; "ghana_area_bar.png";
   "coast_table.csv"; "coast_yield_scatter.png"; "coast_area_bar.png";
   "combined_plots.pdf"].

(** Whether the raw table has a record of the entity for the element [e]
    that the pivot counts: its Year and its Value are not missing. *)
Definition recorded (df : DataFrame) (country : string) (e : cell) : bool :=
  existsb (fun i => (cell_eqb (cell_at df (Str "Area") i) (Str country) &&
                     (notna (cell_at df (Str "Year") i) &&
                      (cell_eqb (cell_at df (Str "Element") i) e &&
                       notna (cell_at df (Str "Value") i))))%bool)
          (seq 0 (nrows df)).

(** Whether a cell holds an infinite number. *)
Definition infinite (c : cell) : bool :=
  match c with Num (Inf _) => true | _ => false end.




(** ** Preconditions of the library calls

    Conditions on the arguments of a call under which the library calls it
    makes return as embedded.  They are sufficient conditions, kept simple;
    the theorems that say a chart is drawn or skipped, and the theorem on
    the whole run, take them as hypotheses. *)

Fixpoint string_forallb (p : ascii -> bool) (s : string) : bool :=
  match s with
  | EmptyString => true
  | String c r => (p c && string_forallb p r)%bool
  end.

Definition between (lo hi : string) (c : ascii) : bool :=
  match lo, hi with
  | String l _, String h _ =>
      (Nat.leb (nat_of_ascii l) (nat_of_ascii c) &&
       Nat.leb (nat_of_ascii c) (nat_of_ascii h))%bool
  | _, _ => false
  end.

(** The characters of a portable file name: letters, digits, [.], [_]
    and [-]. *)
Definition name_char (c : ascii) : bool :=
  (between "a" "z" c || between "A" "Z" c || between "0" "9" c ||
   Ascii.eqb c "."%char || Ascii.eqb c "_"%char || Ascii.eqb c "-"%char)%bool.

(** A directory [os.makedirs] is asked to create: a path of portable names.
    [os.makedirs] raises [FileNotFoundError] on the empty path. *)
Definition creatable (d : string) : bool :=
  (negb (String.eqb d "") && Nat.leb (String.length d) 255 &&
   string_forallb (fun c => (name_char c || Ascii.eqb c "/"%char)%bool) d)%bool.

(** The formats every build of matplotlib writes without another program. *)
Definition image_formats : list string := ["png"; "pdf"; "svg"; "ps"; "eps"].

Fixpoint ends_with_dot (s : string) : bool :=
  match s with
  | EmptyString => false
  | String c EmptyString => Ascii.eqb c "."%char
  | String _ r => ends_with_dot r
  end.

(** [name] is [stem.ext]: [savefig] takes the format from the text after the
    last dot of the name. *)
Definition has_extension (name ext : string) : bool :=
  let n := String.length name in
  let e := String.length ext in
  (Nat.ltb (S e) n &&
   String.eqb (substring (n - e) e name) ext &&
   String.eqb (substring (n - S e) 1 name) "." &&
   negb (ends_with_dot (substring 0 (n - S e) name)))%bool.

(** A file name [savefig] writes under exactly that name: a portable name
    (so a name in the output directory) whose stem does not end in a dot
    and whose extension is an image format.  [savefig] raises [ValueError]
    on another extension and appends [.png] to a name that has none. *)
Definition image_name (name : string) : bool :=
  (Nat.leb (String.length name) 255 && string_forallb name_char name &&
   existsb (has_extension name) image_formats)%bool.







Fixpoint distinct_labels (l : list cell) : bool :=
  match l with
  | [] => true
  | x :: r => (negb (existsb (cell_eqb x) r) && distinct_labels r)%bool
  end.

(** A table as the loader and the two transforms return it: the index has
    no name and no two columns have the same label.  pandas answers [df[c]]
    with a table when two columns are labelled [c], and refuses a label
    that is also the name of the index. *)
Definition plain_table (df : DataFrame) : bool :=
  (match index_name df with None => true | Some _ => false end &&
   distinct_labels (labels df))%bool.

(** ** Where the numbers of the embedding are the numbers of pandas

    pandas stores a numeric column as int64 or, once it holds a missing
    value or a fraction, as float64.  The embedding keeps every number
    exact and unbounded, so it agrees with pandas on the numbers that a
    float64 holds exactly and that the cast to int64 does not overflow. *)

(** An integer is held exactly by a float64 up to 2^53. *)
Definition float_exact (n : number) : bool :=
  match n with
  | Int z => (Z.abs z <=? 2 ^ 53)%Z
  | _ => true
  end.

(** The cast to int64 is exact on these integers, and truncates the finite
    floats below 2^63 in size; numpy leaves the cast of the others to the
    processor. *)
Definition int64_exact (n : number) : bool :=
  match n with
  | Int z => (Z.abs z <=? 2 ^ 53)%Z
  | Float q => (Z.abs (Qnum q) <? 2 ^ 63 * Zpos (Qden q))%Z
  | Inf _ => false
  end.

(** [z] is the integer part of [n]: [n] itself when it is an integer;
    otherwise the integer of the sign of [n] with [|z| <= |n| < |z| + 1]. *)
Definition integer_part (n : number) (z : Z) : bool :=
  match n with
  | Int v => (z =? v)%Z
  | Float q =>
      ((Z.abs z * Zpos (Qden q) <=? Z.abs (Qnum q)) &&
       (Z.abs (Qnum q) <? (Z.abs z + 1) * Zpos (Qden q)) &&
       (0 <=? z * Qnum q))%Z%bool
  | Inf _ => false
  end.

(** Row [k] of [out] is row [i] of [df] cleaned: its Year is an integer,
    the integer part of the number read in the Year of row [i]; a metric
    cell is missing exactly when the cell of row [i] does not read as a
    number, and otherwise holds the number read; no other cell differs. *)
Definition cleaned_row (parse_number : string -> option number)
    (df out : DataFrame) (i k : nat) : Prop :=
  (exists z, cell_at out (Str "Year") k = Num (Int z) /\
     forall n, to_numeric_cell parse_number (cell_at df (Str "Year") i) = Num n ->
               int64_exact n = true -> integer_part n z = true) /\
  (forall c, contains c metric_labels = true ->
     isna (cell_at out c k) = isna (to_numeric_cell parse_number (cell_at df c i)) /\
     forall n, to_numeric_cell parse_number (cell_at df c i) = Num n ->
               float_exact n = true -> cell_at out c k = Num n) /\
  (forall c, contains c (Str "Year" :: metric_labels) = false ->
     cell_at out c k = cell_at df c i).

(** ** The files read_csv reads as embedded *)




(** ** Instances used to evaluate concrete runs *)

Definition digit_value (c : ascii) : option Z :=
  let n := nat_of_ascii c in
  if (Nat.leb 48 n && Nat.leb n 57)%bool then Some (Z.of_nat (n - 48)) else None.

Fixpoint digits_value (s : string) (acc : Z) : option Z :=
  match s with
  | EmptyString => Some acc
  | String c r =>
      match digit_value c with
      | Some d => digits_value r (10 * acc + d)%Z
      | None => None
      end
  end.

Fixpoint split_dot (s : string) : string * option string :=
  match s with
  | EmptyString => (EmptyString, None)
  | String c r =>
      if Ascii.eqb c "."%char then (EmptyString, Some r)
      else let (a, b) := split_dot r in (String c a, b)
  end.

(** Plain decimal literals: an optional sign, digits, and an optional
    fractional part. *)
Definition decimal_number (s : string) : option number :=
  let (neg, body) :=
    match s with
    | String "-"%char r => (true, r)
    | String "+"%char r => (false, r)
    | _ => (false, s)
    end in
  let sign (z : Z) := if neg then (- z)%Z else z in
  match split_dot body with
  | (ip, None) =>
      if String.eqb ip "" then None
      else option_map (fun v => Int (sign v)) (digits_value ip 0)
  | (ip, Some fp) =>
      if (String.eqb ip "" && String.eqb fp "")%bool then None
      else
        match digits_value ip 0, digits_value fp 0 with
        | Some a, Some b =>
            let scale := (10 ^ Z.of_nat (String.length fp))%Z in
            Some (Float (Qmake (sign (a * scale + b)%Z) (Z.to_pos scale)))
        | _, _ => None
        end
  end.

(** Integers in decimal; other numbers by numerator and denominator. *)
Definition decimal_text (n : number) : string :=
  match n with
  | Int z => NilZero.string_of_int (Z.to_int z)
  | Float q =>
      NilZero.string_of_int (Z.to_int (Qnum q)) ++ "/"
      ++ NilZero.string_of_int (Z.to_int (Zpos (Qden q)))
  | Inf true => "-inf"
  | Inf false => "inf"
  end.

Fixpoint insert_position (before : cell -> cell -> bool) (keys : list cell)
    (i : nat) (l : list nat) : list nat :=
  match l with
  | [] => [i]
  | j :: r =>
      if before (nth i keys NaN) (nth j keys NaN) then i :: l
      else j :: insert_position before keys i r
  end.

(** An argsort that keeps tied keys in their prior order. *)
Definition insertion_argsort (keys : list cell) : list nat :=
  fold_right (insert_position cell_leb keys) [] (seq 0 (List.length keys)).

(** numpy's argsort for the default [kind="quicksort"], as its generic
    kernel computes it ([aquicksort_] and [aheapsort_] of numpy's npysort):
    an introsort on the array [tosort] of the positions of the keys [v].  A
    run of more than 17 positions is partitioned around the median of its
    first, middle and last key; the larger part is put aside with the depth
    left and the smaller part is partitioned on; a run of at most 17
    positions is sorted by insertion; a part that is taken up again once the
    depth is used up is sorted by heapsort.  (numpy also has kernels for
    particular processors, which need not order tied keys the same way.) *)
Section Quicksort.

Variable v : list cell.

(** [v[i] < v[j]] *)
Definition key_less (i j : nat) : bool :=
  negb (cell_leb (nth j v NaN) (nth i v NaN)).

Definition INTP_SWAP (a : list nat) (i j : nat) : list nat :=
  update (update a i (nth j a 0)) j (nth i a 0).

(** [do ++pi; while (v[*pi] < vp)] *)
Fixpoint scan_right (fuel : nat) (a : list nat) (vp pi : nat) : nat :=
  match fuel with
  | O => pi
  | S fuel' =>
      let pi := S pi in
      if key_less (nth pi a 0) vp then scan_right fuel' a vp pi else pi
  end.

(** [do --pj; while (vp < v[*pj])] *)
Fixpoint scan_left (fuel : nat) (a : list nat) (vp pj : nat) : nat :=
  match fuel with
  | O => pj
  | S fuel' =>
      let pj := pj - 1 in
      if key_less vp (nth pj a 0) then scan_left fuel' a vp pj else pj
  end.

Fixpoint partition_loop (fuel : nat) (a : list nat) (vp pi pj : nat) : list nat * nat :=
  match fuel with
  | O => (a, pi)
  | S fuel' =>
      let pi := scan_right (List.length a) a vp pi in
      let pj := scan_left (List.length a) a vp pj in
      if Nat.leb pj pi then (a, pi)
      else partition_loop fuel' (INTP_SWAP a pi pj) vp pi pj
  end.

(** [while (pj > pl && vp < v[*pk]) *pj-- = *pk--;  *pj = vi] *)
Fixpoint shift_right (fuel : nat) (a : list nat) (pl pj vi : nat) : list nat :=
  match fuel with
  | O => update a pj vi
  | S fuel' =>
      if (Nat.ltb pl pj && key_less vi (nth (pj - 1) a 0))%bool
      then shift_right fuel' (update a pj (nth (pj - 1) a 0)) pl (pj - 1) vi
      else update a pj vi
  end.

Definition insertion_sort (a : list nat) (pl pr : nat) : list nat :=
  fold_left (fun a pi => shift_right pi a pl pi (nth pi a 0)) (seq (S pl) (pr - pl)) a.

(** The heap is the run that starts at [pl], numbered from 1. *)
Fixpoint sift_down (fuel : nat) (a : list nat) (pl n tmp i j : nat) : list nat :=
  match fuel with
  | O => update a (pl + i - 1) tmp
  | S fuel' =>
      if Nat.leb j n then
        let j := if (Nat.ltb j n && key_less (nth (pl + j - 1) a 0) (nth (pl + j) a 0))%bool
                 then j + 1 else j in
        if key_less tmp (nth (pl + j - 1) a 0)
        then sift_down fuel' (update a (pl + i - 1) (nth (pl + j - 1) a 0)) pl n tmp j (j + j)
        else update a (pl + i - 1) tmp
      else update a (pl + i - 1) tmp
  end.

Fixpoint heap_extract (fuel : nat) (a : list nat) (pl n : nat) : list nat :=
  match fuel with
  | O => a
  | S fuel' =>
      if Nat.ltb 1 n then
        let tmp := nth (pl + n - 1) a 0 in
        let a := update a (pl + n - 1) (nth pl a 0) in
        let n := n - 1 in
        heap_extract fuel' (sift_down n a pl n tmp 1 2) pl n
      else a
  end.

Definition aheapsort (a : list nat) (pl n : nat) : list nat :=
  let a := fold_left (fun a l => sift_down n a pl n (nth (pl + l - 1) a 0) l (l + l))
                     (rev (seq 1 (Nat.div2 n))) a in
  heap_extract n a pl n.

Definition SMALL_QUICKSORT : nat := 16.

Fixpoint aquicksort_loop (fuel : nat) (a : list nat) (pl pr : nat) (cdepth : Z) : list nat :=
  match fuel with
  | O => a
  | S fuel' =>
      if Nat.ltb SMALL_QUICKSORT (pr - pl) then
        let pm := pl + Nat.div2 (pr - pl) in
        let a := if key_less (nth pm a 0) (nth pl a 0) then INTP_SWAP a pm pl else a in
        let a := if key_less (nth pr a 0) (nth pm a 0) then INTP_SWAP a pr pm else a in
        let a := if key_less (nth pm a 0) (nth pl a 0) then INTP_SWAP a pm pl else a in
        let vp := nth pm a 0 in
        let a := INTP_SWAP a pm (pr - 1) in
        let (a, pi) := partition_loop (List.length a) a vp pl (pr - 1) in
        let a := INTP_SWAP a pi (pr - 1) in
        let cdepth := (cdepth - 1)%Z in
        let later (a : list nat) (l r : nat) :=
          if (cdepth <? 0)%Z then aheapsort a l (r - l + 1)
          else aquicksort_loop fuel' a l r cdepth in
        if Nat.ltb (pi - pl) (pr - pi)
        then later (aquicksort_loop fuel' a pl (pi - 1) cdepth) (pi + 1) pr
        else later (aquicksort_loop fuel' a (pi + 1) pr cdepth) pl (pi - 1)
      else insertion_sort a pl pr
  end.

Definition aquicksort (num : nat) : list nat :=
  aquicksort_loop num (seq 0 num) 0 (num - 1) (2 * Z.log2 (Z.of_nat num)).

End Quicksort.

Definition quicksort_argsort (keys : list cell) : list nat :=
  aquicksort keys (List.length keys).

(** ** Example tables *)

(** A raw table as the loader returns it, from its four columns. *)
Definition raw_table (area year element value : Series) : DataFrame :=
  mkDataFrame None (range_index (List.length area))
    [(Str "Area", area); (Str "Year", year); (Str "Element", element); (Str "Value", value)].

(** The two records of the Ghana scenario, every field a text. *)
Definition ghana_rows : DataFrame :=
  raw_table [Str "Ghana"; Str "Ghana"]
            [Str "1961"; Str "1961"]
            [Str "Yield"; Str "Area harvested"]
            [Str "300"; Str "100"].

(** Ghana has Production records only. *)
Definition production_only : DataFrame :=
  raw_table [Str "Ghana"; Str "Côte d'Ivoire"; Str "Côte d'Ivoire"]
            [Num (Int 1961); Num (Int 1961); Num (Int 1961)]
            [Str "Production"; Str "Yield"; Str "Area harvested"]
            [Num (Int 5); Num (Int 300); Num (Int 100)].

(** A Year column that holds an infinite value. *)
Definition infinite_year : DataFrame :=
  raw_table [Str "Ghana"; Str "Ghana"]
            [Num (Int 1961); Num (Inf false)]
            [Str "Yield"; Str "Yield"]
            [Num (Int 300); Num (Int 310)].


(** Two different Years with the same integer part. *)
Definition tied_years : DataFrame :=
  mkDataFrame None (range_index 2)
    [(Str "Year", [Num (Float (Qmake 196125 100)); Num (Float (Qmake 196175 100))]);
     (Str "Yield", [Num (Int 1); Num (Int 2)])].


(** Two records of one entity whose Years are different texts of the same
    number. *)
Definition text_years : DataFrame :=
  mkDataFrame None (range_index 2)
    [(Str "Area", [Str "Ghana"; Str "Ghana"]);
     (Str "Year", [Str "1961"; Str "+1961"]);
     (Str "Element", [Str "Yield"; Str "Yield"]);
     (Str "Value", [Num (Int 300); Num (Int 310)])].

(** Years out of order, one of them not a number, and a Yield that is not a
    number. *)
Definition mixed_years : DataFrame :=
  mkDataFrame None (range_index 3)
    [(Str "Year", [Str "1962"; Str "unknown"; Str "1961"]);
     (Str "Yield", [Str "x"; Str "5"; Str "300"])].

Definition mixed_rows : DataFrame :=
  raw_table [Str "Ghana"; Str "Ghana"; Str "Ghana"]
            [Str "1962"; Str "unknown"; Str "1961"]
            [Str "Yield"; Str "Yield"; Str "Yield"]
            [Str "x"; Str "5"; Str "300"].

Definition sample_header : list string := ["Area"; "Year"; "Element"; "Value"].


(** A cleaned table without Yield and without "Area harvested". *)
Definition production_table : DataFrame :=
  mkDataFrame None [Num (Int 0)]
    [(Str "Year", [Num (Int 1961)]); (Str "Production", [Num (Int 5)])].


(** A world that holds one table at reference 0. *)
Definition world_with (df : DataFrame) : world := mkWorld [df] [] [] [].

(** A file in which Ghana has Production records only. *)
Definition production_records : list (list string) :=
  [["Ghana"; "1961"; "Production"; "5"];
   ["Côte d'Ivoire"; "1961"; "Yield"; "300"];
   ["Côte d'Ivoire"; "1961"; "Area harvested"; "100"]].

Definition world_with_production_file : world :=
  mkWorld [] [("cocoa.csv", CsvFile sample_header production_records)] [] [].





(** A file without the Area column. *)
Definition world_with_short_file : world :=
  mkWorld [] [("cocoa.csv", CsvFile ["Year"; "Element"; "Value"] [["1961"; "Yield"; "300"]])]
          [] [].

(** A record whose Element is named Year. *)
Definition year_element : DataFrame :=
  raw_table [Str "Ghana"; Str "Ghana"]
            [Num (Int 1961); Num (Int 1961)]
            [Str "Yield"; Str "Year"]
            [Num (Int 300); Num (Int 5)].

(** A table without a Year column. *)
Definition yield_only : DataFrame :=
  mkDataFrame None [Num (Int 0)] [(Str "Yield", [Num (Int 300)])].

(** A cleaned table in which each metric is missing in one row. *)
Definition cleaned_sample : DataFrame :=
  mkDataFrame None [Num (Int 0); Num (Int 1)]
    [(Str "Year", [Num (Int 1961); Num (Int 1962)]);
     (Str "Area harvested", [Num (Int 100); NaN]);
     (Str "Yield", [NaN; Num (Int 300)])].

(** The table the cleaner returns for [mixed_years]. *)
Definition mixed_years_cleaned : DataFrame :=
  mkDataFrame None [Num (Int 0); Num (Int 1)]
    [(Str "Year", [Num (Int 1961); Num (Int 1962)]);
     (Str "Yield", [Num (Int 300); NaN])].

(** * Properties *)

(** ** Equality of cell values *)

Lemma number_eqb_canon (a b : number) :
  number_eqb a b = true <-> canon a = canon b.
Proof.
  assert (QE : forall p q : Q,
             (Z.eqb (Qnum p) (Qnum q) && Pos.eqb (Qden p) (Qden q))%bool = true
             <-> Float p = Float q).
  { intros [pn pd] [qn qd]. simpl.
    rewrite andb_true_iff, Z.eqb_eq, Pos.eqb_eq. split.
    - intros [-> ->]. reflexivity.
    - intros H. inversion H. auto. }
  unfold number_eqb.
  destruct a as [z|p|x], b as [z'|q|y]; cbn [canon]; try apply QE;
    try (split; [discriminate | intros H; inversion H]; fail).
  destruct x, y; simpl; split; congruence.
Qed.

Lemma cell_eqb_canon (a b : cell) :
  cell_eqb a b = true <-> a <> NaN /\ canon_cell a = canon_cell b.
Proof.
  destruct a as [|x|s], b as [|y|t]; simpl;
    try (split; [discriminate | intros [H1 H2]; try congruence; discriminate]).
  - rewrite number_eqb_canon. split.
    + intros ->. split; [discriminate | reflexivity].
    + intros [_ H]. congruence.
  - rewrite String.eqb_eq. split.
    + intros ->. split; [discriminate | reflexivity].
    + intros [_ H]. congruence.
Qed.

Lemma cell_eqb_refl (a : cell) : a <> NaN -> cell_eqb a a = true.
Proof. intros H. apply cell_eqb_canon. auto. Qed.

Lemma canon_cell_nan (a : cell) : canon_cell a = NaN -> a = NaN.
Proof. destruct a; simpl; congruence. Qed.

Lemma cell_eqb_notna_r (a b : cell) : cell_eqb a b = true -> b <> NaN.
Proof.
  intros H. apply cell_eqb_canon in H. destruct H as [Ha Hc] . intros ->.
  simpl in Hc. apply canon_cell_nan in Hc. contradiction.
Qed.

Lemma cell_eqb_sym (a b : cell) : cell_eqb a b = cell_eqb b a.
Proof.
  destruct (cell_eqb a b) eqn:E1, (cell_eqb b a) eqn:E2; try reflexivity.
  - pose proof (cell_eqb_notna_r _ _ E1) as Hb.
    apply cell_eqb_canon in E1. destruct E1 as [_ Hc].
    assert (cell_eqb b a = true) by (apply cell_eqb_canon; auto).
    congruence.
  - pose proof (cell_eqb_notna_r _ _ E2) as Ha.
    apply cell_eqb_canon in E2. destruct E2 as [_ Hc].
    assert (cell_eqb a b = true) by (apply cell_eqb_canon; auto).
    congruence.
Qed.

Lemma cell_eqb_trans (a b c : cell) :
  cell_eqb a b = true -> cell_eqb b c = true -> cell_eqb a c = true.
Proof.
  intros H1 H2. apply cell_eqb_canon in H1, H2. apply cell_eqb_canon.
  destruct H1, H2. split; [assumption | congruence].
Qed.

Lemma cell_eqb_compat_l (a b c : cell) :
  cell_eqb a b = true -> cell_eqb a c = cell_eqb b c.
Proof.
  intros H. destruct (cell_eqb b c) eqn:E.
  - eapply cell_eqb_trans; eassumption.
  - destruct (cell_eqb a c) eqn:E'; [|reflexivity].
    rewrite cell_eqb_sym in H. rewrite (cell_eqb_trans _ _ _ H E') in E. discriminate.
Qed.

Lemma cell_eqb_str (a : cell) (s : string) : cell_eqb a (Str s) = true <-> a = Str s.
Proof.
  destruct a; simpl; try (split; [discriminate|congruence]).
  rewrite String.eqb_eq. split; congruence.
Qed.

Lemma cell_eqb_str_l (a : cell) (s : string) : cell_eqb (Str s) a = true <-> a = Str s.
Proof. rewrite cell_eqb_sym. apply cell_eqb_str. Qed.

(** ** Columns and labels *)

Lemma contains_lookup (c : cell) (cols : list (cell * Series)) :
  contains c (map fst cols) = true <-> exists s, lookup_column c cols = Some s.
Proof.
  induction cols as [|[l s] r IH]; simpl.
  - split; [discriminate | intros [s H]; discriminate].
  - destruct (cell_eqb c l); simpl.
    + split; eauto.
    + exact IH.
Qed.

Lemma contains_getitem (df : DataFrame) (c : cell) :
  contains c (labels df) = true -> exists s, getitem df c = Ok s.
Proof.
  intros H. apply contains_lookup in H. destruct H as [s H].
  exists s. unfold getitem. rewrite H. reflexivity.
Qed.

Lemma not_contains_getitem (df : DataFrame) (c : cell) :
  contains c (labels df) = false -> getitem df c = Raise (KeyError [c]).
Proof.
  intros H. unfold getitem. destruct (lookup_column c (columns df)) eqn:E; [|reflexivity].
  assert (contains c (labels df) = true) by (apply contains_lookup; eauto).
  congruence.
Qed.

Lemma getitem_contains (df : DataFrame) (c : cell) (s : Series) :
  getitem df c = Ok s -> contains c (labels df) = true.
Proof.
  unfold getitem. destruct (lookup_column c (columns df)) eqn:E; [|discriminate].
  intros _. apply contains_lookup. eauto.
Qed.

(** ** Running the programs *)

Lemma nth_error_snoc {A} (l : list A) (x : A) : nth_error (l ++ [x]) (List.length l) = Some x.
Proof. rewrite nth_error_app2, Nat.sub_diag by lia. reflexivity. Qed.

Lemma update_snoc {A} (l : list A) (x y : A) : update (l ++ [x]) (List.length l) y = l ++ [y].
Proof. induction l; simpl; [reflexivity | now rewrite IHl]. Qed.

Lemma update_length {A} (l : list A) (i : nat) (x : A) :
  List.length (update l i x) = List.length l.
Proof.
  revert i. induction l; intros [|i]; simpl; try reflexivity. now rewrite IHl.
Qed.

Lemma new_from_at (f : DataFrame -> result DataFrame) (p : addr) (w : world) (df : DataFrame) :
  nth_error (heap w) p = Some df ->
  new_from f p w =
  match f df with
  | Ok d => (Ok (List.length (heap w)), mkWorld (heap w ++ [d]) (files w) (dirs w) (stdout w))
  | Raise e => (Raise e, w)
  end.
Proof.
  intros H. unfold new_from, bind, deref, lift, alloc. rewrite H.
  destruct (f df); reflexivity.
Qed.

Lemma getitem_at (p : addr) (c : cell) (w : world) (df : DataFrame) :
  nth_error (heap w) p = Some df ->
  DataFrame_getitem p c w = (getitem df c, w).
Proof.
  intros H. unfold DataFrame_getitem, bind, deref, lift. rewrite H. reflexivity.
Qed.

Lemma columns_at (p : addr) (w : world) (df : DataFrame) :
  nth_error (heap w) p = Some df ->
  DataFrame_columns p w = (Ok (labels df), w).
Proof.
  intros H. unfold DataFrame_columns, bind, deref, ret. rewrite H. reflexivity.
Qed.


Lemma setitem_at (p : addr) (c : cell) (s : Series) (w : world) (df : DataFrame) :
  nth_error (heap w) p = Some df ->
  DataFrame_setitem p c s w =
  (Ok tt, mkWorld (update (heap w) p (setitem df c s)) (files w) (dirs w) (stdout w)).
Proof.
  intros H. unfold DataFrame_setitem, bind, deref, store. rewrite H. reflexivity.
Qed.

(** The same steps on the table allocated last. *)
Section LastObject.

Variables (l : list DataFrame) (x : DataFrame).
Variables (fs : list (string * file)) (ds so : list string).

Let w := mkWorld (l ++ [x]) fs ds so.

Lemma new_from_last (f : DataFrame -> result DataFrame) :
  new_from f (List.length l) w =
  match f x with
  | Ok d => (Ok (List.length (l ++ [x])), mkWorld ((l ++ [x]) ++ [d]) fs ds so)
  | Raise e => (Raise e, w)
  end.
Proof. apply (new_from_at f (List.length l) w). apply nth_error_snoc. Qed.

Lemma getitem_last (c : cell) :
  DataFrame_getitem (List.length l) c w = (getitem x c, w).
Proof. apply getitem_at. apply nth_error_snoc. Qed.

Lemma columns_last : DataFrame_columns (List.length l) w = (Ok (labels x), w).
Proof. apply columns_at. apply nth_error_snoc. Qed.


Lemma setitem_last (c : cell) (s : Series) :
  DataFrame_setitem (List.length l) c s w =
  (Ok tt, mkWorld (l ++ [setitem x c s]) fs ds so).
Proof.
  rewrite (setitem_at (List.length l) c s w x) by apply nth_error_snoc.
  unfold w. simpl. rewrite update_snoc. reflexivity.
Qed.

End LastObject.

Ltac step_bind := unfold bind at 1.

Ltac close_run :=
  eexists; split; [reflexivity | split;
    [ rewrite <- ?app_assoc; simpl; try (eexists; reflexivity);
      try (exists []; rewrite app_nil_r; reflexivity)
    | try discriminate ] ].

Lemma process_countries_data_run (w : world) (p : addr) (df : DataFrame) (country : string) :
  nth_error (heap w) p = Some df ->
  exists h',
    process_countries_data p country w =
      (match process_frame df country with
       | Ok _ => Ok (List.length (heap w) + 5)
       | Raise e => Raise e
       end,
       mkWorld h' (files w) (dirs w) (stdout w)) /\
    (exists l, h' = heap w ++ l) /\
    forall out, process_frame df country = Ok out ->
      nth_error h' (List.length (heap w) + 5) = Some out.
Proof.
  intros H. destruct w as [h fs ds so]. simpl in *.
  unfold process_countries_data, process_frame.
  step_bind. rewrite (getitem_at _ _ _ df) by exact H. simpl.
  destruct (getitem df (Str "Area")) as [area|e]; simpl; [ | close_run ].
  step_bind. rewrite (new_from_at _ _ _ df) by exact H. simpl.
  step_bind. rewrite new_from_last.
  destruct (select_columns _ _) as [d2|e]; simpl; [ | close_run ].
  step_bind. rewrite new_from_last.
  destruct (pivot_table _ _ _ _) as [d3|e]; simpl; [ | close_run ].
  step_bind. rewrite new_from_last.
  destruct (reset_index _) as [d4|e]; simpl; [ | close_run ].
  step_bind. rewrite new_from_last.
  step_bind. rewrite columns_last.
  rewrite new_from_last.
  destruct (select_columns _ _) as [d6|e]; simpl; [ | close_run ].
  eexists; split; [ | split ].
  - f_equal. f_equal. rewrite !length_app. simpl. lia.
  - rewrite <- !app_assoc. simpl. eexists; reflexivity.
  - intros out Hout. inversion Hout; subst.
    rewrite <- !app_assoc. simpl. rewrite nth_error_app2 by lia.
    replace (List.length h + 5 - List.length h) with 5 by lia. reflexivity.
Qed.

Section CleanRun.

Variable parse_number : string -> option number.
Variable argsort : list cell -> list nat.

Lemma coerce_loop (cols : list cell) (l : list DataFrame) (x : DataFrame)
    (fs : list (string * file)) (ds so : list string) :
  for_each cols (fun col =>
    df_columns <- DataFrame_columns (List.length l) ;;
    if contains col df_columns
    then s <- DataFrame_getitem (List.length l) col ;;
         DataFrame_setitem (List.length l) col (to_numeric parse_number s)
    else ret tt) (mkWorld (l ++ [x]) fs ds so) =
  (Ok tt, mkWorld (l ++ [fold_left (coerce_column parse_number) cols x]) fs ds so).
Proof.
  revert x. induction cols as [|c r IH]; intros x; simpl.
  - reflexivity.
  - unfold bind at 1. unfold bind at 1. rewrite columns_last.
    unfold coerce_column at 2.
    destruct (contains c (labels x)) eqn:E.
    + destruct (contains_getitem x c E) as [s Hs].
      unfold bind at 1. rewrite getitem_last, Hs, setitem_last. apply IH.
    + unfold ret. apply IH.
Qed.

Lemma clean_and_sort_run (w : world) (p : addr) (df : DataFrame) :
  nth_error (heap w) p = Some df ->
  exists h',
    clean_and_sort parse_number argsort p w =
      (match clean_frame parse_number argsort df with
       | Ok _ => Ok (List.length (heap w) + 3)
       | Raise e => Raise e
       end,
       mkWorld h' (files w) (dirs w) (stdout w)) /\
    (exists l, h' = heap w ++ l) /\
    forall out, clean_frame parse_number argsort df = Ok out ->
      nth_error h' (List.length (heap w) + 3) = Some out.
Proof.
  intros H. destruct w as [h fs ds so]. simpl in *.
  unfold clean_and_sort, clean_frame.
  step_bind. unfold DataFrame_copy. rewrite (new_from_at _ _ _ df) by exact H. cbn [rbind heap files dirs stdout].
  step_bind. rewrite getitem_last.
  destruct (getitem df (Str "Year")) as [year|e]; cbn [rbind heap files dirs stdout]; [ | close_run ].
  step_bind. rewrite setitem_last.
  step_bind. rewrite new_from_last.
  destruct (dropna _ _) as [d2|e]; cbn [rbind heap files dirs stdout]; [ | close_run ].
  step_bind. rewrite getitem_last.
  destruct (getitem d2 (Str "Year")) as [year2|e]; cbn [rbind heap files dirs stdout]; [ | close_run ].
  step_bind. unfold lift at 1.
  destruct (astype_int year2) as [year3|e]; cbn [rbind heap files dirs stdout]; [ | close_run ].
  step_bind. rewrite setitem_last.
  step_bind. rewrite coerce_loop.
  step_bind. rewrite new_from_last.
  destruct (sort_values _ _ _) as [d5|e]; cbn [rbind heap files dirs stdout]; [ | close_run ].
  rewrite new_from_last.
  eexists; split; [ | split ].
  - f_equal. f_equal. rewrite !length_app. simpl. lia.
  - rewrite <- !app_assoc. simpl. eexists; reflexivity.
  - intros out Hout. inversion Hout; subst.
    rewrite <- !app_assoc. simpl. rewrite nth_error_app2 by lia.
    replace (List.length h + 3 - List.length h) with 3 by lia. reflexivity.
Qed.

End CleanRun.

(** ** Frame: the transforms never touch the table they are given *)

Lemma nth_error_app_some {A} (l t : list A) (a : nat) (x : A) :
  nth_error l a = Some x -> nth_error (l ++ t) a = Some x.
Proof.
  intros H. rewrite nth_error_app1; [exact H|].
  apply nth_error_Some. congruence.
Qed.

Lemma process_countries_data_dangling (w : world) (p : addr) (country : string) :
  nth_error (heap w) p = None ->
  process_countries_data p country w = (Raise ReferenceError, w).
Proof.
  intros H. unfold process_countries_data, bind at 1, DataFrame_getitem, bind, deref.
  rewrite H. reflexivity.
Qed.

Lemma clean_and_sort_dangling parse_number argsort (w : world) (p : addr) :
  nth_error (heap w) p = None ->
  clean_and_sort parse_number argsort p w = (Raise ReferenceError, w).
Proof.
  intros H. unfold clean_and_sort, bind at 1, DataFrame_copy, new_from, bind, deref.
  rewrite H. reflexivity.
Qed.

(** C9.  [process_countries_data] and [clean_and_sort] leave every table
    of the store as it was, the one they are given included, whether they
    return or raise; the reference they return is a table that did not exist
    before the call. *)
Theorem transforms_return_new_tables
    (parse_number : string -> option number) (argsort : list cell -> list nat)
    (w : world) (p : addr) (country : string) :
  let reshaped := process_countries_data p country w in
  let cleaned := clean_and_sort parse_number argsort p w in
  ((forall a df, nth_error (heap w) a = Some df ->
                 nth_error (heap (snd reshaped)) a = Some df) /\
   (forall q, fst reshaped = Ok q ->
              List.length (heap w) <= q /\
              exists out, nth_error (heap (snd reshaped)) q = Some out)) /\
  ((forall a df, nth_error (heap w) a = Some df ->
                 nth_error (heap (snd cleaned)) a = Some df) /\
   (forall q, fst cleaned = Ok q ->
              List.length (heap w) <= q /\
              exists out, nth_error (heap (snd cleaned)) q = Some out)).
Proof.
  cbv zeta. split.
  - destruct (nth_error (heap w) p) as [df|] eqn:E.
    + destruct (process_countries_data_run w p df country E) as (h' & Hrun & [l Hl] & Hout).
      rewrite Hrun. simpl. split.
      * intros a d Ha. subst h'. apply nth_error_app_some. exact Ha.
      * intros q Hq. destruct (process_frame df country) as [out|e]; [|discriminate].
        inversion Hq; subst q. split; [lia|]. exists out. apply Hout. reflexivity.
    + rewrite process_countries_data_dangling by exact E. simpl. split.
      * auto.
      * discriminate.
  - destruct (nth_error (heap w) p) as [df|] eqn:E.
    + destruct (clean_and_sort_run parse_number argsort w p df E) as (h' & Hrun & [l Hl] & Hout).
      rewrite Hrun. simpl. split.
      * intros a d Ha. subst h'. apply nth_error_app_some. exact Ha.
      * intros q Hq. destruct (clean_frame parse_number argsort df) as [out|e]; [|discriminate].
        inversion Hq; subst q. split; [lia|]. exists out. apply Hout. reflexivity.
    + rewrite clean_and_sort_dangling by exact E. simpl. split.
      * auto.
      * discriminate.
Qed.

(** ** The preconditions on names *)

Lemma creatable_examples :
  map creatable ["output"; "results/2024"; "."; ""] = [true; true; true; false].
Proof. vm_compute. reflexivity. Qed.

Lemma image_name_examples :
  map image_name ["ghana_yield_scatter.png"; "combined_plots.pdf"; "chart.xyz"; "chart";
                  "charts/chart.png"; ".png"]
  = [true; true; false; false; false; false].
Proof. vm_compute. reflexivity. Qed.

Lemma output_names_are_portable :
  forallb (fun n => (image_name n || has_extension n "csv")%bool) output_names = true.
Proof. vm_compute. reflexivity. Qed.

(** ** The single-entity charts skip when there is nothing to draw *)



Lemma missing_labels_single (c : cell) (have : list cell) :
  contains c have = true -> missing_labels [c] have = [].
Proof. intros H. unfold missing_labels. simpl. rewrite H. reflexivity. Qed.

Lemma missing_labels_single_absent (c : cell) (have : list cell) :
  contains c have = false -> missing_labels [c] have = [c].
Proof. intros H. unfold missing_labels. simpl. rewrite H. reflexivity. Qed.

Lemma dropna_absent (c : cell) (df : DataFrame) :
  contains c (labels df) = false -> dropna [c] df = Raise (KeyError [c]).
Proof. intros H. unfold dropna. rewrite missing_labels_single_absent by exact H. reflexivity. Qed.

Lemma dropna_single (c : cell) (df : DataFrame) (ys : Series) :
  getitem df c = Ok ys ->
  dropna [c] df =
  Ok (filter_rows (map (fun i => (notna (nth i ys NaN) && true)%bool) (seq 0 (nrows df))) df).
Proof.
  intros H. unfold dropna.
  rewrite missing_labels_single by (eapply getitem_contains; eassumption).
  simpl. rewrite H. reflexivity.
Qed.



(** ** Lists, masks and positions *)

Lemma filter_all {A} (f : A -> bool) (l : list A) :
  (forall x, In x l -> f x = true) -> filter f l = l.
Proof.
  intros H. apply forallb_filter_id. apply forallb_forall. exact H.
Qed.

Lemma filter_none {A} (f : A -> bool) (l : list A) :
  (forall x, In x l -> f x = false) -> filter f l = [].
Proof.
  induction l as [|x l IH]; intros H; simpl; [reflexivity|].
  rewrite (H x) by (left; reflexivity). apply IH. intros y Hy. apply H. right. exact Hy.
Qed.

Lemma map_nth_seq {A} (l : list A) (d : A) :
  map (fun i => nth i l d) (seq 0 (List.length l)) = l.
Proof.
  induction l as [|x l IH]; simpl; [reflexivity|].
  f_equal. rewrite <- seq_shift, map_map. exact IH.
Qed.

Lemma select_mask_positions {A} (f : nat -> bool) (d : A) (n a : nat) (l : list A) :
  List.length l = n ->
  select_mask (map f (seq a n)) l = map (fun i => nth (i - a) l d) (filter f (seq a n)).
Proof.
  revert a l. induction n as [|n IH]; intros a [|x l] Hlen; simpl in *; try discriminate;
    try reflexivity.
  injection Hlen as Hlen.
  assert (Hrest : map (fun i => nth (i - S a) l d) (filter f (seq (S a) n)) =
                  map (fun i => nth (i - a) (x :: l) d) (filter f (seq (S a) n))).
  { apply map_ext_in. intros i Hi. apply filter_In in Hi. destruct Hi as [Hi _].
    apply in_seq in Hi. replace (i - a) with (S (i - S a)) by lia. reflexivity. }
  destruct (f a); simpl.
  - rewrite Nat.sub_diag. f_equal. rewrite IH by exact Hlen. exact Hrest.
  - rewrite IH by exact Hlen. exact Hrest.
Qed.

Lemma select_mask_filter {A} (f : nat -> bool) (d : A) (l : list A) :
  select_mask (map f (seq 0 (List.length l))) l =
  map (fun i => nth i l d) (filter f (seq 0 (List.length l))).
Proof.
  rewrite (select_mask_positions f d) by reflexivity.
  apply map_ext. intros i. rewrite Nat.sub_0_r. reflexivity.
Qed.

Lemma rmap_ok {A B} (f : A -> result B) (l : list A) (l' : list B) :
  rmap f l = Ok l' -> Forall2 (fun x y => f x = Ok y) l l'.
Proof.
  revert l'. induction l as [|x l IH]; intros l' H; simpl in H.
  - inversion H. constructor.
  - destruct (f x) as [y|e] eqn:E; simpl in H; [|discriminate].
    destruct (rmap f l) as [ys|e]; simpl in H; [|discriminate].
    inversion H; subst. constructor; auto.
Qed.

Lemma Forall2_nth {A B} (R : A -> B -> Prop) (l : list A) (l' : list B) (da : A) (db : B) :
  Forall2 R l l' -> forall k, k < List.length l -> R (nth k l da) (nth k l' db).
Proof.
  induction 1 as [|x y l l' Hxy _ IH]; intros k Hk; simpl in *; [lia|].
  destruct k; [exact Hxy | apply IH; lia].
Qed.

(** ** Looking columns up after an update *)

Lemma lookup_replace (c c' : cell) (s : Series) (cols : list (cell * Series)) :
  lookup_column c (replace_column c' s cols) =
  if cell_eqb c c' then Some s else lookup_column c cols.
Proof.
  induction cols as [|[l old] r IH]; simpl.
  - destruct (cell_eqb c c'); reflexivity.
  - destruct (cell_eqb c' l) eqn:E'; simpl.
    + destruct (cell_eqb c c') eqn:E.
      * rewrite (cell_eqb_trans _ _ _ E E'). reflexivity.
      * destruct (cell_eqb c l) eqn:El; [|reflexivity].
        rewrite cell_eqb_sym in E'. rewrite (cell_eqb_trans _ _ _ El E') in E. discriminate.
    + destruct (cell_eqb c l) eqn:El.
      * destruct (cell_eqb c c') eqn:E; [|reflexivity].
        rewrite cell_eqb_sym in E. rewrite (cell_eqb_trans _ _ _ E El) in E'. discriminate.
      * exact IH.
Qed.

Lemma labels_replace (c : cell) (s : Series) (cols : list (cell * Series)) :
  contains c (map fst cols) = true ->
  map fst (replace_column c s cols) = map fst cols.
Proof.
  induction cols as [|[l old] r IH]; simpl; [discriminate|].
  destruct (cell_eqb c l); simpl; intros H; [reflexivity|].
  f_equal. apply IH. exact H.
Qed.

Lemma lookup_map_values (g : Series -> Series) (c : cell) (cols : list (cell * Series)) :
  lookup_column c (map (fun cs => (fst cs, g (snd cs))) cols) =
  option_map g (lookup_column c cols).
Proof.
  induction cols as [|[l s] r IH]; simpl; [reflexivity|].
  destruct (cell_eqb c l); [reflexivity | exact IH].
Qed.

Lemma labels_map_values (g : Series -> Series) (cols : list (cell * Series)) :
  map fst (map (fun cs => (fst cs, g (snd cs))) cols) = map fst cols.
Proof. rewrite map_map. reflexivity. Qed.

Lemma lookup_some_in (c : cell) (cols : list (cell * Series)) (s : Series) :
  lookup_column c cols = Some s -> exists l, In (l, s) cols.
Proof.
  induction cols as [|[l x] r IH]; simpl; [discriminate|].
  destruct (cell_eqb c l).
  - intros H. inversion H; subst. eauto.
  - intros H. destruct (IH H) as [l' Hl']. eauto.
Qed.

Lemma well_formed_lookup (df : DataFrame) (c : cell) (s : Series) :
  well_formed df -> lookup_column c (columns df) = Some s -> List.length s = nrows df.
Proof.
  intros Hwf H. destruct (lookup_some_in _ _ _ H) as [l Hl].
  unfold well_formed in Hwf. rewrite Forall_forall in Hwf. apply (Hwf _ Hl).
Qed.

Lemma lookup_compat (c c' : cell) (cols : list (cell * Series)) :
  cell_eqb c c' = true -> lookup_column c cols = lookup_column c' cols.
Proof.
  intros H. induction cols as [|[l s] r IH]; simpl; [reflexivity|].
  rewrite (cell_eqb_compat_l _ _ l H). rewrite IH. reflexivity.
Qed.

Lemma nth_map_lt {A B} (g : A -> B) (l : list A) (k : nat) (d : A) (d' : B) :
  k < List.length l -> nth k (map g l) d' = g (nth k l d).
Proof.
  intros H. rewrite (nth_indep _ d' (g d)) by (rewrite length_map; exact H).
  apply map_nth.
Qed.

Lemma getitem_lookup (df : DataFrame) (c : cell) (s : Series) :
  getitem df c = Ok s <-> lookup_column c (columns df) = Some s.
Proof.
  unfold getitem. destruct (lookup_column c (columns df)); split; congruence.
Qed.

Lemma labels_take_rows (pos : list nat) (d : DataFrame) :
  labels (take_rows pos d) = labels d.
Proof. unfold labels, take_rows. cbn [columns]. rewrite map_map. reflexivity. Qed.

Lemma labels_filter_rows (m : list bool) (d : DataFrame) :
  labels (filter_rows m d) = labels d.
Proof. unfold labels, filter_rows. cbn [columns]. rewrite map_map. reflexivity. Qed.

Lemma labels_setitem (d : DataFrame) (c : cell) (s : Series) :
  contains c (labels d) = true -> labels (setitem d c s) = labels d.
Proof. intros H. unfold labels, setitem. cbn [columns]. apply labels_replace. exact H. Qed.

(** ** The cleaner on table values *)

Lemma astype_int_cell_int (c c' : cell) :
  astype_int_cell c = Ok c' -> exists z, c' = Num (Int z).
Proof.
  destruct c as [|[z|q|b]|s]; simpl; intros H; inversion H; eauto.
Qed.

Lemma astype_int_ints (s s' : Series) :
  astype_int s = Ok s' ->
  List.length s' = List.length s /\ Forall (fun c => exists z, c = Num (Int z)) s'.
Proof.
  intros H. apply rmap_ok in H. induction H as [|x y l l' Hxy _ [IH1 IH2]]; simpl.
  - split; [reflexivity | constructor].
  - split; [congruence|]. constructor; [|exact IH2].
    eapply astype_int_cell_int. eassumption.
Qed.

Lemma ints_notna (s : Series) :
  Forall (fun c => exists z, c = Num (Int z)) s ->
  forall i, i < List.length s -> notna (nth i s NaN) = true /\ is_number (nth i s NaN) = true.
Proof.
  intros H i Hi. rewrite Forall_forall in H.
  destruct (H (nth i s NaN) (nth_In _ _ Hi)) as [z ->]. split; reflexivity.
Qed.

(** The cast keeps an integer and takes the integer part of a fraction. *)
Lemma astype_int_cell_part (n : number) (z : Z) :
  astype_int_cell (Num n) = Ok (Num (Int z)) -> integer_part n z = true.
Proof.
  destruct n as [v|[a b]|inf]; simpl; intros H; inversion H; subst; clear H.
  - apply Z.eqb_refl.
  - assert (Hb : (0 < Z.pos b)%Z) by reflexivity.
    assert (Habs : (Z.abs (a ÷ Z.pos b) = Z.abs a / Z.pos b)%Z).
    { rewrite <- Z.quot_abs by lia. rewrite (Z.abs_eq (Z.pos b)) by lia.
      apply Z.quot_div_nonneg; lia. }
    rewrite Habs.
    pose proof (Z.mul_div_le (Z.abs a) (Z.pos b) Hb) as Hle.
    pose proof (Z.mul_succ_div_gt (Z.abs a) (Z.pos b) Hb) as Hgt.
    assert (Hsign : (0 <= a ÷ Z.pos b * a)%Z).
    { destruct (Z.le_gt_cases 0 a) as [Ha|Ha].
      - pose proof (Z.quot_pos a (Z.pos b) Ha Hb). nia.
      - replace a with (- - a)%Z at 1 by lia. rewrite Z.quot_opp_l by lia.
        assert (0 <= (- a) ÷ Z.pos b)%Z by (apply Z.quot_pos; lia). nia. }
    apply andb_true_iff. split; [apply andb_true_iff; split|].
    + apply Z.leb_le. lia.
    + apply Z.ltb_lt. lia.
    + apply Z.leb_le. exact Hsign.
Qed.

Section CleanerValues.

Variable parse_number : string -> option number.
Variable argsort : list cell -> list nat.
Hypothesis argsort_ok : argsort_spec argsort.

Lemma lookup_coerce (d : DataFrame) (col c : cell) :
  lookup_column c (columns (coerce_column parse_number d col)) =
  if cell_eqb c col
  then option_map (to_numeric parse_number) (lookup_column c (columns d))
  else lookup_column c (columns d).
Proof.
  unfold coerce_column. destruct (contains col (labels d)) eqn:E.
  - destruct (contains_getitem d col E) as [s Hs]. rewrite Hs.
    apply getitem_lookup in Hs. simpl. rewrite lookup_replace.
    destruct (cell_eqb c col) eqn:Ec; [|reflexivity].
    rewrite (lookup_compat _ _ _ Ec), Hs. reflexivity.
  - destruct (cell_eqb c col) eqn:Ec; [|reflexivity].
    rewrite (lookup_compat _ _ _ Ec).
    destruct (lookup_column col (columns d)) eqn:El; [|reflexivity].
    assert (contains col (labels d) = true) by (apply contains_lookup; eauto).
    congruence.
Qed.

Lemma coerce_frame (d : DataFrame) (col : cell) :
  labels (coerce_column parse_number d col) = labels d /\
  index (coerce_column parse_number d col) = index d.
Proof.
  unfold coerce_column. destruct (contains col (labels d)) eqn:E; [|auto].
  destruct (getitem d col); [|auto]. simpl. split; [|reflexivity].
  unfold labels. simpl. apply labels_replace. exact E.
Qed.

Lemma argsort_positions (keys : list cell) (j : nat) :
  In j (argsort keys) -> j < List.length keys.
Proof.
  intros H. destruct (argsort_ok keys) as [Hperm _].
  apply (Permutation_in _ Hperm) in H. apply in_seq in H. lia.
Qed.

Lemma sort_values_ints (d : DataFrame) (by_ : cell) (ints : Series) :
  getitem d by_ = Ok ints ->
  Forall (fun c => exists z, c = Num (Int z)) ints ->
  sort_values argsort by_ d = Ok (take_rows (argsort ints) d).
Proof.
  intros Hget Hints. unfold sort_values. rewrite Hget. simpl.
  rewrite (filter_all (fun i => notna (nth i ints NaN))).
  2:{ intros i Hi. apply in_seq in Hi. apply ints_notna; [exact Hints | lia]. }
  rewrite (filter_none (fun i => isna (nth i ints NaN))).
  2:{ intros i Hi. apply in_seq in Hi.
      destruct (ints_notna ints Hints i) as [Hn _]; [lia|].
      unfold notna in Hn. destruct (isna (nth i ints NaN)); [discriminate | reflexivity]. }
  rewrite map_nth_seq, app_nil_r.
  assert (Hnum : forallb is_number ints = true).
  { apply forallb_forall. intros c Hc. rewrite Forall_forall in Hints.
    destruct (Hints c Hc) as [z ->]. reflexivity. }
  rewrite Hnum. simpl. do 2 f_equal.
  rewrite <- (map_id (argsort ints)) at 2. apply map_ext_in.
  intros j Hj. apply argsort_positions in Hj. rewrite seq_nth by exact Hj. reflexivity.
Qed.

Lemma surviving_rows_mask (df : DataFrame) (years : Series) :
  lookup_column (Str "Year") (columns df) = Some years ->
  filter (fun i => (notna (nth i (to_numeric parse_number years) NaN) && true)%bool)
         (seq 0 (nrows df)) = surviving_rows parse_number df.
Proof.
  intros Hy. unfold surviving_rows. apply filter_ext. intros i.
  unfold year_parses, cell_at. rewrite Hy, andb_true_r.
  unfold to_numeric. rewrite <- (map_nth (to_numeric_cell parse_number)). reflexivity.
Qed.

Lemma filter_rows_lookup (m : list bool) (d : DataFrame) (c : cell) :
  lookup_column c (columns (filter_rows m d)) =
  option_map (select_mask m) (lookup_column c (columns d)).
Proof. unfold filter_rows. simpl. apply lookup_map_values. Qed.

Lemma take_rows_lookup (pos : list nat) (d : DataFrame) (c : cell) :
  lookup_column c (columns (take_rows pos d)) =
  option_map (fun s => map (fun i => nth i s NaN) pos) (lookup_column c (columns d)).
Proof.
  unfold take_rows. simpl.
  apply (lookup_map_values (fun s => map (fun i => nth i s NaN) pos)).
Qed.

Lemma lookup_metrics (d : DataFrame) (c : cell) :
  lookup_column c (columns (fold_left (coerce_column parse_number) metric_labels d)) =
  if contains c metric_labels
  then option_map (to_numeric parse_number) (lookup_column c (columns d))
  else lookup_column c (columns d).
Proof.
  unfold metric_labels. cbn [fold_left]. rewrite !lookup_coerce. cbn [contains existsb].
  destruct (cell_eqb c (Str "Area harvested")) eqn:E1;
  destruct (cell_eqb c (Str "Yield")) eqn:E2;
  destruct (cell_eqb c (Str "Production")) eqn:E3; cbn [orb]; try reflexivity;
    repeat match goal with
           | H : cell_eqb c (Str _) = true |- _ => apply cell_eqb_str in H; subst c
           end; simpl in *; discriminate.
Qed.

Lemma metrics_frame (d : DataFrame) :
  labels (fold_left (coerce_column parse_number) metric_labels d) = labels d /\
  index (fold_left (coerce_column parse_number) metric_labels d) = index d.
Proof.
  unfold metric_labels. cbn [fold_left].
  repeat match goal with
         | |- context [coerce_column parse_number ?x ?c] =>
             destruct (coerce_frame x c) as [-> ->]
         end.
  auto.
Qed.

Lemma clean_frame_shape (df out : DataFrame) :
  well_formed df ->
  clean_frame parse_number argsort df = Ok out ->
  exists (years ints : Series),
    lookup_column (Str "Year") (columns df) = Some years /\
    astype_int (map (fun i => to_numeric_cell parse_number (nth i years NaN))
                    (surviving_rows parse_number df)) = Ok ints /\
    index out = range_index (List.length (argsort ints)) /\
    labels out = labels df /\
    forall c s, lookup_column c (columns df) = Some s ->
      lookup_column c (columns out) =
      Some (map (fun k => nth k
         (if cell_eqb c (Str "Year") then ints
          else if contains c metric_labels
               then to_numeric parse_number
                      (map (fun i => nth i s NaN) (surviving_rows parse_number df))
               else map (fun i => nth i s NaN) (surviving_rows parse_number df)) NaN)
         (argsort ints)).
Proof.
  intros Hwf H. unfold clean_frame in H.
  destruct (getitem df (Str "Year")) as [years|] eqn:Hy; [|discriminate].
  cbn [rbind] in H. apply getitem_lookup in Hy.
  set (ty := to_numeric parse_number years) in *.
  set (d1 := setitem df (Str "Year") ty) in *.
  assert (Hl1 : forall c, lookup_column c (columns d1) =
                          if cell_eqb c (Str "Year") then Some ty
                          else lookup_column c (columns df)).
  { intros c. unfold d1. simpl. apply lookup_replace. }
  assert (Hg1 : getitem d1 (Str "Year") = Ok ty).
  { apply getitem_lookup. rewrite Hl1. reflexivity. }
  rewrite (dropna_single _ _ _ Hg1) in H. cbn [rbind] in H.
  replace (nrows d1) with (nrows df) in H by reflexivity.
  set (mask := map _ (seq 0 (nrows df))) in H.
  set (d2 := filter_rows mask d1) in *.
  set (kept := surviving_rows parse_number df).
  assert (Hsel : forall s, List.length s = nrows df ->
                           select_mask mask s = map (fun i => nth i s NaN) kept).
  { intros s Hs. unfold mask, kept, ty. rewrite <- Hs.
    rewrite (select_mask_filter _ NaN). rewrite Hs.
    rewrite (surviving_rows_mask df years Hy). reflexivity. }
  assert (Hty : List.length ty = nrows df).
  { unfold ty, to_numeric. rewrite length_map. eapply well_formed_lookup; eassumption. }
  assert (Hg2 : getitem d2 (Str "Year") =
                Ok (map (fun i => to_numeric_cell parse_number (nth i years NaN)) kept)).
  { apply getitem_lookup. unfold d2. rewrite filter_rows_lookup, Hl1. simpl.
    rewrite (Hsel ty Hty). f_equal. apply map_ext. intros i.
    unfold ty, to_numeric. rewrite <- (map_nth (to_numeric_cell parse_number)). reflexivity. }
  rewrite Hg2 in H. cbn [rbind] in H.
  destruct (astype_int _) as [ints|] eqn:Hints; [|discriminate]. cbn [rbind] in H.
  set (d3 := setitem d2 (Str "Year") ints) in *.
  set (d4 := fold_left (coerce_column parse_number) metric_labels d3) in *.
  assert (Hl4 : forall c, lookup_column c (columns d4) =
                if cell_eqb c (Str "Year") then Some ints
                else if contains c metric_labels
                     then option_map (to_numeric parse_number)
                            (option_map (select_mask mask) (lookup_column c (columns df)))
                     else option_map (select_mask mask) (lookup_column c (columns df))).
  { intros c. unfold d4. rewrite lookup_metrics.
    assert (Hl3 : lookup_column c (columns d3) =
                  if cell_eqb c (Str "Year") then Some ints
                  else option_map (select_mask mask) (lookup_column c (columns df))).
    { unfold d3, setitem. cbn [columns]. rewrite lookup_replace.
      destruct (cell_eqb c (Str "Year")) eqn:Ec; [reflexivity|].
      unfold d2. rewrite filter_rows_lookup, Hl1, Ec. reflexivity. }
    rewrite Hl3.
    destruct (cell_eqb c (Str "Year")) eqn:Ec; [|reflexivity].
    apply cell_eqb_str in Ec. subst c. reflexivity. }
  destruct (astype_int_ints _ _ Hints) as [Hlen Hall].
  assert (Hg4 : getitem d4 (Str "Year") = Ok ints).
  { apply getitem_lookup. rewrite Hl4. reflexivity. }
  rewrite (sort_values_ints _ _ _ Hg4 Hall) in H. cbn [rbind] in H.
  inversion H; subst out; clear H.
  exists years, ints. split; [exact Hy|]. split; [exact Hints|].
  split; [|split].
  - unfold reset_index_drop, nrows, take_rows. simpl. rewrite length_map. reflexivity.
  - change (labels (reset_index_drop (take_rows (argsort ints) d4)))
      with (labels (take_rows (argsort ints) d4)).
    rewrite labels_take_rows. unfold d4.
    rewrite (proj1 (metrics_frame d3)). unfold d3.
    rewrite labels_setitem by (eapply getitem_contains; exact Hg2).
    unfold d2. rewrite labels_filter_rows. unfold d1.
    apply labels_setitem. apply contains_lookup. eauto.
  - intros c s Hs.
    change (columns (reset_index_drop (take_rows (argsort ints) d4)))
      with (columns (take_rows (argsort ints) d4)).
    rewrite take_rows_lookup, Hl4, Hs.
    assert (Hls : List.length s = nrows df) by (eapply well_formed_lookup; eassumption).
    destruct (cell_eqb c (Str "Year")); [reflexivity|].
    destruct (contains c metric_labels); simpl; rewrite (Hsel s Hls); reflexivity.
Qed.

Lemma cell_leb_ints (a b : Z) :
  cell_leb (Num (Int a)) (Num (Int b)) = true <-> (a <= b)%Z.
Proof.
  unfold cell_leb, cell_compare, number_compare, to_Q, Qcompare, inject_Z. simpl.
  rewrite !Z.mul_1_r. unfold Z.le. destruct (a ?= b)%Z; split; congruence.
Qed.

Lemma sorted_ints (s : Series) :
  Forall (fun c => exists z, c = Num (Int z)) s ->
  Sorted (fun a b => cell_leb a b = true) s ->
  Sorted Z.le (map int_value s).
Proof.
  intros Hall Hs. induction Hs as [|x l Hl IH Hd]; simpl; [constructor|].
  inversion Hall as [|? ? [z ->] Hall']; subst.
  constructor; [apply IH; exact Hall'|].
  destruct Hd as [|y l' Hxy]; simpl; constructor.
  inversion Hall' as [|? ? [z' ->] _]; subst. simpl.
  apply cell_leb_ints. exact Hxy.
Qed.

(** From where each row of the cleaned table comes, and what it holds. *)
Lemma clean_frame_rows (df out : DataFrame) :
  well_formed df ->
  clean_frame parse_number argsort df = Ok out ->
  exists src : list nat,
    Permutation src (surviving_rows parse_number df) /\
    index out = range_index (List.length src) /\
    labels out = labels df /\
    (exists years, getitem out (Str "Year") = Ok years /\
                   List.length years = List.length src /\
                   Forall (fun c => exists z, c = Num (Int z)) years /\
                   Sorted Z.le (map int_value years)) /\
    (forall k, k < List.length src ->
       astype_int_cell (to_numeric_cell parse_number (cell_at df (Str "Year") (nth k src 0)))
       = Ok (cell_at out (Str "Year") k)) /\
    (forall c k, contains c metric_labels = true -> k < List.length src ->
       cell_at out c k = to_numeric_cell parse_number (cell_at df c (nth k src 0))) /\
    (forall c k, contains c (Str "Year" :: metric_labels) = false -> k < List.length src ->
       cell_at out c k = cell_at df c (nth k src 0)).
Proof.
  intros Hwf H.
  destruct (clean_frame_shape df out Hwf H) as (years & ints & Hy & Hints & Hidx & Hlab & Hcols).
  set (kept := surviving_rows parse_number df) in *.
  set (pos := argsort ints) in *.
  destruct (astype_int_ints _ _ Hints) as [Hlen Hall]. rewrite length_map in Hlen.
  destruct (argsort_ok ints) as [Hperm Hsorted]. fold pos in Hperm, Hsorted.
  assert (Hpos : forall k, In k pos -> k < List.length kept).
  { intros k Hk. rewrite <- Hlen. apply argsort_positions. exact Hk. }
  assert (Hposn : forall k, k < List.length pos -> nth k pos 0 < List.length kept).
  { intros k Hk. apply Hpos. apply nth_In. exact Hk. }
  exists (map (fun k => nth k kept 0) pos).
  rewrite length_map.
  assert (Hcell : forall c k, k < List.length pos ->
            cell_at out c k =
            match lookup_column c (columns df) with
            | Some s =>
                nth (nth k pos 0)
                  (if cell_eqb c (Str "Year") then ints
                   else if contains c metric_labels
                        then to_numeric parse_number (map (fun i => nth i s NaN) kept)
                        else map (fun i => nth i s NaN) kept) NaN
            | None => NaN
            end).
  { intros c k Hk. unfold cell_at.
    destruct (lookup_column c (columns df)) as [s|] eqn:Es.
    - rewrite (Hcols c s Es).
      rewrite (nth_map_lt _ _ _ 0 NaN) by exact Hk. reflexivity.
    - destruct (lookup_column c (columns out)) as [s'|] eqn:Es'; [|reflexivity].
      assert (Hc : contains c (labels out) = true) by (apply contains_lookup; eauto).
      rewrite Hlab in Hc. apply contains_lookup in Hc. destruct Hc as [s Hs]. congruence. }
  split; [|split; [|split; [|split; [|split; [|split]]]]].
  - apply (Permutation_trans (l' := map (fun k => nth k kept 0) (seq 0 (List.length kept)))).
    + apply Permutation_map. rewrite <- Hlen. exact Hperm.
    + rewrite map_nth_seq. apply Permutation_refl.
  - exact Hidx.
  - exact Hlab.
  - exists (map (fun k => nth k ints NaN) pos). split; [|split; [|split]].
    + apply getitem_lookup. rewrite (Hcols _ _ Hy). reflexivity.
    + rewrite length_map. reflexivity.
    + apply Forall_forall. intros c Hc. apply in_map_iff in Hc.
      destruct Hc as (k & <- & Hk). rewrite Forall_forall in Hall.
      apply Hall. apply nth_In. rewrite Hlen. apply Hpos. exact Hk.
    + apply sorted_ints; [|exact Hsorted].
      apply Forall_forall. intros c Hc. apply in_map_iff in Hc.
      destruct Hc as (k & <- & Hk). rewrite Forall_forall in Hall.
      apply Hall. apply nth_In. rewrite Hlen. apply Hpos. exact Hk.
  - intros k Hk. rewrite (Hcell _ k Hk), Hy. cbn [cell_eqb String.eqb].
    rewrite (nth_map_lt _ _ _ 0 0) by exact Hk.
    apply rmap_ok in Hints.
    pose proof (Forall2_nth _ _ _ NaN NaN Hints (nth k pos 0)) as Hk'.
    rewrite length_map in Hk'. specialize (Hk' (Hposn k Hk)).
    rewrite (nth_map_lt _ _ _ 0 NaN) in Hk' by (apply Hposn; exact Hk).
    unfold cell_at. rewrite Hy. exact Hk'.
  - intros c k Hc Hk. rewrite (Hcell _ k Hk).
    rewrite (nth_map_lt _ _ _ 0 0) by exact Hk. unfold cell_at.
    destruct (lookup_column c (columns df)) as [s|]; [|reflexivity].
    assert (Hny : cell_eqb c (Str "Year") = false).
    { destruct (cell_eqb c (Str "Year")) eqn:E; [|reflexivity].
      apply cell_eqb_str in E. subst c. discriminate. }
    rewrite Hny, Hc. unfold to_numeric.
    rewrite (nth_map_lt _ _ _ NaN NaN) by (rewrite length_map; apply Hposn; exact Hk).
    rewrite (nth_map_lt _ _ _ 0 NaN) by (apply Hposn; exact Hk). reflexivity.
  - intros c k Hc Hk. rewrite (Hcell _ k Hk).
    rewrite (nth_map_lt _ _ _ 0 0) by exact Hk. unfold cell_at.
    destruct (lookup_column c (columns df)) as [s|]; [|reflexivity].
    cbn [contains existsb] in Hc. apply orb_false_iff in Hc. destruct Hc as [Hny Hnm].
    rewrite Hny. unfold contains. rewrite Hnm.
    rewrite (nth_map_lt _ _ _ 0 NaN) by (apply Hposn; exact Hk). reflexivity.
Qed.

(** Each row of the cleaned table is a surviving row of the input,
    cleaned. *)
Lemma clean_frame_cleaned_rows (df out : DataFrame) :
  well_formed df ->
  clean_frame parse_number argsort df = Ok out ->
  exists src : list nat,
    Permutation src (surviving_rows parse_number df) /\
    index out = range_index (List.length src) /\
    labels out = labels df /\
    (exists years, getitem out (Str "Year") = Ok years /\
                   List.length years = List.length src /\
                   Forall (fun c => exists z, c = Num (Int z)) years /\
                   Sorted Z.le (map int_value years)) /\
    (forall k, k < List.length src -> cleaned_row parse_number df out (nth k src 0) k).
Proof.
  intros Hwf H.
  destruct (clean_frame_rows df out Hwf H)
    as (src & Hperm & Hidx & Hlab & Hyears & Hyear & Hmet & Hoth).
  exists src. repeat (split; [assumption|]).
  intros k Hk. split; [|split].
  - specialize (Hyear k Hk).
    destruct (astype_int_cell_int _ _ Hyear) as [z Hz].
    exists z. split; [exact Hz|]. intros n Hn _.
    rewrite Hn, Hz in Hyear. apply astype_int_cell_part. exact Hyear.
  - intros c Hc. rewrite (Hmet c k Hc Hk). split; [reflexivity|].
    intros n Hn _. exact Hn.
  - intros c Hc. apply Hoth; assumption.
Qed.

Lemma astype_int_finite (s : Series) :
  Forall (fun c => exists n, c = Num n /\ forall b, n <> Inf b) s ->
  exists ints, astype_int s = Ok ints.
Proof.
  unfold astype_int. induction 1 as [|c s (n & -> & Hn) _ [ints IH]]; simpl.
  - eauto.
  - rewrite IH. destruct n as [z|q|b]; simpl; eauto.
    exfalso. apply (Hn b). reflexivity.
Qed.

Lemma astype_int_infinite (s : Series) :
  Forall (fun c => exists n, c = Num n) s ->
  Exists (fun c => exists b, c = Num (Inf b)) s ->
  astype_int s = Raise IntCastingNaNError.
Proof.
  unfold astype_int. induction 1 as [|c s [n ->] Hs IH]; intros Hex; simpl.
  - inversion Hex.
  - destruct n as [z|q|b]; simpl; try reflexivity.
    + inversion Hex as [? ? [b Hb]|? ? Hex']; subst; [discriminate|].
      rewrite (IH Hex'). reflexivity.
    + inversion Hex as [? ? [b Hb]|? ? Hex']; subst; [discriminate|].
      rewrite (IH Hex'). reflexivity.
Qed.

(** The cleaner up to the cast: the Years it casts are the numeric readings
    of the Years of the surviving rows. *)
Lemma clean_frame_cast (df : DataFrame) (years : Series) :
  well_formed df ->
  lookup_column (Str "Year") (columns df) = Some years ->
  exists d2 : DataFrame,
    clean_frame parse_number argsort df =
    rbind (astype_int (map (fun i => to_numeric_cell parse_number (nth i years NaN))
                           (surviving_rows parse_number df)))
      (fun ints =>
         rbind (sort_values argsort (Str "Year")
                  (fold_left (coerce_column parse_number) metric_labels
                     (setitem d2 (Str "Year") ints)))
               (fun d5 => Ok (reset_index_drop d5))).
Proof.
  intros Hwf Hy. unfold clean_frame.
  rewrite (proj2 (getitem_lookup df _ _) Hy). cbn [rbind].
  set (ty := to_numeric parse_number years).
  set (d1 := setitem df (Str "Year") ty).
  assert (Hl1 : lookup_column (Str "Year") (columns d1) = Some ty).
  { unfold d1. simpl. rewrite lookup_replace. reflexivity. }
  assert (Hg1 : getitem d1 (Str "Year") = Ok ty) by (apply getitem_lookup; exact Hl1).
  rewrite (dropna_single _ _ _ Hg1). cbn [rbind].
  replace (nrows d1) with (nrows df) by reflexivity.
  set (mask := map _ (seq 0 (nrows df))).
  set (d2 := filter_rows mask d1).
  assert (Hty : List.length ty = nrows df).
  { unfold ty, to_numeric. rewrite length_map. eapply well_formed_lookup; eassumption. }
  assert (Hg2 : getitem d2 (Str "Year") =
                Ok (map (fun i => to_numeric_cell parse_number (nth i years NaN))
                        (surviving_rows parse_number df))).
  { apply getitem_lookup. unfold d2. rewrite filter_rows_lookup, Hl1. simpl. f_equal.
    unfold mask, ty. rewrite <- Hty at 1. unfold ty.
    rewrite (select_mask_filter _ NaN). fold ty. rewrite Hty.
    unfold ty. rewrite (surviving_rows_mask df years Hy).
    apply map_ext. intros i.
    unfold to_numeric. rewrite <- (map_nth (to_numeric_cell parse_number)). reflexivity. }
  rewrite Hg2. cbn [rbind]. exists d2. reflexivity.
Qed.

Lemma surviving_years_numeric (df : DataFrame) (years : Series) :
  lookup_column (Str "Year") (columns df) = Some years ->
  Forall (fun c => exists n, c = Num n)
         (map (fun i => to_numeric_cell parse_number (nth i years NaN))
              (surviving_rows parse_number df)).
Proof.
  intros Hy. apply Forall_forall. intros c Hin. apply in_map_iff in Hin.
  destruct Hin as (i & <- & Hi). unfold surviving_rows in Hi.
  apply filter_In in Hi. destruct Hi as [_ Hp].
  unfold year_parses, cell_at in Hp. rewrite Hy in Hp.
  destruct (to_numeric_cell parse_number (nth i years NaN)) as [|n|t] eqn:E.
  - discriminate.
  - eauto.
  - exfalso. unfold to_numeric_cell in E.
    destruct (nth i years NaN); try discriminate.
    destruct (parse_number s); discriminate.
Qed.

(** The cleaner returns a table whenever the table it is given has a Year
    column in which no value reads as an infinite number. *)
Lemma clean_frame_returns (df : DataFrame) :
  well_formed df ->
  contains (Str "Year") (labels df) = true ->
  (forall i b, i < nrows df ->
     to_numeric_cell parse_number (cell_at df (Str "Year") i) <> Num (Inf b)) ->
  exists out, clean_frame parse_number argsort df = Ok out.
Proof.
  intros Hwf Hc Hfin.
  apply contains_lookup in Hc. destruct Hc as [years Hy].
  destruct (clean_frame_cast df years Hwf Hy) as [d2 ->].
  destruct (astype_int_finite
              (map (fun i => to_numeric_cell parse_number (nth i years NaN))
                   (surviving_rows parse_number df))) as [ints Hints].
  { pose proof (surviving_years_numeric df years Hy) as Hnum.
    rewrite Forall_forall in Hnum. apply Forall_forall. intros c Hin.
    destruct (Hnum c Hin) as [n ->]. exists n. split; [reflexivity|].
    intros b ->. apply in_map_iff in Hin. destruct Hin as (i & Hi & Hin).
    unfold surviving_rows in Hin. apply filter_In in Hin. destruct Hin as [Hin _].
    apply in_seq in Hin. apply (Hfin i b); [lia|]. unfold cell_at. rewrite Hy. exact Hi. }
  rewrite Hints. cbn [rbind].
  destruct (astype_int_ints _ _ Hints) as [_ Hall].
  rewrite (sort_values_ints _ (Str "Year") ints).
  - cbn [rbind]. eauto.
  - apply getitem_lookup. rewrite lookup_metrics. simpl. rewrite lookup_replace. reflexivity.
  - exact Hall.
Qed.

(** The cleaner raises when a Year reads as an infinite number. *)
Lemma clean_frame_raises (df : DataFrame) (i : nat) (b : bool) :
  well_formed df ->
  i < nrows df ->
  to_numeric_cell parse_number (cell_at df (Str "Year") i) = Num (Inf b) ->
  clean_frame parse_number argsort df = Raise IntCastingNaNError.
Proof.
  intros Hwf Hi Hinf.
  destruct (lookup_column (Str "Year") (columns df)) as [years|] eqn:Hy.
  - destruct (clean_frame_cast df years Hwf Hy) as [d2 ->].
    rewrite astype_int_infinite; [reflexivity | apply surviving_years_numeric; exact Hy |].
    apply Exists_exists. exists (Num (Inf b)). split; [|eauto].
    apply in_map_iff. exists i. unfold cell_at in Hinf. rewrite Hy in Hinf.
    split; [exact Hinf|]. unfold surviving_rows. apply filter_In. split.
    + apply in_seq. lia.
    + unfold year_parses, cell_at. rewrite Hy, Hinf. reflexivity.
  - unfold cell_at in Hinf. rewrite Hy in Hinf. discriminate.
Qed.

End CleanerValues.

(** ** The insertion argsort meets the contract *)

Lemma number_compare_antisym (a b : number) :
  number_compare b a = CompOpp (number_compare a b).
Proof.
  destruct a as [x|p|[|]], b as [y|q|[|]]; simpl; try reflexivity;
    symmetry; apply Qcompare_antisym.
Qed.

Lemma cell_compare_antisym (a b : cell) :
  cell_compare b a = CompOpp (cell_compare a b).
Proof.
  destruct a as [|x|s], b as [|y|t]; simpl; try reflexivity.
  - apply number_compare_antisym.
  - apply String.compare_antisym.
Qed.

Lemma cell_leb_total (a b : cell) : cell_leb a b = false -> cell_leb b a = true.
Proof.
  unfold cell_leb. rewrite (cell_compare_antisym a b).
  destruct (cell_compare a b); simpl; congruence.
Qed.

Lemma Sorted_map {A B} (R : A -> A -> Prop) (R' : B -> B -> Prop) (f : A -> B) (l : list A) :
  (forall a b, R a b -> R' (f a) (f b)) -> Sorted R l -> Sorted R' (map f l).
Proof.
  intros HR Hs. induction Hs as [|x l Hl IH Hd]; simpl; constructor; [exact IH|].
  destruct Hd; simpl; constructor. apply HR. assumption.
Qed.

Section InsertionArgsort.

Variable before : cell -> cell -> bool.
Hypothesis before_leb : forall a b, before a b = true -> cell_leb a b = true.
Hypothesis not_before_leb : forall a b, before a b = false -> cell_leb b a = true.
Variable keys : list cell.

Let R (i j : nat) : Prop := cell_leb (nth i keys NaN) (nth j keys NaN) = true.

Lemma insert_position_perm (i : nat) (l : list nat) :
  Permutation (insert_position before keys i l) (i :: l).
Proof.
  induction l as [|j r IH]; simpl; [apply Permutation_refl|].
  destruct (before _ _); [apply Permutation_refl|].
  eapply Permutation_trans; [apply perm_skip; exact IH | apply perm_swap].
Qed.

Lemma insert_position_sorted (i : nat) (l : list nat) :
  Sorted R l -> Sorted R (insert_position before keys i l).
Proof.
  intros Hs. induction Hs as [|j r Hr IH Hd]; simpl.
  - repeat constructor.
  - destruct (before (nth i keys NaN) (nth j keys NaN)) eqn:E.
    + constructor; [constructor; assumption|]. constructor. apply before_leb. exact E.
    + constructor; [exact IH|].
      destruct r as [|k r']; simpl.
      * constructor. apply not_before_leb. exact E.
      * destruct (before (nth i keys NaN) (nth k keys NaN)).
        -- constructor. apply not_before_leb. exact E.
        -- constructor. inversion Hd; assumption.
Qed.

Lemma insertion_fold_spec (l : list nat) :
  Permutation (fold_right (insert_position before keys) [] l) l /\
  Sorted R (fold_right (insert_position before keys) [] l).
Proof.
  induction l as [|i l [IHp IHs]]; simpl.
  - split; constructor.
  - split.
    + eapply Permutation_trans; [apply insert_position_perm | apply perm_skip; exact IHp].
    + apply insert_position_sorted. exact IHs.
Qed.

End InsertionArgsort.

Lemma insertion_argsort_spec : argsort_spec insertion_argsort.
Proof.
  intros keys. unfold insertion_argsort.
  destruct (insertion_fold_spec cell_leb (fun a b H => H) cell_leb_total keys
              (seq 0 (List.length keys))) as [Hp Hs].
  split; [exact Hp|].
  eapply Sorted_map; [|exact Hs]. auto.
Qed.

(** ** The cleaner *)

Lemma nrows_range (df : DataFrame) (n : nat) : index df = range_index n -> nrows df = n.
Proof. intros H. unfold nrows. rewrite H. unfold range_index. rewrite length_map, length_seq. reflexivity. Qed.

Section Cleaner.

Variable parse_number : string -> option number.
Variable argsort : list cell -> list nat.
Hypothesis argsort_ok : argsort_spec argsort.

Lemma clean_and_sort_result (w w' : world) (p q : addr) (df : DataFrame) :
  nth_error (heap w) p = Some df ->
  clean_and_sort parse_number argsort p w = (Ok q, w') ->
  exists out, clean_frame parse_number argsort df = Ok out /\
              nth_error (heap w') q = Some out.
Proof.
  intros Hp Hrun.
  destruct (clean_and_sort_run parse_number argsort w p df Hp) as (h' & Hrun' & _ & Hout).
  rewrite Hrun in Hrun'.
  destruct (clean_frame parse_number argsort df) as [out|e]; [|inversion Hrun'].
  exists out. split; [reflexivity|]. inversion Hrun'; subst. simpl. apply Hout. reflexivity.
Qed.



(** The cleaner returns a table whenever the table it is given has a Year
    column in which no value reads as an infinite number. *)
Theorem clean_and_sort_returns (w : world) (p : addr) (df : DataFrame) :
  nth_error (heap w) p = Some df ->
  well_formed df ->
  contains (Str "Year") (labels df) = true ->
  (forall i b, i < nrows df ->
     to_numeric_cell parse_number (cell_at df (Str "Year") i) <> Num (Inf b)) ->
  exists (q : addr) (w' : world) (out : DataFrame),
    clean_and_sort parse_number argsort p w = (Ok q, w') /\
    nth_error (heap w') q = Some out.
Proof.
  intros Hp Hwf Hc Hfin.
  destruct (clean_frame_returns parse_number argsort argsort_ok df Hwf Hc Hfin) as [out Hout].
  destruct (clean_and_sort_run parse_number argsort w p df Hp) as (h' & Hrun & _ & Hq).
  rewrite Hout in Hrun. do 3 eexists. split; [exact Hrun|]. simpl. apply Hq. exact Hout.
Qed.

(** C2.  A Year that reads as an infinite number is a number, so its row
    is not dropped, and the cast of the Years to integers raises: the
    cleaner does not return. *)
Theorem clean_and_sort_raises_on_infinite_year
    (w : world) (p : addr) (df : DataFrame) (i : nat) (b : bool) :
  nth_error (heap w) p = Some df ->
  well_formed df ->
  i < nrows df ->
  to_numeric_cell parse_number (cell_at df (Str "Year") i) = Num (Inf b) ->
  fst (clean_and_sort parse_number argsort p w) = Raise IntCastingNaNError.
Proof.
  intros Hp Hwf Hi Hinf.
  destruct (clean_and_sort_run parse_number argsort w p df Hp) as (h' & Hrun & _).
  rewrite Hrun, (clean_frame_raises parse_number argsort df i b Hwf Hi Hinf). reflexivity.
Qed.

End Cleaner.

(** ** Grouping *)

Lemma key_eqb_true (k1 k2 : key) :
  key_eqb k1 k2 = true <->
  cell_eqb (fst k1) (fst k2) = true /\ cell_eqb (snd k1) (snd k2) = true.
Proof. unfold key_eqb. apply andb_true_iff. Qed.

Lemma key_eqb_sym (k1 k2 : key) : key_eqb k1 k2 = key_eqb k2 k1.
Proof. unfold key_eqb. rewrite (cell_eqb_sym (fst k1)), (cell_eqb_sym (snd k1)). reflexivity. Qed.

Lemma key_eqb_trans (k1 k2 k3 : key) :
  key_eqb k1 k2 = true -> key_eqb k2 k3 = true -> key_eqb k1 k3 = true.
Proof.
  rewrite !key_eqb_true. intros [A B] [C D]. split; eapply cell_eqb_trans; eassumption.
Qed.

Lemma key_eqb_compat_l (k1 k2 k3 : key) :
  key_eqb k1 k2 = true -> key_eqb k1 k3 = key_eqb k2 k3.
Proof.
  intros H. apply key_eqb_true in H. destruct H as [A B]. unfold key_eqb.
  rewrite (cell_eqb_compat_l _ _ _ A), (cell_eqb_compat_l _ _ _ B). reflexivity.
Qed.

Lemma key_eqb_valid_r (k1 k2 : key) :
  key_eqb k1 k2 = true -> (notna (fst k2) && notna (snd k2))%bool = true.
Proof.
  intros H. apply key_eqb_true in H. destruct H as [A B].
  apply cell_eqb_notna_r in A, B. destruct k2 as [a b]. simpl in *.
  destruct a, b; try reflexivity; congruence.
Qed.

Lemma key_eqb_refl (k : key) :
  (notna (fst k) && notna (snd k))%bool = true -> key_eqb k k = true.
Proof.
  intros H. apply andb_true_iff in H. destruct H as [A B].
  apply key_eqb_true. split; apply cell_eqb_refl; intros E; rewrite E in *; discriminate.
Qed.

Section Unique.

Context {A : Type} (eqb : A -> A -> bool).
Hypothesis eqb_sym : forall a b, eqb a b = eqb b a.
Hypothesis eqb_trans : forall a b c, eqb a b = true -> eqb b c = true -> eqb a c = true.

Lemma unique_in (l : list A) (x : A) : In x (unique eqb l) -> In x l.
Proof.
  revert x. induction l as [|a r IH]; intros x H; simpl in *; [contradiction|].
  destruct H as [->|H]; [left; reflexivity|].
  apply filter_In in H. right. apply IH. tauto.
Qed.

Lemma unique_covers (l : list A) (x : A) :
  In x l -> eqb x x = true -> exists x0, In x0 (unique eqb l) /\ eqb x0 x = true.
Proof.
  induction l as [|a r IH]; intros Hin Hx; simpl in *; [contradiction|].
  destruct Hin as [->|Hin].
  - exists x. auto.
  - destruct (IH Hin Hx) as (x0 & Hx0 & Hx0x).
    destruct (eqb a x0) eqn:E.
    + exists a. split; [left; reflexivity|]. eapply eqb_trans; eassumption.
    + exists x0. split; [|exact Hx0x]. right. apply filter_In. rewrite E. auto.
Qed.

Lemma unique_distinct (l : list A) :
  ForallOrdPairs (fun a b => eqb a b = false) (unique eqb l).
Proof.
  induction l as [|a r IH]; simpl; constructor.
  - apply Forall_forall. intros x Hx. apply filter_In in Hx.
    destruct Hx as [_ Hx]. destruct (eqb a x); [discriminate | reflexivity].
  - clear -IH. induction IH as [|x l Hx Hl IH']; simpl; [constructor|].
    destruct (negb (eqb a x)); [|exact IH'].
    constructor; [|exact IH'].
    apply Forall_forall. intros y Hy. apply filter_In in Hy. destruct Hy as [Hy _].
    rewrite Forall_forall in Hx. apply Hx. exact Hy.
Qed.

Lemma distinct_perm (l l' : list A) :
  Permutation l l' ->
  ForallOrdPairs (fun a b => eqb a b = false) l ->
  ForallOrdPairs (fun a b => eqb a b = false) l'.
Proof.
  induction 1 as [|x l l' Hp IH|x y l|l l' l'' _ IH1 _ IH2]; intros H.
  - constructor.
  - inversion H; subst. constructor; [|apply IH; assumption].
    eapply Permutation_Forall; eassumption.
  - inversion H as [|? ? Hy Hrest]; subst. inversion Hrest as [|? ? Hx Hl]; subst.
    inversion Hy as [|? ? Hyx Hyl]; subst.
    constructor; [constructor; [rewrite eqb_sym; exact Hyx | exact Hx]|].
    constructor; assumption.
  - auto.
Qed.

Lemma distinct_nth (l : list A) (d : A) :
  ForallOrdPairs (fun a b => eqb a b = false) l ->
  forall i j, i < j -> j < List.length l -> eqb (nth i l d) (nth j l d) = false.
Proof.
  induction 1 as [|x l Hx Hl IH]; intros i j Hij Hj; simpl in *; [lia|].
  destruct j as [|j]; [lia|]. destruct i as [|i].
  - rewrite Forall_forall in Hx. apply Hx. apply nth_In. lia.
  - apply IH; lia.
Qed.

End Unique.

Lemma insert_sorted_perm (x : cell) (l : list cell) :
  Permutation (insert_sorted x l) (x :: l).
Proof.
  induction l as [|y r IH]; simpl; [apply Permutation_refl|].
  destruct (cell_leb x y); [apply Permutation_refl|].
  eapply Permutation_trans; [apply perm_skip; exact IH | apply perm_swap].
Qed.

Lemma sort_keys_perm (l : list cell) : Permutation (sort_keys l) l.
Proof.
  unfold sort_keys. induction l as [|x l IH]; simpl; [constructor|].
  eapply Permutation_trans; [apply insert_sorted_perm | apply perm_skip; exact IH].
Qed.

Lemma sorted_unique_distinct (l : list cell) :
  ForallOrdPairs (fun a b => cell_eqb a b = false) (sort_keys (unique cell_eqb l)).
Proof.
  eapply distinct_perm.
  - exact cell_eqb_sym.
  - apply Permutation_sym. apply sort_keys_perm.
  - apply unique_distinct.
Qed.

Section Groups.

Variable rows : list (key * cell).

Let valid_key (r : key * cell) : bool := (notna (fst (fst r)) && notna (snd (fst r)))%bool.

Lemma group_values_compat (k k' : key) :
  key_eqb k k' = true -> group_values rows k = group_values rows k'.
Proof.
  intros H. unfold group_values. f_equal. apply filter_ext.
  intros r. apply key_eqb_compat_l. exact H.
Qed.

Lemma group_values_valid (k : key) :
  map snd (filter (fun r => key_eqb k (fst r)) (filter valid_key rows)) = group_values rows k.
Proof.
  unfold group_values. f_equal. induction rows as [|r l IH]; simpl; [reflexivity|].
  destruct (key_eqb k (fst r)) eqn:E.
  - unfold valid_key at 1. rewrite (key_eqb_valid_r _ _ E). simpl. rewrite E, IH. reflexivity.
  - destruct (valid_key r); simpl; rewrite ?E; exact IH.
Qed.

Lemma groupby_first_in (kv : key * cell) :
  In kv (groupby_first rows) <->
  In (fst kv) (unique key_eqb (map fst (filter valid_key rows))) /\
  snd kv = first_valid (group_values rows (fst kv)).
Proof.
  unfold groupby_first. fold valid_key. rewrite in_map_iff. split.
  - intros (k & <- & Hk). simpl. rewrite group_values_valid. auto.
  - intros [Hk Hv]. exists (fst kv). rewrite group_values_valid, <- Hv.
    destruct kv; auto.
Qed.

Lemma pivot_groups_valid (kv : key * cell) :
  In kv (pivot_groups rows) -> key_eqb (fst kv) (fst kv) = true.
Proof.
  intros H. unfold pivot_groups in H. apply filter_In in H. destruct H as [H _].
  apply groupby_first_in in H. destruct H as [H _].
  apply unique_in in H. apply in_map_iff in H. destruct H as (r & <- & Hr).
  apply filter_In in Hr. destruct Hr as [_ Hr]. apply key_eqb_refl. exact Hr.
Qed.

Lemma pivot_groups_value (kv : key * cell) :
  In kv (pivot_groups rows) ->
  snd kv = first_valid (group_values rows (fst kv)) /\ snd kv <> NaN.
Proof.
  intros H. unfold pivot_groups in H. apply filter_In in H. destruct H as [H Hn].
  apply groupby_first_in in H. destruct H as [_ H]. split; [exact H|].
  intros E. rewrite E in Hn. discriminate.
Qed.

Lemma pivot_groups_has (k : key) :
  first_valid (group_values rows k) <> NaN ->
  exists kv, In kv (pivot_groups rows) /\ key_eqb k (fst kv) = true.
Proof.
  intros Hv.
  assert (Hr : exists r, In r rows /\ key_eqb k (fst r) = true).
  { unfold group_values in Hv.
    destruct (filter (fun r => key_eqb k (fst r)) rows) as [|r l] eqn:E.
    - simpl in Hv. congruence.
    - exists r. apply (proj1 (filter_In (fun r => key_eqb k (fst r)) r rows)).
      rewrite E. left. reflexivity. }
  destruct Hr as (r & Hr & Hkr).
  pose proof (key_eqb_valid_r _ _ Hkr) as Hvalid.
  destruct (unique_covers key_eqb key_eqb_trans (map fst (filter valid_key rows)) (fst r))
    as (k0 & Hk0 & Hk0r).
  - apply in_map. apply filter_In. auto.
  - apply key_eqb_refl. exact Hvalid.
  - assert (Hkk0 : key_eqb k k0 = true).
    { rewrite key_eqb_sym in Hk0r. eapply key_eqb_trans; eassumption. }
    exists (k0, first_valid (group_values rows k0)). split; [|exact Hkk0].
    unfold pivot_groups. apply filter_In. split.
    + apply groupby_first_in. auto.
    + simpl. rewrite <- (group_values_compat _ _ Hkk0).
      destruct (first_valid (group_values rows k)); try reflexivity. congruence.
Qed.

Lemma agged_lookup_spec (k : key) :
  agged_lookup (pivot_groups rows) k = first_valid (group_values rows k).
Proof.
  unfold agged_lookup.
  destruct (find (fun kv => key_eqb k (fst kv)) (pivot_groups rows)) as [kv|] eqn:F.
  - apply find_some in F. destruct F as [Hin Hk].
    destruct (pivot_groups_value kv Hin) as [-> _].
    symmetry. f_equal. apply group_values_compat. exact Hk.
  - destruct (first_valid (group_values rows k)) eqn:V; try reflexivity.
    + destruct (pivot_groups_has k) as (kv & Hin & Hk); [congruence|].
      rewrite (find_none _ _ F kv Hin) in Hk. discriminate.
    + destruct (pivot_groups_has k) as (kv & Hin & Hk); [congruence|].
      rewrite (find_none _ _ F kv Hin) in Hk. discriminate.
Qed.

End Groups.

(** ** Column selection and renaming *)

Lemma lookup_selected (d : DataFrame) (want : list cell) (cols : list (cell * Series)) (c : cell) :
  Forall2 (fun w cs => rbind (getitem d w) (fun s => Ok (w, s)) = Ok cs) want cols ->
  lookup_column c cols = if contains c want then lookup_column c (columns d) else None.
Proof.
  induction 1 as [|w cs want cols Hw _ IH]; simpl; [reflexivity|].
  unfold getitem in Hw. destruct (lookup_column w (columns d)) as [s|] eqn:E; [|discriminate].
  simpl in Hw. inversion Hw; subst cs. simpl.
  destruct (cell_eqb c w) eqn:Ec; simpl.
  - rewrite (lookup_compat _ _ _ Ec), E. reflexivity.
  - exact IH.
Qed.

Lemma select_columns_ok (d : DataFrame) (want : list cell) (out : DataFrame) :
  select_columns d want = Ok out ->
  index out = index d /\
  labels out = want /\
  (forall c, lookup_column c (columns out) =
             if contains c want then lookup_column c (columns d) else None) /\
  (well_formed d -> well_formed out).
Proof.
  unfold select_columns. destruct (missing_labels want (labels d)); [|discriminate].
  destruct (rmap _ want) as [cols|] eqn:E; [|discriminate]. simpl.
  intros H. inversion H; subst out; clear H. simpl.
  apply rmap_ok in E. split; [reflexivity|]. split; [|split].
  - unfold labels. simpl. clear -E. induction E as [|w cs want cols Hw _ IH]; simpl; [reflexivity|].
    f_equal; [|exact IH]. destruct (getitem d w); simpl in Hw; inversion Hw. reflexivity.
  - intros c. eapply lookup_selected. exact E.
  - intros Hwf. unfold well_formed, nrows. simpl. apply Forall_forall. intros cs Hcs.
    clear -E Hwf Hcs. induction E as [|w cs' want cols Hw _ IH]; simpl in Hcs; [contradiction|].
    destruct Hcs as [<-|Hcs]; [|apply IH; exact Hcs].
    unfold getitem in Hw. destruct (lookup_column w (columns d)) as [s|] eqn:El; [|discriminate].
    simpl in Hw. inversion Hw; subst. simpl. eapply well_formed_lookup; eassumption.
Qed.

Lemma rename_identity (d : DataFrame) :
  rename [(Str "Area harvested", Str "Area harvested");
          (Str "Yield", Str "Yield");
          (Str "Production", Str "Production")] d = d.
Proof.
  destruct d as [n i cols]. unfold rename. simpl. f_equal.
  rewrite <- (map_id cols) at 2. apply map_ext. intros [c s]. simpl. f_equal.
  destruct (cell_eqb c (Str "Area harvested")) eqn:E1; [apply cell_eqb_str in E1; congruence|].
  destruct (cell_eqb c (Str "Yield")) eqn:E2; [apply cell_eqb_str in E2; congruence|].
  destruct (cell_eqb c (Str "Production")) eqn:E3; [apply cell_eqb_str in E3; congruence|].
  reflexivity.
Qed.

Lemma contains_compat (a b : cell) (l : list cell) :
  cell_eqb a b = true -> contains a l = contains b l.
Proof.
  intros H. unfold contains. induction l as [|x l IH]; simpl; [reflexivity|].
  rewrite (cell_eqb_compat_l _ _ x H), IH. reflexivity.
Qed.

Lemma contains_filter (c : cell) (have want : list cell) :
  contains c (filter (fun x => contains x have) want) =
  (contains c want && contains c have)%bool.
Proof.
  induction want as [|x want IH]; simpl; [reflexivity|].
  destruct (contains x have) eqn:Hx; simpl; rewrite IH.
  - destruct (cell_eqb c x) eqn:E; simpl; [|reflexivity].
    rewrite (contains_compat _ _ have E), Hx. reflexivity.
  - destruct (cell_eqb c x) eqn:E; simpl; [|reflexivity].
    rewrite (contains_compat _ _ have E), Hx. apply andb_false_r.
Qed.

Lemma lookup_existing (d : DataFrame) (want : list cell) (c : cell) :
  contains c want = true ->
  (if contains c (filter (fun x => contains x (map fst (columns d))) want)
   then lookup_column c (columns d) else None) = lookup_column c (columns d).
Proof.
  intros H. rewrite contains_filter, H. simpl. fold (labels d).
  destruct (contains c (labels d)) eqn:E; [reflexivity|].
  destruct (lookup_column c (columns d)) eqn:El; [|reflexivity].
  assert (contains c (labels d) = true) by (apply contains_lookup; eauto). congruence.
Qed.

(** ** The pivot *)

Lemma lookup_table_some (P : cell * Series -> bool) (f : cell -> Series) (cols : list cell)
    (c : cell) (s : Series) :
  lookup_column c (filter P (map (fun e => (e, f e)) cols)) = Some s ->
  exists e, In e cols /\ cell_eqb c e = true /\ s = f e.
Proof.
  induction cols as [|e r IH]; simpl; [discriminate|].
  destruct (P (e, f e)); simpl.
  - destruct (cell_eqb c e) eqn:E.
    + intros H. inversion H. exists e. auto.
    + intros H. destruct (IH H) as (e' & He' & Hc & Hs). exists e'. auto.
  - intros H. destruct (IH H) as (e' & He' & Hc & Hs). exists e'. auto.
Qed.

Lemma lookup_table_none (P : cell * Series -> bool) (f : cell -> Series) (cols : list cell)
    (c : cell) :
  lookup_column c (filter P (map (fun e => (e, f e)) cols)) = None ->
  forall e, In e cols -> cell_eqb c e = true -> P (e, f e) = false.
Proof.
  induction cols as [|e r IH]; simpl; [contradiction|].
  intros H e' [<-|He'] Hc.
  - destruct (P (e, f e)); [|reflexivity]. simpl in H. rewrite Hc in H. discriminate.
  - apply IH; try assumption.
    destruct (P (e, f e)); [|exact H]. simpl in H.
    destruct (cell_eqb c e); [discriminate | exact H].
Qed.

Section Pivot.

Variable rows : list (key * cell).

Let groups := pivot_groups rows.
Let idx := sort_keys (unique cell_eqb (map (fun kv => fst (fst kv)) groups)).
Let cols := sort_keys (unique cell_eqb (map (fun kv => snd (fst kv)) groups)).
Let table := filter (fun cs : cell * Series => existsb notna (snd cs))
                    (map (fun e => (e, map (fun y => agged_lookup groups (y, e)) idx)) cols).

Lemma pivot_index_covers (kv : key * cell) :
  In kv groups -> exists y, In y idx /\ cell_eqb y (fst (fst kv)) = true.
Proof.
  intros H. pose proof (pivot_groups_valid rows kv H) as Hv.
  apply key_eqb_true in Hv. destruct Hv as [Hy _].
  destruct (unique_covers cell_eqb cell_eqb_trans
              (map (fun kv => fst (fst kv)) groups) (fst (fst kv))) as (y & Hin & Hyy).
  - apply (in_map (fun kv => fst (fst kv))). exact H.
  - exact Hy.
  - exists y. split; [|exact Hyy].
    apply (Permutation_in _ (Permutation_sym (sort_keys_perm _))). exact Hin.
Qed.

Lemma pivot_columns_cover (kv : key * cell) :
  In kv groups -> exists e, In e cols /\ cell_eqb e (snd (fst kv)) = true.
Proof.
  intros H. pose proof (pivot_groups_valid rows kv H) as Hv.
  apply key_eqb_true in Hv. destruct Hv as [_ He].
  destruct (unique_covers cell_eqb cell_eqb_trans
              (map (fun kv => snd (fst kv)) groups) (snd (fst kv))) as (e & Hin & Hee).
  - apply (in_map (fun kv => snd (fst kv))). exact H.
  - exact He.
  - exists e. split; [|exact Hee].
    apply (Permutation_in _ (Permutation_sym (sort_keys_perm _))). exact Hin.
Qed.

Lemma pivot_index_valid (y : cell) : In y idx -> cell_eqb y y = true.
Proof.
  intros H. apply (Permutation_in _ (sort_keys_perm _)) in H.
  apply unique_in in H. apply in_map_iff in H. destruct H as (kv & <- & Hkv).
  pose proof (pivot_groups_valid rows kv Hkv) as Hv.
  apply key_eqb_true in Hv. tauto.
Qed.

(** A cell of the pivot is the aggregate of its group, also when the
    column was not produced. *)
Lemma pivot_cell (s : string) (k : nat) :
  k < List.length idx ->
  match lookup_column (Str s) table with
  | Some col => nth k col NaN
  | None => NaN
  end = first_valid (group_values rows (nth k idx NaN, Str s)).
Proof.
  intros Hk. rewrite <- agged_lookup_spec. fold groups.
  destruct (lookup_column (Str s) table) as [col|] eqn:E.
  - apply lookup_table_some in E. destruct E as (e & _ & He & ->).
    apply cell_eqb_str_l in He. subst e.
    rewrite (nth_map_lt _ _ _ NaN NaN) by exact Hk. reflexivity.
  - pose proof (lookup_table_none _ _ _ _ E) as Hnone. cbn beta in Hnone.
    destruct (agged_lookup groups (nth k idx NaN, Str s)) eqn:V; try reflexivity;
      exfalso;
      (assert (Hv : first_valid (group_values rows (nth k idx NaN, Str s)) <> NaN)
        by (rewrite <- agged_lookup_spec; fold groups; rewrite V; discriminate));
      destruct (pivot_groups_has rows _ Hv) as (kv & Hin & Hkv);
      destruct (pivot_columns_cover kv Hin) as (e & He & Hee);
      apply key_eqb_true in Hkv; destruct Hkv as [_ Hs]; cbn [snd] in Hs;
      (assert (e = Str s)
        by (apply cell_eqb_str_l; rewrite cell_eqb_sym in Hee;
            eapply cell_eqb_trans; eassumption));
      subst e;
      specialize (Hnone (Str s) He (proj2 (cell_eqb_str _ _) eq_refl));
      cbn [snd] in Hnone;
      (apply (fun H => existsb_nth notna _ NaN (n := k) H) in Hnone;
        [|rewrite length_map; exact Hk]);
      rewrite (nth_map_lt _ _ _ NaN NaN) in Hnone by exact Hk;
      rewrite V in Hnone; discriminate.
Qed.

Lemma pivot_table_well_formed :
  Forall (fun cs : cell * Series => List.length (snd cs) = List.length idx) table.
Proof.
  apply Forall_forall. intros cs H. unfold table in H. apply filter_In in H.
  destruct H as [H _]. apply in_map_iff in H. destruct H as (e & <- & _).
  simpl. apply length_map.
Qed.

End Pivot.

(** ** The reshape on table values *)

Lemma combine_map {A B C} (f : A -> B) (g : A -> C) (l : list A) :
  combine (map f l) (map g l) = map (fun x => (f x, g x)) l.
Proof. induction l; simpl; [reflexivity | now rewrite IHl]. Qed.

Lemma filter_map_comm {A B} (p : B -> bool) (f : A -> B) (l : list A) :
  filter p (map f l) = map f (filter (fun x => p (f x)) l).
Proof.
  induction l as [|x l IH]; simpl; [reflexivity|].
  destruct (p (f x)); simpl; now rewrite IH.
Qed.

Lemma filter_filter {A} (p q : A -> bool) (l : list A) :
  filter p (filter q l) = filter (fun x => (q x && p x)%bool) l.
Proof.
  induction l as [|x l IH]; simpl; [reflexivity|].
  destruct (q x); simpl; [destruct (p x)|]; now rewrite IH.
Qed.

Lemma mask_of_column (g : cell -> bool) (s : Series) :
  map g s = map (fun i => g (nth i s NaN)) (seq 0 (List.length s)).
Proof.
  rewrite <- (map_nth_seq s NaN) at 1. rewrite map_map. reflexivity.
Qed.

Section Reshape.

Variables (df : DataFrame) (country : string).
Variables (area ys es vs : Series).
Hypothesis df_ok : well_formed df.
Hypothesis area_col : lookup_column (Str "Area") (columns df) = Some area.
Hypothesis year_col : lookup_column (Str "Year") (columns df) = Some ys.
Hypothesis element_col : lookup_column (Str "Element") (columns df) = Some es.
Hypothesis value_col : lookup_column (Str "Value") (columns df) = Some vs.

Let m := map (fun a => cell_eqb a (Str country)) area.
Let rows := combine (combine (select_mask m ys) (select_mask m es)) (select_mask m vs).

(** The rows that are grouped are the records of the entity, in input
    order. *)
Lemma reshape_rows :
  rows = map (fun i => ((nth i ys NaN, nth i es NaN), nth i vs NaN))
             (filter (fun i => cell_eqb (nth i area NaN) (Str country)) (seq 0 (nrows df))).
Proof.
  pose proof (well_formed_lookup _ _ _ df_ok area_col) as La.
  pose proof (well_formed_lookup _ _ _ df_ok year_col) as Ly.
  pose proof (well_formed_lookup _ _ _ df_ok element_col) as Le.
  pose proof (well_formed_lookup _ _ _ df_ok value_col) as Lv.
  assert (Hsel : forall s, List.length s = nrows df ->
            select_mask m s =
            map (fun i => nth i s NaN)
                (filter (fun i => cell_eqb (nth i area NaN) (Str country)) (seq 0 (nrows df)))).
  { intros s Hs. unfold m. rewrite mask_of_column, La, <- Hs.
    rewrite (select_mask_filter _ NaN). reflexivity. }
  unfold rows. rewrite (Hsel ys Ly), (Hsel es Le), (Hsel vs Lv).
  rewrite !combine_map. reflexivity.
Qed.

Lemma group_values_matching (y e : cell) :
  group_values rows (y, e) = matching_values df country y e.
Proof.
  rewrite reshape_rows. unfold group_values, matching_values.
  rewrite filter_map_comm, map_map, filter_filter. cbn [fst snd].
  unfold cell_at. rewrite area_col, year_col, element_col, value_col.
  f_equal. apply filter_ext. intros i. unfold key_eqb. cbn [fst snd].
  rewrite (cell_eqb_sym y), (cell_eqb_sym e). reflexivity.
Qed.

End Reshape.

Lemma process_frame_shape (df : DataFrame) (country : string) (out : DataFrame) :
  well_formed df ->
  process_frame df country = Ok out ->
  exists idx : list cell,
    index out = range_index (List.length idx) /\
    getitem out (Str "Year") = Ok idx /\
    well_formed out /\
    ForallOrdPairs (fun a b => cell_eqb a b = false) idx /\
    (forall s k, In (Str s) metric_labels -> k < List.length idx ->
       cell_at out (Str s) k =
       first_valid (matching_values df country (nth k idx NaN) (Str s))) /\
    (forall y s, first_valid (matching_values df country y (Str s)) <> NaN ->
       exists y0, In y0 idx /\ cell_eqb y0 y = true).
Proof.
  intros Hwf H. unfold process_frame in H.
  destruct (getitem df (Str "Area")) as [area|] eqn:Ha; [|discriminate]. cbn [rbind] in H.
  set (m := map (fun a => cell_eqb a (Str country)) area) in *.
  destruct (select_columns (filter_rows m df) _) as [d2|] eqn:Hsel; [|discriminate].
  cbn [rbind] in H.
  destruct (select_columns_ok _ _ _ Hsel) as (_ & Hlab2 & Hlook2 & _).
  assert (Hcol : forall c, In c [Str "Year"; Str "Element"; Str "Value"] ->
            exists s, lookup_column c (columns df) = Some s /\
                      lookup_column c (columns d2) = Some (select_mask m s)).
  { intros c Hc.
    assert (Hin : contains c (labels d2) = true).
    { rewrite Hlab2. simpl in Hc. destruct Hc as [<-|[<-|[<-|[]]]]; reflexivity. }
    apply contains_lookup in Hin. destruct Hin as [s2 Hs2].
    pose proof (Hlook2 c) as Hl. rewrite Hs2 in Hl.
    destruct (contains c _); [|discriminate].
    unfold filter_rows in Hl. cbn [columns] in Hl. rewrite lookup_map_values in Hl.
    destruct (lookup_column c (columns df)) as [s|]; [|discriminate].
    cbn [option_map] in Hl. exists s. split; [reflexivity|]. rewrite Hs2. exact Hl. }
  destruct (Hcol (Str "Year")) as (ys & Hys & Hys2); [simpl; auto|].
  destruct (Hcol (Str "Element")) as (es & Hes & Hes2); [simpl; auto|].
  destruct (Hcol (Str "Value")) as (vs & Hvs & Hvs2); [simpl; auto|].
  apply getitem_lookup in Ha.
  unfold pivot_table, getitem in H. rewrite Hys2, Hes2, Hvs2 in H. cbn [rbind] in H.
  set (rows := combine (combine (select_mask m ys) (select_mask m es)) (select_mask m vs)) in *.
  fold (pivot_groups rows) in H.
  set (groups := pivot_groups rows) in *.
  set (idx := sort_keys (unique cell_eqb (map (fun kv => fst (fst kv)) groups))) in *.
  set (cols := sort_keys (unique cell_eqb (map (fun kv => snd (fst kv)) groups))) in *.
  set (table := filter _ (map _ cols)) in H.
  unfold reset_index, labels, nrows in H. cbn [index_name index columns] in H.
  match type of H with
  | context [if ?b then _ else _] => destruct b eqn:Hdup
  end; cbn [rbind] in H; [discriminate|].
  rewrite rename_identity in H.
  destruct (select_columns_ok _ _ _ H) as (Hidx & Hlab & Hlook & Hwfo).
  cbn [index] in Hidx.
  assert (Hyear : lookup_column (Str "Year") (columns out) = Some idx).
  { rewrite Hlook. rewrite lookup_existing by reflexivity. reflexivity. }
  assert (Hmetric : forall s, In (Str s) metric_labels ->
            lookup_column (Str s) (columns out) = lookup_column (Str s) table).
  { intros s Hs. rewrite Hlook.
    assert (Hns : cell_eqb (Str s) (Str "Year") = false).
    { simpl in Hs. destruct Hs as [E|[E|[E|[]]]]; inversion E; reflexivity. }
    rewrite lookup_existing.
    - cbn [columns lookup_column]. rewrite Hns. reflexivity.
    - simpl in Hs. destruct Hs as [E|[E|[E|[]]]]; inversion E; reflexivity. }
  exists idx. split; [exact Hidx|]. split; [apply getitem_lookup; exact Hyear|].
  split; [|split; [|split]].
  - apply Hwfo. unfold well_formed, nrows. cbn [columns index].
    unfold range_index. rewrite length_map, length_seq.
    constructor; [reflexivity|]. apply pivot_table_well_formed.
  - apply sorted_unique_distinct.
  - intros s k Hs Hk. unfold cell_at. rewrite (Hmetric s Hs).
    unfold table, cols, idx, groups. rewrite pivot_cell by exact Hk.
    f_equal. apply (group_values_matching df country area ys es vs); assumption.
  - intros y s Hv.
    rewrite <- (group_values_matching df country area ys es vs Hwf Ha Hys Hes Hvs) in Hv.
    destruct (pivot_groups_has _ _ Hv) as (kv & Hin & Hk).
    destruct (pivot_index_covers _ kv Hin) as (y0 & Hy0 & Hy0y).
    exists y0. split; [exact Hy0|].
    apply key_eqb_true in Hk. destruct Hk as [Hk _]. cbn [fst] in Hk.
    rewrite cell_eqb_sym in Hk. eapply cell_eqb_trans; eassumption.
Qed.

Lemma select_columns_total (d : DataFrame) (want : list cell) :
  (forall c, In c want -> contains c (labels d) = true) ->
  exists out, select_columns d want = Ok out.
Proof.
  intros H. unfold select_columns.
  assert (Hm : missing_labels want (labels d) = []).
  { unfold missing_labels. apply filter_none. intros c Hc. rewrite (H c Hc). reflexivity. }
  rewrite Hm.
  assert (Hr : exists cols, rmap (fun c => rbind (getitem d c) (fun s => Ok (c, s))) want
                            = Ok cols).
  { clear Hm. induction want as [|c want IH]; simpl; [eauto|].
    destruct (contains_getitem d c) as [s Hs]; [apply H; left; reflexivity|].
    rewrite Hs. simpl. destruct IH as [cols Hcols]; [intros x Hx; apply H; right; exact Hx|].
    rewrite Hcols. simpl. eauto. }
  destruct Hr as [cols ->]. simpl. eauto.
Qed.

Lemma pivot_groups_from_rows (rows : list (key * cell)) (kv : key * cell) :
  In kv (pivot_groups rows) -> exists r, In r rows /\ fst r = fst kv.
Proof.
  intros H. unfold pivot_groups in H. apply filter_In in H. destruct H as [H _].
  apply groupby_first_in in H. destruct H as [H _].
  apply unique_in in H. apply in_map_iff in H. destruct H as (r & Hr & Hin).
  apply filter_In in Hin. exists r. tauto.
Qed.

(** The reshape returns a table for every raw table that has the four
    columns and no record of the entity whose Element is "Year". *)
Lemma process_frame_returns (df : DataFrame) (country : string) :
  well_formed df ->
  (forall c, In c [Str "Area"; Str "Year"; Str "Element"; Str "Value"] ->
     contains c (labels df) = true) ->
  (forall i, i < nrows df ->
     cell_eqb (cell_at df (Str "Area") i) (Str country) = true ->
     cell_at df (Str "Element") i <> Str "Year") ->
  exists out, process_frame df country = Ok out.
Proof.
  intros Hwf Hcols Hel. unfold process_frame.
  destruct (contains_getitem df (Str "Area")) as [area Ha]; [apply Hcols; simpl; auto|].
  rewrite Ha. cbn [rbind]. apply getitem_lookup in Ha.
  set (m := map (fun a => cell_eqb a (Str country)) area).
  destruct (select_columns_total (filter_rows m df) [Str "Year"; Str "Element"; Str "Value"])
    as [d2 Hd2].
  { intros c Hc. rewrite labels_filter_rows. apply Hcols. simpl in *. tauto. }
  rewrite Hd2. cbn [rbind].
  destruct (select_columns_ok _ _ _ Hd2) as (_ & _ & Hlook2 & _).
  assert (Hcol : forall c, In c [Str "Year"; Str "Element"; Str "Value"] ->
            exists s, lookup_column c (columns df) = Some s /\
                      lookup_column c (columns d2) = Some (select_mask m s)).
  { intros c Hc.
    destruct (contains_getitem df c) as [s Hs]; [apply Hcols; simpl in *; tauto|].
    apply getitem_lookup in Hs. exists s. split; [exact Hs|].
    rewrite Hlook2.
    replace (contains c _) with true
      by (simpl in Hc; destruct Hc as [<-|[<-|[<-|[]]]]; reflexivity).
    rewrite filter_rows_lookup, Hs. reflexivity. }
  destruct (Hcol (Str "Year")) as (ys & Hys & Hys2); [simpl; auto|].
  destruct (Hcol (Str "Element")) as (es & Hes & Hes2); [simpl; auto|].
  destruct (Hcol (Str "Value")) as (vs & Hvs & Hvs2); [simpl; auto|].
  unfold pivot_table, getitem. rewrite Hys2, Hes2, Hvs2. cbn [rbind].
  set (rows := combine (combine (select_mask m ys) (select_mask m es)) (select_mask m vs)).
  fold (pivot_groups rows).
  set (groups := pivot_groups rows).
  set (idx := sort_keys (unique cell_eqb (map (fun kv => fst (fst kv)) groups))).
  set (cols := sort_keys (unique cell_eqb (map (fun kv => snd (fst kv)) groups))).
  set (table := filter _ (map _ cols)).
  unfold reset_index, labels, nrows. cbn [index_name index columns].
  match goal with
  | |- context [if ?b then _ else _] => assert (Hno : b = false)
  end.
  { match goal with |- ?b = false => destruct b eqn:E end; [exfalso|reflexivity].
    unfold contains in E. apply existsb_exists in E. destruct E as (e & He & Heq).
    apply cell_eqb_str_l in Heq. subst e.
    apply in_map_iff in He. destruct He as (cs & Hfst & Hcs).
    unfold table in Hcs. apply filter_In in Hcs. destruct Hcs as [Hcs _].
    apply in_map_iff in Hcs. destruct Hcs as (e & <- & He). simpl in Hfst. subst e.
    unfold cols in He. apply (Permutation_in _ (sort_keys_perm _)) in He.
    apply unique_in in He. apply in_map_iff in He. destruct He as (kv & Hkv & Hin).
    destruct (pivot_groups_from_rows rows kv Hin) as (r & Hr & Hfr).
    unfold rows, m in Hr.
    rewrite (reshape_rows df country area ys es vs Hwf Ha Hys Hes Hvs) in Hr.
    apply in_map_iff in Hr. destruct Hr as (i & <- & Hi).
    apply filter_In in Hi. destruct Hi as [Hi Hm]. apply in_seq in Hi.
    apply (Hel i); [lia | unfold cell_at; rewrite Ha; exact Hm |].
    unfold cell_at. rewrite Hes. destruct kv as [[y e] v]. simpl in Hfr, Hkv.
    inversion Hfr. congruence. }
  rewrite Hno. cbn [rbind]. rewrite rename_identity.
  apply select_columns_total. intros c Hc. apply filter_In in Hc. tauto.
Qed.

(** ** The reshape *)

Lemma process_countries_data_result (w w' : world) (p q : addr) (df : DataFrame)
    (country : string) :
  nth_error (heap w) p = Some df ->
  process_countries_data p country w = (Ok q, w') ->
  exists out, process_frame df country = Ok out /\ nth_error (heap w') q = Some out.
Proof.
  intros Hp Hrun.
  destruct (process_countries_data_run w p df country Hp) as (h' & Hrun' & _ & Hout).
  rewrite Hrun in Hrun'.
  destruct (process_frame df country) as [out|e]; [|inversion Hrun'].
  exists out. split; [reflexivity|]. inversion Hrun'; subst. simpl. apply Hout. reflexivity.
Qed.

Lemma metric_label_text (e : cell) : In e metric_labels -> exists s, e = Str s.
Proof. simpl. intros [<-|[<-|[<-|[]]]]; eauto. Qed.

Lemma distinct_positions (l : list cell) (i j : nat) :
  ForallOrdPairs (fun a b => cell_eqb a b = false) l ->
  i < List.length l -> j < List.length l ->
  cell_eqb (nth i l NaN) (nth j l NaN) = true -> i = j.
Proof.
  intros Hd Hi Hj He.
  destruct (Nat.lt_trichotomy i j) as [Hlt|[Heq|Hgt]]; [|exact Heq|].
  - rewrite (distinct_nth cell_eqb l NaN Hd i j Hlt Hj) in He. discriminate.
  - rewrite cell_eqb_sym in He.
    rewrite (distinct_nth cell_eqb l NaN Hd j i Hgt Hi) in He. discriminate.
Qed.


(** The reshape returns a table for every raw table that has the four
    columns and no record of the entity whose Element is "Year" (such a
    record makes [reset_index] collide with the pivoted column). *)
Theorem process_countries_data_returns
    (w : world) (p : addr) (df : DataFrame) (country : string) :
  nth_error (heap w) p = Some df ->
  well_formed df ->
  (forall c, In c [Str "Area"; Str "Year"; Str "Element"; Str "Value"] ->
     contains c (labels df) = true) ->
  (forall i, i < nrows df ->
     cell_eqb (cell_at df (Str "Area") i) (Str country) = true ->
     cell_at df (Str "Element") i <> Str "Year") ->
  exists (q : addr) (w' : world) (out : DataFrame),
    process_countries_data p country w = (Ok q, w') /\
    nth_error (heap w') q = Some out.
Proof.
  intros Hp Hwf Hcols Hel.
  destruct (process_frame_returns df country Hwf Hcols Hel) as [out Hout].
  destruct (process_countries_data_run w p df country Hp) as (h' & Hrun & _ & Hq).
  rewrite Hout in Hrun. do 3 eexists. split; [exact Hrun|]. simpl. apply Hq. exact Hout.
Qed.

(** The pivot leaves out the records without a Year: every Year of the
    reshaped table is a value. *)
Lemma process_frame_years_valid (df : DataFrame) (country : string) (out : DataFrame) :
  well_formed df ->
  process_frame df country = Ok out ->
  forall k, k < nrows out -> notna (cell_at out (Str "Year") k) = true.
Proof.
  intros Hwf H. unfold process_frame in H.
  destruct (getitem df (Str "Area")) as [area|] eqn:Ha; [|discriminate]. cbn [rbind] in H.
  set (m := map (fun a => cell_eqb a (Str country)) area) in *.
  destruct (select_columns (filter_rows m df) _) as [d2|] eqn:Hsel; [|discriminate].
  cbn [rbind] in H.
  destruct (select_columns_ok _ _ _ Hsel) as (_ & Hlab2 & Hlook2 & _).
  assert (Hcol : forall c, In c [Str "Year"; Str "Element"; Str "Value"] ->
            exists s, lookup_column c (columns d2) = Some s).
  { intros c Hc.
    assert (Hin : contains c (labels d2) = true).
    { rewrite Hlab2. simpl in Hc. destruct Hc as [<-|[<-|[<-|[]]]]; reflexivity. }
    apply contains_lookup in Hin. exact Hin. }
  destruct (Hcol (Str "Year")) as (ys & Hys); [simpl; auto|].
  destruct (Hcol (Str "Element")) as (es & Hes); [simpl; auto|].
  destruct (Hcol (Str "Value")) as (vs & Hvs); [simpl; auto|].
  unfold pivot_table, getitem in H. rewrite Hys, Hes, Hvs in H. cbn [rbind] in H.
  set (rows := combine (combine ys es) vs) in *.
  fold (pivot_groups rows) in H.
  set (groups := pivot_groups rows) in *.
  set (idx := sort_keys (unique cell_eqb (map (fun kv => fst (fst kv)) groups))) in *.
  set (cols := sort_keys (unique cell_eqb (map (fun kv => snd (fst kv)) groups))) in *.
  set (table := filter _ (map _ cols)) in H.
  unfold reset_index, labels, nrows in H. cbn [index_name index columns] in H.
  match type of H with
  | context [if ?b then _ else _] => destruct b eqn:Hdup
  end; cbn [rbind] in H; [discriminate|].
  rewrite rename_identity in H.
  destruct (select_columns_ok _ _ _ H) as (Hidx & _ & Hlook & _).
  cbn [index] in Hidx.
  assert (Hyear : lookup_column (Str "Year") (columns out) = Some idx).
  { rewrite Hlook. rewrite lookup_existing by reflexivity. reflexivity. }
  intros k Hk.
  assert (Hn : nrows out = List.length idx) by (apply nrows_range; exact Hidx).
  assert (Hin : In (nth k idx NaN) idx) by (apply nth_In; lia).
  unfold idx in Hin at 2. apply (Permutation_in _ (sort_keys_perm _)) in Hin.
  apply unique_in in Hin. apply in_map_iff in Hin. destruct Hin as (kv & Hkv & Hg).
  pose proof (key_eqb_valid_r _ _ (pivot_groups_valid rows kv Hg)) as Hvalid.
  apply andb_true_iff in Hvalid. destruct Hvalid as [Hvalid _].
  unfold cell_at. rewrite Hyear, <- Hkv. exact Hvalid.
Qed.

Section Pipeline.

Variable parse_number : string -> option number.
Variable argsort : list cell -> list nat.
Hypothesis argsort_ok : argsort_spec argsort.

(** C10, as amended.  The reshaped table has one row per Year: every row
    has a Year, no two rows have equal Years, and every Year for which the
    entity has a value of a metric has its row.  Hence two rows of the
    cleaned table always come from two rows of the reshaped table with
    different Years ([src] gives the row each comes from): they share a
    Year only when the cleaner reads different Year values as the same
    integer. *)
Theorem reshape_has_one_row_per_year
    (w w' : world) (p q : addr) (df : DataFrame) (country : string) :
  nth_error (heap w) p = Some df ->
  well_formed df ->
  plain_table df = true ->
  process_countries_data p country w = (Ok q, w') ->
  exists out : DataFrame,
    nth_error (heap w') q = Some out /\
    (forall k, k < nrows out -> notna (cell_at out (Str "Year") k) = true) /\
    (forall k1 k2, k1 < nrows out -> k2 < nrows out ->
       cell_eqb (cell_at out (Str "Year") k1) (cell_at out (Str "Year") k2) = true ->
       k1 = k2) /\
    (forall y e, In e metric_labels ->
       first_valid (matching_values df country y e) <> NaN ->
       exists k, k < nrows out /\ cell_eqb (cell_at out (Str "Year") k) y = true) /\
    (forall w'' r, clean_and_sort parse_number argsort q w' = (Ok r, w'') ->
       exists (cleaned : DataFrame) (src : list nat),
         nth_error (heap w'') r = Some cleaned /\
         nrows cleaned = List.length src /\
         NoDup src /\
         (forall k, k < List.length src ->
            nth k src 0 < nrows out /\
            cleaned_row parse_number out cleaned (nth k src 0) k) /\
         (forall k1 k2, k1 < List.length src -> k2 < List.length src -> k1 <> k2 ->
            cell_eqb (cell_at out (Str "Year") (nth k1 src 0))
                     (cell_at out (Str "Year") (nth k2 src 0)) = false)).
Proof.
  intros Hp Hwf _ Hrun.
  destruct (process_countries_data_result w w' p q df country Hp Hrun) as (out & Hout & Hq).
  destruct (process_frame_shape df country out Hwf Hout)
    as (idx & Hidx & Hyear & Hwfo & Hdist & _ & Hrow).
  apply getitem_lookup in Hyear.
  assert (Hn : nrows out = List.length idx) by (apply nrows_range; exact Hidx).
  assert (Hy : forall k, cell_at out (Str "Year") k = nth k idx NaN).
  { intros k. unfold cell_at. rewrite Hyear. reflexivity. }
  exists out. split; [exact Hq|]. split; [|split; [|split]].
  - exact (process_frame_years_valid df country out Hwf Hout).
  - intros k1 k2 H1 H2. rewrite !Hy. apply distinct_positions; [exact Hdist | lia | lia].
  - intros y e He Hv. destruct (metric_label_text e He) as [s ->].
    destruct (Hrow y s Hv) as (y0 & Hin & Hy0).
    destruct (In_nth _ _ NaN Hin) as (k & Hk & Hnth).
    exists k. split; [lia|]. rewrite Hy, Hnth. exact Hy0.
  - intros w'' r Hclean.
    destruct (clean_and_sort_result parse_number argsort w' w'' q r out Hq Hclean)
      as (cleaned & Hcl & Hr).
    destruct (clean_frame_cleaned_rows parse_number argsort argsort_ok out cleaned Hwfo Hcl)
      as (src & Hperm & Hidx' & _ & _ & Hrows).
    exists cleaned, src. split; [exact Hr|]. split; [apply nrows_range; exact Hidx'|].
    assert (Hsrc : forall k, k < List.length src -> nth k src 0 < nrows out).
    { intros k Hk. assert (Hin : In (nth k src 0) src) by (apply nth_In; exact Hk).
      apply (Permutation_in _ Hperm) in Hin. unfold surviving_rows in Hin.
      apply filter_In in Hin. destruct Hin as [Hin _]. apply in_seq in Hin. lia. }
    assert (Hnd : NoDup src).
    { apply (Permutation_NoDup (Permutation_sym Hperm)).
      unfold surviving_rows. apply NoDup_filter. apply seq_NoDup. }
    split; [exact Hnd|]. split.
    + intros k Hk. split; [apply Hsrc; exact Hk | apply Hrows; exact Hk].
    + intros k1 k2 H1 H2 Hne. rewrite !Hy.
      destruct (cell_eqb (nth (nth k1 src 0) idx NaN) (nth (nth k2 src 0) idx NaN)) eqn:E;
        [|reflexivity].
      apply distinct_positions in E;
        [|exact Hdist|rewrite <- Hn; apply Hsrc; exact H1|rewrite <- Hn; apply Hsrc; exact H2].
      exfalso. apply Hne. apply (proj1 (NoDup_nth src 0) Hnd); assumption.
Qed.

End Pipeline.

Lemma well_formed_intro (n : option cell) (idx : list cell) (cols : list (cell * Series)) :
  forallb (fun cs => Nat.eqb (List.length (snd cs)) (List.length idx)) cols = true ->
  well_formed (mkDataFrame n idx cols).
Proof.
  intros H. unfold well_formed, nrows. simpl. apply Forall_forall. intros cs Hcs.
  rewrite forallb_forall in H. apply Nat.eqb_eq. apply H. exact Hcs.
Qed.

Section Scenario.

Variable parse_number : string -> option number.
Variable argsort : list cell -> list nat.
Hypothesis argsort_ok : argsort_spec argsort.

Lemma argsort_singleton (c : cell) : argsort [c] = [0].
Proof.
  destruct (argsort_ok [c]) as [Hperm _]. simpl in Hperm.
  apply Permutation_sym in Hperm. apply Permutation_length_1_inv in Hperm. exact Hperm.
Qed.

(** C8.  The two Ghana records reshape and clean to a table of one row
    with Year 1961, "Area harvested" 100 and Yield 300, and no Production
    column. *)
Theorem ghana_scenario (w : world) (p : addr) :
  parse_number "1961" = Some (Int 1961) ->
  parse_number "300" = Some (Int 300) ->
  parse_number "100" = Some (Int 100) ->
  nth_error (heap w) p = Some ghana_rows ->
  exists (q r : addr) (w1 w2 : world),
    process_countries_data p "Ghana" w = (Ok q, w1) /\
    clean_and_sort parse_number argsort q w1 = (Ok r, w2) /\
    nth_error (heap w2) r =
    Some (mkDataFrame None [Num (Int 0)]
            [(Str "Year", [Num (Int 1961)]);
             (Str "Area harvested", [Num (Int 100)]);
             (Str "Yield", [Num (Int 300)])]).
Proof.
  intros Hyear Hyield Harea Hp.
  destruct (process_countries_data_run w p ghana_rows "Ghana" Hp) as (h1 & Hrun1 & _ & Hout1).
  assert (Hframe : process_frame ghana_rows "Ghana" =
                   Ok (mkDataFrame None [Num (Int 0)]
                         [(Str "Year", [Str "1961"]);
                          (Str "Area harvested", [Str "100"]);
                          (Str "Yield", [Str "300"])])) by (vm_compute; reflexivity).
  rewrite Hframe in Hrun1. specialize (Hout1 _ Hframe).
  set (reshaped := mkDataFrame None [Num (Int 0)] _) in *.
  set (w1 := mkWorld h1 (files w) (dirs w) (stdout w)) in *.
  assert (Hq : nth_error (heap w1) (List.length (heap w) + 5) = Some reshaped) by exact Hout1.
  destruct (clean_and_sort_run parse_number argsort w1 _ reshaped Hq) as (h2 & Hrun2 & _ & Hout2).
  assert (Hclean : clean_frame parse_number argsort reshaped =
                   Ok (mkDataFrame None [Num (Int 0)]
                         [(Str "Year", [Num (Int 1961)]);
                          (Str "Area harvested", [Num (Int 100)]);
                          (Str "Yield", [Num (Int 300)])])).
  { unfold clean_frame, reshaped. cbn. rewrite Hyear. cbn.
    unfold sort_values. cbn. rewrite Harea, Hyield. cbn.
    rewrite argsort_singleton. reflexivity. }
  rewrite Hclean in Hrun2. specialize (Hout2 _ Hclean).
  do 4 eexists. split; [exact Hrun1|]. split; [exact Hrun2|]. exact Hout2.
Qed.

End Scenario.

(** ** The loader *)


Section Loader.

Variable parse_number : string -> option number.




End Loader.

(** ** The combined chart on tables that have the columns *)

Lemma dropna_present (c : cell) (df : DataFrame) :
  contains c (labels df) = true ->
  exists d, dropna [c] df = Ok d /\ labels d = labels df.
Proof.
  intros H. destruct (contains_getitem df c H) as [ys Hys].
  rewrite (dropna_single c df ys Hys). eexists. split; [reflexivity|].
  apply labels_filter_rows.
Qed.

Lemma getitem_column (df : DataFrame) (c : cell) :
  contains c (labels df) = true -> getitem df c = Ok (column df c).
Proof.
  intros H. destruct (contains_getitem df c H) as [s Hs]. rewrite Hs.
  apply getitem_lookup in Hs. unfold column. rewrite Hs. reflexivity.
Qed.

Lemma valid_rows_step (c : cell) (df : DataFrame) (p : addr) (w : world) :
  nth_error (heap w) p = Some df ->
  contains c (labels df) = true ->
  new_from (dropna [c]) p w =
  (Ok (List.length (heap w)),
   mkWorld (heap w ++ [valid_rows c df]) (files w) (dirs w) (stdout w)) /\
  labels (valid_rows c df) = labels df.
Proof.
  intros Hp Hc. destruct (dropna_present c df Hc) as (d & Hd & Hl).
  rewrite (new_from_at _ _ _ df Hp). unfold valid_rows. rewrite Hd. auto.
Qed.


Lemma missing_column_step (c : cell) (df : DataFrame) (p : addr) (w : world) :
  nth_error (heap w) p = Some df ->
  contains c (labels df) = false ->
  new_from (dropna [c]) p w = (Raise (KeyError [c]), w).
Proof.
  intros Hp Hc. rewrite (new_from_at _ _ _ df Hp), (dropna_absent c df Hc). reflexivity.
Qed.

Ltac combined_raises := do 2 eexists; split; reflexivity.

Ltac combined_panel table metric Hp :=
  unfold bind at 1;
  let E := fresh "E" in
  destruct (contains metric (labels table)) eqn:E;
  [ let Hl := fresh "Hl" in
    destruct (valid_rows_step metric table _ _ Hp E) as [-> Hl];
    cbn [heap files dirs stdout];
    unfold bind at 1; rewrite getitem_last;
    let EY := fresh "EY" in
    destruct (contains (Str "Year") (labels table)) eqn:EY;
    [ rewrite getitem_column by (rewrite Hl; exact EY);
      unfold bind at 1; rewrite getitem_last, getitem_column by (rewrite Hl; exact E)
    | rewrite not_contains_getitem by (rewrite Hl; exact EY); combined_raises ]
  | rewrite (missing_column_step metric table _ _ Hp E); combined_raises ].

(** C1.  [plot_combined] has no guard on its columns: when one of the two
    tables has no Yield column or no "Area harvested" column, the call
    raises [KeyError] and writes no file, where the specification has it
    draw an empty panel. *)
Theorem plot_combined_raises_without_column
    (w : world) (ghana_df coast_df : addr) (g c : DataFrame) (output_dir filename : string) :
  nth_error (heap w) ghana_df = Some g ->
  nth_error (heap w) coast_df = Some c ->
  (exists l, In l [Str "Yield"; Str "Area harvested"] /\
             (contains l (labels g) = false \/ contains l (labels c) = false)) ->
  exists (l : cell) (w' : world),
    plot_combined ghana_df coast_df output_dir filename w = (Raise (KeyError [l]), w') /\
    files w' = files w.
Proof.
  intros Hg Hc Hmiss.
  destruct w as [h fs ds so]. simpl in Hg, Hc.
  unfold plot_combined. unfold bind at 1, makedirs at 1. cbn [heap files dirs stdout].
  set (ds' := if existsb (String.eqb output_dir) ds then ds else output_dir :: ds).
  assert (Hg1 : nth_error (heap (mkWorld h fs ds' so)) ghana_df = Some g) by exact Hg.
  combined_panel g (Str "Yield") Hg1.
  assert (Hc2 : nth_error (heap (mkWorld (h ++ [valid_rows (Str "Yield") g]) fs ds' so))
                  coast_df = Some c) by (apply nth_error_app_some; exact Hc).
  combined_panel c (Str "Yield") Hc2.
  assert (Hg3 : nth_error
                  (heap (mkWorld ((h ++ [valid_rows (Str "Yield") g])
                                    ++ [valid_rows (Str "Yield") c]) fs ds' so))
                  ghana_df = Some g) by (do 2 apply nth_error_app_some; exact Hg).
  combined_panel g (Str "Area harvested") Hg3.
  assert (Hc4 : nth_error
                  (heap (mkWorld (((h ++ [valid_rows (Str "Yield") g])
                                     ++ [valid_rows (Str "Yield") c])
                                    ++ [valid_rows (Str "Area harvested") g]) fs ds' so))
                  coast_df = Some c) by (do 3 apply nth_error_app_some; exact Hc).
  combined_panel c (Str "Area harvested") Hc4.
  exfalso. destruct Hmiss as (l & Hin & Hx). simpl in Hin.
  destruct Hin as [<-|[<-|[]]]; destruct Hx; congruence.
Qed.

(** ** What a call may change *)

Lemma extends_refl (paths : list string) (d : string) (w : world) : extends paths d w w.
Proof.
  repeat split.
  - exists []. symmetry. apply app_nil_r.
  - exists []. split; [reflexivity | constructor].
  - apply incl_refl.
  - auto.
  - exists []. symmetry. apply app_nil_r.
Qed.

Lemma extends_trans (paths : list string) (d : string) (w1 w2 w3 : world) :
  extends paths d w1 w2 -> extends paths d w2 w3 -> extends paths d w1 w3.
Proof.
  intros ([t1 H1] & (n1 & F1 & P1) & (I1 & D1) & [l1 S1])
         ([t2 H2] & (n2 & F2 & P2) & (I2 & D2) & [l2 S2]).
  repeat split.
  - exists (t1 ++ t2). rewrite H2, H1. symmetry. apply app_assoc.
  - exists (n2 ++ n1). split.
    + rewrite F2, F1. apply app_assoc.
    + apply Forall_app. auto.
  - eapply incl_tran; eassumption.
  - intros x Hx. destruct (D2 x Hx) as [E|Hx2]; [auto | exact (D1 x Hx2)].
  - exists (l1 ++ l2). rewrite S2, S1. symmetry. apply app_assoc.
Qed.

Lemma extends_weaken (paths paths' : list string) (d : string) (w w' : world) :
  incl paths paths' -> extends paths d w w' -> extends paths' d w w'.
Proof.
  intros Hi (Hh & (n & F & P) & Hd & Hs). repeat split; try assumption; try tauto.
  exists n. split; [exact F|]. eapply Forall_impl; [|exact P].
  intros pf Hpf. apply Hi. exact Hpf.
Qed.

Lemma footprint_weaken {A} (paths paths' : list string) (d : string) (m : M A) :
  incl paths paths' -> footprint paths d m -> footprint paths' d m.
Proof. intros Hi H w. eapply extends_weaken; [exact Hi | apply H]. Qed.

Lemma footprint_bind {A B} (paths : list string) (d : string) (m : M A) (k : A -> M B) :
  footprint paths d m -> (forall a, footprint paths d (k a)) ->
  footprint paths d (bind m k).
Proof.
  intros Hm Hk w. unfold bind. specialize (Hm w).
  destruct (m w) as [[a|e] w1]; simpl in *.
  - eapply extends_trans; [exact Hm | apply Hk].
  - exact Hm.
Qed.

Lemma footprint_pure {A} (paths : list string) (d : string) (m : M A) :
  (forall w, snd (m w) = w) -> footprint paths d m.
Proof. intros H w. rewrite H. apply extends_refl. Qed.

Lemma footprint_ret {A} (paths : list string) (d : string) (a : A) :
  footprint paths d (ret a).
Proof. apply footprint_pure. reflexivity. Qed.

Lemma footprint_lift {A} (paths : list string) (d : string) (r : result A) :
  footprint paths d (lift r).
Proof. apply footprint_pure. reflexivity. Qed.

Lemma footprint_deref (paths : list string) (d : string) (p : addr) :
  footprint paths d (deref p).
Proof.
  apply footprint_pure. intros w. unfold deref. destruct (nth_error (heap w) p); reflexivity.
Qed.

Lemma footprint_alloc (paths : list string) (d : string) (df : DataFrame) :
  footprint paths d (alloc df).
Proof.
  intros w. unfold alloc. simpl. repeat split; simpl.
  - eauto.
  - exists []. split; [reflexivity | constructor].
  - apply incl_refl.
  - auto.
  - exists []. symmetry. apply app_nil_r.
Qed.

Lemma footprint_new_from (paths : list string) (d : string)
    (f : DataFrame -> result DataFrame) (p : addr) :
  footprint paths d (new_from f p).
Proof.
  unfold new_from. apply footprint_bind; [apply footprint_deref|]. intros df.
  apply footprint_bind; [apply footprint_lift|]. intros df'. apply footprint_alloc.
Qed.

Lemma footprint_getitem (paths : list string) (d : string) (p : addr) (c : cell) :
  footprint paths d (DataFrame_getitem p c).
Proof.
  unfold DataFrame_getitem. apply footprint_bind; [apply footprint_deref|].
  intros df. apply footprint_lift.
Qed.

Lemma footprint_columns (paths : list string) (d : string) (p : addr) :
  footprint paths d (DataFrame_columns p).
Proof.
  unfold DataFrame_columns. apply footprint_bind; [apply footprint_deref|].
  intros df. apply footprint_ret.
Qed.

Lemma footprint_empty (paths : list string) (d : string) (p : addr) :
  footprint paths d (DataFrame_empty p).
Proof.
  unfold DataFrame_empty. apply footprint_bind; [apply footprint_deref|].
  intros df. apply footprint_ret.
Qed.

Lemma footprint_print (paths : list string) (d : string) (line : string) :
  footprint paths d (print line).
Proof.
  intros w. unfold print. simpl. repeat split; simpl.
  - exists []. symmetry. apply app_nil_r.
  - exists []. split; [reflexivity | constructor].
  - apply incl_refl.
  - auto.
  - eauto.
Qed.

Lemma footprint_makedirs (paths : list string) (d : string) :
  footprint paths d (makedirs d).
Proof.
  intros w. unfold makedirs. simpl. repeat split; simpl.
  - exists []. symmetry. apply app_nil_r.
  - exists []. split; [reflexivity | constructor].
  - destruct (existsb (String.eqb d) (dirs w)); [apply incl_refl | apply incl_tl, incl_refl].
  - intros x Hx. destruct (existsb (String.eqb d) (dirs w)); [auto|].
    destruct Hx as [<-|Hx]; auto.
  - exists []. symmetry. apply app_nil_r.
Qed.

Lemma footprint_write_file (paths : list string) (d : string) (path : string) (f : file) :
  In path paths -> footprint paths d (write_file path f).
Proof.
  intros Hp w. unfold write_file. simpl. repeat split; simpl.
  - exists []. symmetry. apply app_nil_r.
  - exists [(path, f)]. split; [reflexivity|]. constructor; [exact Hp | constructor].
  - apply incl_refl.
  - auto.
  - exists []. symmetry. apply app_nil_r.
Qed.

Lemma footprint_savefig (paths : list string) (d : string) (fig : figure) (path : string)
    (dpi : Z) :
  In path paths -> footprint paths d (savefig fig path dpi).
Proof. intros Hp. exact (footprint_write_file paths d path (ImageFile fig dpi) Hp). Qed.

Lemma footprint_read_file (paths : list string) (d : string) (path : string) :
  footprint paths d (read_file path).
Proof.
  apply footprint_pure. intros w. unfold read_file. destruct (find _ (files w)); reflexivity.
Qed.

Create HintDb footprint.

#[local] Hint Resolve footprint_ret footprint_lift footprint_deref footprint_alloc
  footprint_new_from footprint_getitem footprint_columns footprint_empty footprint_print
  footprint_makedirs footprint_read_file : footprint.

Ltac footprint_step :=
  match goal with
  | |- footprint _ _ (bind _ _) => apply footprint_bind; [|intros ?]
  | |- footprint _ _ (if ?b then _ else _) => destruct b
  | |- footprint _ _ (savefig _ _ _) => apply footprint_savefig; simpl; auto
  | |- footprint _ _ (write_file _ _) => apply footprint_write_file; simpl; auto
  | |- footprint _ _ _ => solve [auto with footprint]
  end.

Lemma footprint_load_data (parse_number : string -> option number)
    (paths : list string) (d : string) (file_path : string) :
  footprint paths d (load_data parse_number file_path).
Proof.
  unfold load_data, read_csv. footprint_step; [footprint_step|].
  destruct a; repeat footprint_step.
Qed.

Lemma footprint_process_countries_data (paths : list string) (d : string) (df : addr)
    (country : string) :
  footprint paths d (process_countries_data df country).
Proof. unfold process_countries_data. repeat footprint_step. Qed.

Lemma footprint_clean_and_sort (parse_number : string -> option number)
    (argsort : list cell -> list nat) (paths : list string) (d : string) (df : addr) :
  footprint paths d (clean_and_sort parse_number argsort df).
Proof.
  intros w. destruct (nth_error (heap w) df) as [x|] eqn:E.
  - destruct (clean_and_sort_run parse_number argsort w df x E) as (h' & -> & Hl & _).
    simpl. repeat split; simpl.
    + exact Hl.
    + exists []. split; [reflexivity | constructor].
    + apply incl_refl.
    + auto.
    + exists []. symmetry. apply app_nil_r.
  - rewrite clean_and_sort_dangling by exact E. apply extends_refl.
Qed.

Lemma footprint_save_table (format_number : number -> string) (df : addr)
    (output_dir filename : string) :
  footprint [path_join output_dir filename] output_dir
            (save_table format_number df output_dir filename).
Proof. unfold save_table, to_csv. repeat footprint_step. Qed.

Lemma footprint_plot_scatter (df : addr) (country_name output_dir filename color : string)
    (marker_size : Z) :
  footprint [path_join output_dir filename] output_dir
            (plot_scatter df country_name output_dir filename color marker_size).
Proof. unfold plot_scatter. repeat footprint_step. Qed.

Lemma footprint_plot_bar (df : addr) (country_name output_dir filename color : string) :
  footprint [path_join output_dir filename] output_dir
            (plot_bar df country_name output_dir filename color).
Proof. unfold plot_bar. repeat footprint_step. Qed.

Lemma footprint_plot_combined (ghana_df coast_df : addr) (output_dir filename : string) :
  footprint [path_join output_dir filename] output_dir
            (plot_combined ghana_df coast_df output_dir filename).
Proof. unfold plot_combined. repeat footprint_step. Qed.

Lemma extends_table (paths : list string) (d : string) (w w' : world) (a : addr)
    (df : DataFrame) :
  extends paths d w w' -> nth_error (heap w) a = Some df -> nth_error (heap w') a = Some df.
Proof. intros ([t H] & _) Ha. rewrite H. apply nth_error_app_some. exact Ha. Qed.

(** The writer and the three renderers leave every table of the store as it
    was, whether they return or raise. *)
Theorem outputs_leave_tables_unchanged
    (format_number : number -> string) (w : world) (p q : addr)
    (country_name output_dir filename color : string) (marker_size : Z) :
  forall (a : addr) (df : DataFrame),
    nth_error (heap w) a = Some df ->
    nth_error (heap (snd (save_table format_number p output_dir filename w))) a = Some df /\
    nth_error (heap (snd (plot_scatter p country_name output_dir filename color marker_size w))) a
    = Some df /\
    nth_error (heap (snd (plot_bar p country_name output_dir filename color w))) a = Some df /\
    nth_error (heap (snd (plot_combined p q output_dir filename w))) a = Some df.
Proof.
  intros a df Ha. repeat split.
  - exact (extends_table _ _ _ _ _ _ (footprint_save_table _ _ _ _ w) Ha).
  - exact (extends_table _ _ _ _ _ _ (footprint_plot_scatter _ _ _ _ _ _ w) Ha).
  - exact (extends_table _ _ _ _ _ _ (footprint_plot_bar _ _ _ _ _ w) Ha).
  - exact (extends_table _ _ _ _ _ _ (footprint_plot_combined _ _ _ _ w) Ha).
Qed.

Ltac main_footprint_leaf :=
  first
    [ apply footprint_load_data
    | apply footprint_process_countries_data
    | apply footprint_clean_and_sort
    | apply footprint_print
    | eapply footprint_weaken;
      [| first [apply footprint_save_table | apply footprint_plot_scatter
               | apply footprint_plot_bar | apply footprint_plot_combined]];
      intros x [<-|[]]; simpl; tauto ].

Lemma footprint_main (parse_number : string -> option number)
    (argsort : list cell -> list nat) (format_number : number -> string)
    (args_file args_output : string) :
  footprint (map (path_join args_output) output_names) args_output
            (main parse_number argsort format_number args_file args_output).
Proof.
  unfold main.
  repeat match goal with
         | |- footprint _ _ (bind _ _) => apply footprint_bind; [|intros ?]
         end; main_footprint_leaf.
Qed.

(** Whatever the input and however the run ends, [main] changes no table of
    the store, writes files at its seven output paths only, creates no
    directory other than the output directory, and only adds lines to the
    console. *)
Theorem main_writes_only_its_outputs
    (parse_number : string -> option number) (argsort : list cell -> list nat)
    (format_number : number -> string) (args_file args_output : string) (w : world) :
  let w' := snd (main parse_number argsort format_number args_file args_output w) in
  (exists tables, heap w' = heap w ++ tables) /\
  (exists new, files w' = new ++ files w /\
     Forall (fun pf : string * file =>
               In (fst pf) (map (path_join args_output) output_names)) new) /\
  (incl (dirs w) (dirs w') /\
   forall x, In x (dirs w') -> x = args_output \/ In x (dirs w)) /\
  (exists lines, stdout w' = stdout w ++ lines).
Proof. exact (footprint_main parse_number argsort format_number args_file args_output w). Qed.

(** ** Which columns the reshape produces *)

Lemma first_valid_notna (vs : list cell) :
  first_valid vs <> NaN <-> exists v, In v vs /\ notna v = true.
Proof.
  induction vs as [|v r IH]; simpl.
  - split; [intros H; exfalso; apply H; reflexivity | intros (v & [] & _)].
  - destruct (notna v) eqn:E.
    + split.
      * intros _. exists v. auto.
      * intros _ H. rewrite H in E. discriminate.
    + rewrite IH. split.
      * intros (x & Hx & Hn). exists x. auto.
      * intros (x & [<-|Hx] & Hn); [congruence|]. exists x. auto.
Qed.

Lemma cell_eqb_notna_l (a b : cell) : cell_eqb a b = true -> notna a = true.
Proof. destruct a; simpl; intros H; try reflexivity; discriminate. Qed.

Lemma notna_eqb_refl (a : cell) : notna a = true -> cell_eqb a a = true.
Proof. intros H. apply cell_eqb_refl. intros ->. discriminate. Qed.

Lemma recorded_matching (df : DataFrame) (country : string) (e : cell) :
  recorded df country e = true <->
  exists y, first_valid (matching_values df country y e) <> NaN.
Proof.
  unfold recorded. rewrite existsb_exists. split.
  - intros (i & Hi & Hc).
    apply andb_true_iff in Hc. destruct Hc as [Ha Hc].
    apply andb_true_iff in Hc. destruct Hc as [Hy Hc].
    apply andb_true_iff in Hc. destruct Hc as [He Hv].
    exists (cell_at df (Str "Year") i). apply first_valid_notna.
    exists (cell_at df (Str "Value") i). split; [|exact Hv].
    unfold matching_values. apply in_map_iff. exists i. split; [reflexivity|].
    apply filter_In. split; [exact Hi|].
    rewrite Ha, He, (notna_eqb_refl _ Hy). reflexivity.
  - intros (y & Hv). apply first_valid_notna in Hv. destruct Hv as (v & Hin & Hv).
    unfold matching_values in Hin. apply in_map_iff in Hin. destruct Hin as (i & <- & Hi).
    apply filter_In in Hi. destruct Hi as [Hi Hc].
    apply andb_true_iff in Hc. destruct Hc as [Ha Hc].
    apply andb_true_iff in Hc. destruct Hc as [Hy He].
    exists i. split; [exact Hi|].
    rewrite Ha, He, Hv, (cell_eqb_notna_l _ _ Hy). reflexivity.
Qed.

Section PivotColumns.

Variable rows : list (key * cell).

Let groups := pivot_groups rows.
Let idx := sort_keys (unique cell_eqb (map (fun kv => fst (fst kv)) groups)).
Let cols := sort_keys (unique cell_eqb (map (fun kv => snd (fst kv)) groups)).
Let table := filter (fun cs : cell * Series => existsb notna (snd cs))
                    (map (fun e => (e, map (fun y => agged_lookup groups (y, e)) idx)) cols).

(** The pivot has a column for an element exactly when some group of that
    element has a value. *)
Lemma pivot_has_column (s : string) :
  contains (Str s) (map fst table) = true <->
  exists y, first_valid (group_values rows (y, Str s)) <> NaN.
Proof.
  split.
  - intros H. unfold contains in H. apply existsb_exists in H.
    destruct H as (l & Hl & Heq). apply cell_eqb_str_l in Heq. subst l.
    apply in_map_iff in Hl. destruct Hl as (cs & Hfst & Hcs).
    unfold table in Hcs. apply filter_In in Hcs. destruct Hcs as [Hcs Hany].
    apply in_map_iff in Hcs. destruct Hcs as (e & <- & He). simpl in Hfst. subst e.
    simpl in Hany. apply existsb_exists in Hany. destruct Hany as (v & Hv & Hn).
    apply in_map_iff in Hv. destruct Hv as (y & <- & Hy).
    exists y. fold groups in Hn. unfold groups in Hn. rewrite agged_lookup_spec in Hn.
    intros E. rewrite E in Hn. discriminate.
  - intros (y & Hv).
    destruct (pivot_groups_has rows _ Hv) as (kv & Hin & Hk).
    destruct (pivot_columns_cover rows kv Hin) as (e & He & Hee).
    destruct (pivot_index_covers rows kv Hin) as (y0 & Hy0 & Hyy).
    apply key_eqb_true in Hk. destruct Hk as [Hky Hks]. cbn [fst snd] in Hky, Hks.
    assert (e = Str s).
    { apply cell_eqb_str_l. rewrite cell_eqb_sym in Hee. eapply cell_eqb_trans; eassumption. }
    subst e.
    assert (Hy0y : cell_eqb y0 y = true).
    { rewrite cell_eqb_sym in Hky. eapply cell_eqb_trans; eassumption. }
    unfold contains. apply existsb_exists. exists (Str s).
    split; [|apply cell_eqb_str; reflexivity].
    apply in_map_iff.
    exists (Str s, map (fun y => agged_lookup groups (y, Str s)) idx). split; [reflexivity|].
    unfold table. apply filter_In. split.
    + apply (in_map (fun e => (e, map (fun y => agged_lookup groups (y, e)) idx))). exact He.
    + cbn [snd]. apply existsb_exists. exists (agged_lookup groups (y0, Str s)). split.
      * apply (in_map (fun y => agged_lookup groups (y, Str s))). exact Hy0.
      * unfold groups. rewrite agged_lookup_spec.
        rewrite (group_values_compat rows (y0, Str s) (y, Str s)).
        -- destruct (first_valid (group_values rows (y, Str s))); try reflexivity. congruence.
        -- apply key_eqb_true. split; [exact Hy0y | apply cell_eqb_str; reflexivity].
Qed.

End PivotColumns.

Lemma bool_iff (a b : bool) : (a = true <-> b = true) -> a = b.
Proof. destruct a, b; intros [H1 H2]; try reflexivity; [symmetry; auto | auto]. Qed.

Lemma missing_labels_none (want have : list cell) :
  missing_labels want have = [] <-> forall c, In c want -> contains c have = true.
Proof.
  unfold missing_labels. induction want as [|x want IH]; simpl.
  - split; [intros _ c [] | reflexivity].
  - destruct (contains x have) eqn:E; simpl.
    + rewrite IH. split.
      * intros H c [<-|Hc]; auto.
      * intros H c Hc. apply H. right. exact Hc.
    + split; [discriminate|]. intros H. specialize (H x (or_introl eq_refl)). congruence.
Qed.

(** The reshape on a table that has the four columns: it fails exactly when
    a counted record of the entity has Element "Year", and otherwise returns
    the Year column followed by the metrics that have a counted record, in
    the order "Area harvested", Yield, Production. *)
Lemma process_frame_outcome (df : DataFrame) (country : string) :
  well_formed df ->
  (forall c, In c [Str "Area"; Str "Year"; Str "Element"; Str "Value"] ->
     contains c (labels df) = true) ->
  if recorded df country (Str "Year")
  then process_frame df country = Raise (ValueError "cannot insert, already exists")
  else exists out, process_frame df country = Ok out /\
                   labels out = Str "Year" :: filter (recorded df country) metric_labels.
Proof.
  intros Hwf Hcols. unfold process_frame.
  destruct (contains_getitem df (Str "Area")) as [area Ha]; [apply Hcols; simpl; auto|].
  rewrite Ha. cbn [rbind]. apply getitem_lookup in Ha.
  set (m := map (fun a => cell_eqb a (Str country)) area).
  destruct (select_columns_total (filter_rows m df) [Str "Year"; Str "Element"; Str "Value"])
    as [d2 Hd2].
  { intros c Hc. rewrite labels_filter_rows. apply Hcols. simpl in *. tauto. }
  rewrite Hd2. cbn [rbind].
  destruct (select_columns_ok _ _ _ Hd2) as (_ & _ & Hlook2 & _).
  assert (Hcol : forall c, In c [Str "Year"; Str "Element"; Str "Value"] ->
            exists s, lookup_column c (columns df) = Some s /\
                      lookup_column c (columns d2) = Some (select_mask m s)).
  { intros c Hc.
    destruct (contains_getitem df c) as [s Hs]; [apply Hcols; simpl in *; tauto|].
    apply getitem_lookup in Hs. exists s. split; [exact Hs|].
    rewrite Hlook2.
    replace (contains c _) with true
      by (simpl in Hc; destruct Hc as [<-|[<-|[<-|[]]]]; reflexivity).
    rewrite filter_rows_lookup, Hs. reflexivity. }
  destruct (Hcol (Str "Year")) as (ys & Hys & Hys2); [simpl; auto|].
  destruct (Hcol (Str "Element")) as (es & Hes & Hes2); [simpl; auto|].
  destruct (Hcol (Str "Value")) as (vs & Hvs & Hvs2); [simpl; auto|].
  unfold pivot_table, getitem. rewrite Hys2, Hes2, Hvs2. cbn [rbind].
  set (rows := combine (combine (select_mask m ys) (select_mask m es)) (select_mask m vs)).
  fold (pivot_groups rows).
  set (groups := pivot_groups rows).
  set (idx := sort_keys (unique cell_eqb (map (fun kv => fst (fst kv)) groups))).
  set (cols := sort_keys (unique cell_eqb (map (fun kv => snd (fst kv)) groups))).
  set (table := filter _ (map _ cols)).
  assert (Hhas : forall s, contains (Str s) (map fst table) = recorded df country (Str s)).
  { intros s. apply bool_iff. unfold table, cols, idx, groups.
    rewrite (pivot_has_column rows s), recorded_matching.
    split; intros (y & Hy); exists y.
    - rewrite <- (group_values_matching df country area ys es vs Hwf Ha Hys Hes Hvs). exact Hy.
    - unfold rows, m.
      rewrite (group_values_matching df country area ys es vs Hwf Ha Hys Hes Hvs). exact Hy. }
  unfold reset_index, labels, nrows. cbn [index_name index columns].
  destruct (recorded df country (Str "Year")) eqn:Hrec.
  { match goal with
    | |- context [if ?b then _ else _] =>
        assert (Hb : b = true) by (etransitivity; [apply (Hhas "Year") | exact Hrec])
    end.
    rewrite Hb. reflexivity. }
  match goal with
  | |- context [if ?b then _ else _] =>
      assert (Hb : b = false) by (etransitivity; [apply (Hhas "Year") | exact Hrec])
  end.
  rewrite Hb. cbn [rbind]. rewrite rename_identity.
  match goal with
  | |- exists out, select_columns ?d ?want = Ok out /\ _ =>
      destruct (select_columns_total d want) as [out Hout]
  end.
  { intros c Hc. apply filter_In in Hc. tauto. }
  exists out. split; [exact Hout|].
  destruct (select_columns_ok _ _ _ Hout) as (_ & Hl & _).
  unfold labels in Hl. rewrite Hl. cbn [columns map fst filter contains existsb cell_eqb String.eqb Ascii.eqb
                      Bool.eqb orb metric_labels].
  fold (contains (Str "Area harvested") (map fst table)).
  fold (contains (Str "Yield") (map fst table)).
  fold (contains (Str "Production") (map fst table)).
  repeat match goal with
         | |- context [existsb (cell_eqb (Str ?s)) ?l] =>
             replace (existsb (cell_eqb (Str s)) l) with (recorded df country (Str s))
               by (symmetry; apply (Hhas s))
         end.
  reflexivity.
Qed.

Lemma process_frame_missing_column (df : DataFrame) (country : string) :
  missing_labels [Str "Area"; Str "Year"; Str "Element"; Str "Value"] (labels df) <> [] ->
  process_frame df country =
  Raise (KeyError (if contains (Str "Area") (labels df)
                   then missing_labels [Str "Year"; Str "Element"; Str "Value"] (labels df)
                   else [Str "Area"])).
Proof.
  intros Hmiss. unfold process_frame.
  destruct (contains (Str "Area") (labels df)) eqn:Ea.
  - destruct (contains_getitem df _ Ea) as [area ->]. cbn [rbind].
    unfold select_columns. rewrite labels_filter_rows.
    destruct (missing_labels [Str "Year"; Str "Element"; Str "Value"] (labels df)) eqn:E.
    + exfalso. apply Hmiss. unfold missing_labels in *. simpl in *. rewrite Ea. exact E.
    + reflexivity.
  - rewrite (not_contains_getitem _ _ Ea). reflexivity.
Qed.

(** The reshape raises in two cases only.  When the table lacks one of the
    columns Area, Year, Element, Value it raises [KeyError]: on Area alone
    when Area is absent, else on the absent ones among Year, Element, Value.
    When the table has the four columns and a counted record of the entity
    has Element "Year", [reset_index] cannot insert the Year column and
    raises [ValueError].  In every other case it returns. *)
Theorem process_countries_data_outcome
    (w : world) (p : addr) (df : DataFrame) (country : string) :
  nth_error (heap w) p = Some df ->
  well_formed df ->
  match fst (process_countries_data p country w) with
  | Ok _ =>
      missing_labels [Str "Area"; Str "Year"; Str "Element"; Str "Value"] (labels df) = [] /\
      recorded df country (Str "Year") = false
  | Raise e =>
      (missing_labels [Str "Area"; Str "Year"; Str "Element"; Str "Value"] (labels df) <> [] /\
       e = KeyError (if contains (Str "Area") (labels df)
                     then missing_labels [Str "Year"; Str "Element"; Str "Value"] (labels df)
                     else [Str "Area"])) \/
      (missing_labels [Str "Area"; Str "Year"; Str "Element"; Str "Value"] (labels df) = [] /\
       recorded df country (Str "Year") = true /\
       e = ValueError "cannot insert, already exists")
  end.
Proof.
  intros Hp Hwf.
  destruct (process_countries_data_run w p df country Hp) as (h' & -> & _). cbn [fst].
  destruct (missing_labels [Str "Area"; Str "Year"; Str "Element"; Str "Value"] (labels df))
    as [|c miss] eqn:Em.
  - pose proof (proj1 (missing_labels_none _ _) Em) as Hcols.
    pose proof (process_frame_outcome df country Hwf Hcols) as Hout.
    destruct (recorded df country (Str "Year")).
    + rewrite Hout. right. auto.
    + destruct Hout as (out & -> & _). auto.
  - rewrite process_frame_missing_column by (rewrite Em; discriminate).
    left. split; [discriminate | reflexivity].
Qed.

(** The columns of the reshaped table: Year, then the metrics among "Area
    harvested", Yield, Production, in that order, for which the entity has a
    counted record.  Records of any other element are left out. *)
Theorem reshape_columns
    (w w' : world) (p q : addr) (df : DataFrame) (country : string) :
  nth_error (heap w) p = Some df ->
  well_formed df ->
  process_countries_data p country w = (Ok q, w') ->
  exists out : DataFrame,
    nth_error (heap w') q = Some out /\
    labels out = Str "Year" :: filter (recorded df country) metric_labels.
Proof.
  intros Hp Hwf Hrun.
  destruct (process_countries_data_result w w' p q df country Hp Hrun) as (out & Hout & Hq).
  exists out. split; [exact Hq|].
  destruct (missing_labels [Str "Area"; Str "Year"; Str "Element"; Str "Value"] (labels df))
    as [|c miss] eqn:Em.
  - pose proof (proj1 (missing_labels_none _ _) Em) as Hcols.
    pose proof (process_frame_outcome df country Hwf Hcols) as H.
    destruct (recorded df country (Str "Year")); [congruence|].
    destruct H as (out' & Hout' & Hl). congruence.
  - rewrite process_frame_missing_column in Hout by (rewrite Em; discriminate). discriminate.
Qed.

(** ** The outcomes of the cleaner *)

Section CleanerOutcome.

Variable parse_number : string -> option number.
Variable argsort : list cell -> list nat.
Hypothesis argsort_ok : argsort_spec argsort.

Lemma clean_frame_missing_year (df : DataFrame) :
  contains (Str "Year") (labels df) = false ->
  clean_frame parse_number argsort df = Raise (KeyError [Str "Year"]).
Proof.
  intros H. unfold clean_frame. rewrite (not_contains_getitem _ _ H). reflexivity.
Qed.

(** The cleaner raises in two cases only: [KeyError] when the table has no
    Year column, and the cast error when some Year reads as an infinite
    number.  In every other case it returns. *)
Theorem clean_and_sort_outcome (w : world) (p : addr) (df : DataFrame) :
  nth_error (heap w) p = Some df ->
  well_formed df ->
  match fst (clean_and_sort parse_number argsort p w) with
  | Ok _ =>
      contains (Str "Year") (labels df) = true /\
      forall i, i < nrows df ->
        infinite (to_numeric_cell parse_number (cell_at df (Str "Year") i)) = false
  | Raise e =>
      (contains (Str "Year") (labels df) = false /\ e = KeyError [Str "Year"]) \/
      (contains (Str "Year") (labels df) = true /\
       (exists i, i < nrows df /\
          infinite (to_numeric_cell parse_number (cell_at df (Str "Year") i)) = true) /\
       e = IntCastingNaNError)
  end.
Proof.
  intros Hp Hwf.
  destruct (clean_and_sort_run parse_number argsort w p df Hp) as (h' & -> & _). cbn [fst].
  destruct (contains (Str "Year") (labels df)) eqn:Ey.
  - destruct (existsb (fun i => infinite (to_numeric_cell parse_number
                                            (cell_at df (Str "Year") i)))
                      (seq 0 (nrows df))) eqn:Ei.
    + apply existsb_exists in Ei. destruct Ei as (i & Hi & Hinf).
      apply in_seq in Hi.
      destruct (to_numeric_cell parse_number (cell_at df (Str "Year") i))
        as [|[z|q|b]|s] eqn:E; try discriminate.
      rewrite (clean_frame_raises parse_number argsort df i b Hwf) by (lia || exact E).
      right. split; [reflexivity|]. split; [|reflexivity].
      exists i. split; [lia|]. rewrite E. reflexivity.
    + assert (Hfin : forall i, i < nrows df ->
                infinite (to_numeric_cell parse_number (cell_at df (Str "Year") i)) = false).
      { intros i Hi.
        destruct (infinite _) eqn:E; [|reflexivity].
        assert (Hex : existsb (fun i => infinite (to_numeric_cell parse_number
                                                    (cell_at df (Str "Year") i)))
                              (seq 0 (nrows df)) = true).
        { apply existsb_exists. exists i. split; [apply in_seq; lia | exact E]. }
        congruence. }
      destruct (clean_frame_returns parse_number argsort argsort_ok df Hwf Ey) as [out ->].
      * intros i b Hi E. specialize (Hfin i Hi). rewrite E in Hfin. discriminate.
      * auto.
  - rewrite clean_frame_missing_year by exact Ey. left. auto.
Qed.

End CleanerOutcome.

(** ** The single-entity charts on a table that has values *)





Lemma column_some (df : DataFrame) (c : cell) (s : Series) :
  lookup_column c (columns df) = Some s -> column df c = s.
Proof. intros H. unfold column. rewrite H. reflexivity. Qed.








(** ** The outcomes of the single-entity charts *)




(** ** Writing a table and loading it back *)

Section RoundTrip.

Variable parse_number : string -> option number.
Variable format_number : number -> string.






End RoundTrip.

(** ** Where the rows of the reshaped table come from *)

Lemma process_frame_years (df : DataFrame) (country : string) (out : DataFrame) :
  well_formed df ->
  process_frame df country = Ok out ->
  forall k, k < nrows out ->
    exists i, i < nrows df /\
      cell_eqb (cell_at df (Str "Area") i) (Str country) = true /\
      cell_at out (Str "Year") k = cell_at df (Str "Year") i.
Proof.
  intros Hwf H. unfold process_frame in H.
  destruct (getitem df (Str "Area")) as [area|] eqn:Ha; [|discriminate]. cbn [rbind] in H.
  set (m := map (fun a => cell_eqb a (Str country)) area) in *.
  destruct (select_columns (filter_rows m df) _) as [d2|] eqn:Hsel; [|discriminate].
  cbn [rbind] in H.
  destruct (select_columns_ok _ _ _ Hsel) as (_ & Hlab2 & Hlook2 & _).
  assert (Hcol : forall c, In c [Str "Year"; Str "Element"; Str "Value"] ->
            exists s, lookup_column c (columns df) = Some s /\
                      lookup_column c (columns d2) = Some (select_mask m s)).
  { intros c Hc.
    assert (Hin : contains c (labels d2) = true).
    { rewrite Hlab2. simpl in Hc. destruct Hc as [<-|[<-|[<-|[]]]]; reflexivity. }
    apply contains_lookup in Hin. destruct Hin as [s2 Hs2].
    pose proof (Hlook2 c) as Hl. rewrite Hs2 in Hl.
    destruct (contains c _); [|discriminate].
    unfold filter_rows in Hl. cbn [columns] in Hl. rewrite lookup_map_values in Hl.
    destruct (lookup_column c (columns df)) as [s|]; [|discriminate].
    cbn [option_map] in Hl. exists s. split; [reflexivity|]. rewrite Hs2. exact Hl. }
  destruct (Hcol (Str "Year")) as (ys & Hys & Hys2); [simpl; auto|].
  destruct (Hcol (Str "Element")) as (es & Hes & Hes2); [simpl; auto|].
  destruct (Hcol (Str "Value")) as (vs & Hvs & Hvs2); [simpl; auto|].
  apply getitem_lookup in Ha.
  unfold pivot_table, getitem in H. rewrite Hys2, Hes2, Hvs2 in H. cbn [rbind] in H.
  set (rows := combine (combine (select_mask m ys) (select_mask m es)) (select_mask m vs)) in *.
  fold (pivot_groups rows) in H.
  set (groups := pivot_groups rows) in *.
  set (idx := sort_keys (unique cell_eqb (map (fun kv => fst (fst kv)) groups))) in *.
  set (cols := sort_keys (unique cell_eqb (map (fun kv => snd (fst kv)) groups))) in *.
  set (table := filter _ (map _ cols)) in H.
  unfold reset_index, labels, nrows in H. cbn [index_name index columns] in H.
  match type of H with
  | context [if ?b then _ else _] => destruct b eqn:Hdup
  end; cbn [rbind] in H; [discriminate|].
  rewrite rename_identity in H.
  destruct (select_columns_ok _ _ _ H) as (Hidx & _ & Hlook & _).
  cbn [index] in Hidx.
  assert (Hyear : lookup_column (Str "Year") (columns out) = Some idx).
  { rewrite Hlook. rewrite lookup_existing by reflexivity. reflexivity. }
  intros k Hk.
  assert (Hn : nrows out = List.length idx) by (apply nrows_range; exact Hidx).
  assert (Hin : In (nth k idx NaN) idx) by (apply nth_In; lia).
  unfold idx in Hin at 2. apply (Permutation_in _ (sort_keys_perm _)) in Hin.
  apply unique_in in Hin. apply in_map_iff in Hin. destruct Hin as (kv & Hkv & Hg).
  destruct (pivot_groups_from_rows rows kv Hg) as (r & Hr & Hfr).
  unfold rows, m in Hr.
  rewrite (reshape_rows df country area ys es vs Hwf Ha Hys Hes Hvs) in Hr.
  apply in_map_iff in Hr. destruct Hr as (i & Hri & Hi).
  apply filter_In in Hi. destruct Hi as [Hi Hm]. apply in_seq in Hi.
  exists i. split; [lia|]. split.
  - unfold cell_at. rewrite Ha. exact Hm.
  - unfold cell_at. rewrite Hyear, Hys. subst r. destruct kv as [[y e] v].
    cbn [fst] in Hfr, Hkv. inversion Hfr. congruence.
Qed.

(** Every row of the reshaped table carries the Year of a record of the
    entity: the reshape invents no Year. *)
Theorem reshape_years_come_from_records
    (w w' : world) (p q : addr) (df : DataFrame) (country : string) :
  nth_error (heap w) p = Some df ->
  well_formed df ->
  process_countries_data p country w = (Ok q, w') ->
  exists out : DataFrame,
    nth_error (heap w') q = Some out /\
    forall k, k < nrows out ->
      exists i, i < nrows df /\
        cell_eqb (cell_at df (Str "Area") i) (Str country) = true /\
        cell_at out (Str "Year") k = cell_at df (Str "Year") i.
Proof.
  intros Hp Hwf Hrun.
  destruct (process_countries_data_result w w' p q df country Hp Hrun) as (out & Hout & Hq).
  exists out. split; [exact Hq|]. exact (process_frame_years df country out Hwf Hout).
Qed.

(** ** The whole run *)

Lemma bind_run {A B} (m : M A) (k : A -> M B) (w w1 : world) (a : A) :
  m w = (Ok a, w1) -> bind m k w = k a w1.
Proof. intros H. unfold bind. rewrite H. reflexivity. Qed.










Lemma infinite_compat (parse_number : string -> option number) (c : cell) :
  (forall b, to_numeric_cell parse_number c <> Num (Inf b)) <->
  infinite (to_numeric_cell parse_number c) = false.
Proof.
  destruct (to_numeric_cell parse_number c) as [|[z|q|b]|s]; simpl; split; intros H;
    try reflexivity; try discriminate.
  exfalso. apply (H b). reflexivity.
Qed.

Section WholeRun.

Variable parse_number : string -> option number.
Variable argsort : list cell -> list nat.
Variable format_number : number -> string.
Hypothesis argsort_ok : argsort_spec argsort.







End WholeRun.

(** ** Runs that end before any output *)

(** [main] stops before it creates the output directory, writes a file or
    prints a line when the input file does not exist
    ([FileNotFoundError]), and when the loaded table lacks one of the
    columns Area, Year, Element, Value ([KeyError]). *)
Theorem main_fails_before_any_output
    (parse_number : string -> option number) (argsort : list cell -> list nat)
    (format_number : number -> string) (w : world) (args_file args_output : string) :
  (find (fun pf => String.eqb args_file (fst pf)) (files w) = None ->
   main parse_number argsort format_number args_file args_output w
   = (Raise (FileNotFoundError args_file), w)) /\
  (forall header records df,
     read_file args_file w = (Ok (CsvFile header records), w) ->
     read_csv_table parse_number header records = Ok df ->
     missing_labels [Str "Area"; Str "Year"; Str "Element"; Str "Value"] (labels df) <> [] ->
     exists (miss : list cell) (w' : world),
       main parse_number argsort format_number args_file args_output w
       = (Raise (KeyError miss), w') /\
       miss <> [] /\
       Forall (fun c => contains c (labels df) = false) miss /\
       files w' = files w /\ dirs w' = dirs w /\ stdout w' = stdout w).
Proof.
  split.
  - intros Hnone. unfold main, load_data, read_csv.
    unfold bind at 1. unfold bind at 1. unfold read_file. rewrite Hnone. reflexivity.
  - intros header records df Hfile Htable Hmiss.
    set (w0 := mkWorld (heap w ++ [df]) (files w) (dirs w) (stdout w)).
    assert (Hload : load_data parse_number args_file w = (Ok (List.length (heap w)), w0)).
    { unfold load_data, read_csv. unfold bind at 1. rewrite Hfile.
      unfold bind, lift, alloc. rewrite Htable. reflexivity. }
    assert (Hp0 : nth_error (heap w0) (List.length (heap w)) = Some df)
      by (apply nth_error_snoc).
    destruct (process_countries_data_run w0 _ df "Ghana" Hp0) as (h1 & Hrun1 & _).
    rewrite (process_frame_missing_column df "Ghana" Hmiss) in Hrun1.
    do 2 eexists. split.
    { unfold main. rewrite (bind_run _ _ _ _ _ Hload). cbv beta.
      unfold bind at 1. rewrite Hrun1. reflexivity. }
    cbn [files dirs stdout]. split; [|split; [|auto]].
    + destruct (contains (Str "Area") (labels df)) eqn:Ea; [|discriminate].
      intros E. apply Hmiss. unfold missing_labels in *. simpl in *. rewrite Ea. exact E.
    + destruct (contains (Str "Area") (labels df)) eqn:Ea.
      * unfold missing_labels. apply Forall_forall. intros c Hc. apply filter_In in Hc.
        destruct Hc as [_ Hc]. apply negb_true_iff. exact Hc.
      * constructor; [exact Ea | constructor].
Qed.

(** ** Cleaning a cleaned table *)

Lemma replace_column_same (c : cell) (s : Series) (cols : list (cell * Series)) :
  lookup_column c cols = Some s -> replace_column c s cols = cols.
Proof.
  induction cols as [|[l old] r IH]; simpl; [discriminate|].
  destruct (cell_eqb c l).
  - intros H. inversion H. reflexivity.
  - intros H. rewrite (IH H). reflexivity.
Qed.

Lemma setitem_same (d : DataFrame) (c : cell) (s : Series) :
  lookup_column c (columns d) = Some s -> setitem d c s = d.
Proof.
  intros H. unfold setitem. rewrite (replace_column_same _ _ _ H). destruct d; reflexivity.
Qed.

Lemma select_mask_all {A} (f : nat -> bool) (a n : nat) (l : list A) :
  (forall i, i < a + n -> f i = true) -> List.length l <= n ->
  select_mask (map f (seq a n)) l = l.
Proof.
  revert a l. induction n as [|n IH]; intros a [|x l] Hf Hl; simpl in *;
    try reflexivity; try lia.
  rewrite Hf by lia. f_equal. apply IH; [|lia]. intros i Hi. apply Hf. lia.
Qed.

Lemma filter_rows_all (f : nat -> bool) (d : DataFrame) :
  well_formed d -> (forall i, i < nrows d -> f i = true) ->
  filter_rows (map f (seq 0 (nrows d))) d = d.
Proof.
  intros Hwf Hf. unfold filter_rows. destruct d as [n idx cols].
  unfold well_formed, nrows in *. cbn [index columns index_name] in *. f_equal.
  - apply select_mask_all; [exact Hf | lia].
  - rewrite <- (map_id cols) at 2. apply map_ext_in. intros [l s] Hin.
    rewrite Forall_forall in Hwf. specialize (Hwf _ Hin). cbn [fst snd] in *.
    f_equal. apply select_mask_all; [exact Hf | lia].
Qed.

Lemma take_rows_all (d : DataFrame) :
  well_formed d -> take_rows (seq 0 (nrows d)) d = d.
Proof.
  intros Hwf. unfold take_rows. destruct d as [n idx cols].
  unfold well_formed, nrows in *. cbn [index columns index_name] in *. f_equal.
  - apply map_nth_seq.
  - rewrite <- (map_id cols) at 2. apply map_ext_in. intros [l s] Hin.
    rewrite Forall_forall in Hwf. specialize (Hwf _ Hin). cbn [fst snd] in *.
    f_equal. rewrite <- Hwf. apply map_nth_seq.
Qed.

Lemma to_numeric_numbers (parse_number : string -> option number) (s : Series) :
  Forall (fun c => is_text c = false) s -> to_numeric parse_number s = s.
Proof.
  unfold to_numeric. induction 1 as [|c s Hc _ IH]; simpl; [reflexivity|].
  rewrite IH. destruct c; try reflexivity. discriminate.
Qed.

Lemma astype_int_same (s : Series) :
  Forall (fun c => exists z, c = Num (Int z)) s -> astype_int s = Ok s.
Proof.
  unfold astype_int. induction 1 as [|c s [z ->] _ IH]; simpl; [reflexivity|].
  rewrite IH. reflexivity.
Qed.

Lemma ints_not_text (s : Series) :
  Forall (fun c => exists z, c = Num (Int z)) s -> Forall (fun c => is_text c = false) s.
Proof. apply Forall_impl. intros c [z ->]. reflexivity. Qed.

(** Two ascending lists of integers with the same elements are equal. *)
Lemma sorted_perm_eq (l1 l2 : list Z) :
  Sorted Z.le l1 -> Sorted Z.le l2 -> Permutation l1 l2 -> l1 = l2.
Proof.
  intros H1 H2. apply Sorted_StronglySorted in H1; [|intros x y z; apply Z.le_trans].
  apply Sorted_StronglySorted in H2; [|intros x y z; apply Z.le_trans].
  revert l2 H2. induction H1 as [|x l1 Hs1 IH Hx]; intros l2 H2 Hp.
  - apply Permutation_nil in Hp. subst. reflexivity.
  - destruct H2 as [|y l2 Hs2 Hy].
    + apply Permutation_sym, Permutation_nil in Hp. discriminate.
    + assert (Hxy : x = y).
      { rewrite Forall_forall in Hx, Hy.
        assert (In x (y :: l2)) as [E|Hin]
          by (apply (Permutation_in _ Hp); left; reflexivity); [auto|].
        assert (In y (x :: l1)) as [E|Hin']
          by (apply (Permutation_in _ (Permutation_sym Hp)); left; reflexivity); [auto|].
        apply Z.le_antisymm; [apply Hx; exact Hin' | apply Hy; exact Hin]. }
      subst y. f_equal. apply IH; [exact Hs2|].
      apply Permutation_cons_inv with (a := x). exact Hp.
Qed.

Lemma ints_by_value (l l' : Series) :
  Forall (fun c => exists z, c = Num (Int z)) l ->
  Forall (fun c => exists z, c = Num (Int z)) l' ->
  map int_value l = map int_value l' -> l = l'.
Proof.
  intros Hl. revert l'. induction Hl as [|a l [za ->] _ IH]; intros [|b l'] Hl' Heq;
    simpl in Heq; try discriminate; [reflexivity|].
  inversion Hl' as [|? ? [zb ->] Hl'']; subst. simpl in Heq.
  injection Heq as Hz Heq. subst. f_equal. apply IH; assumption.
Qed.

Section CleanTwice.

Variable parse_number : string -> option number.
Variable argsort : list cell -> list nat.
Hypothesis argsort_ok : argsort_spec argsort.

(** On ascending integer keys that are all different, argsort is the
    identity. *)
Lemma argsort_sorted_distinct (keys : Series) :
  Forall (fun c => exists z, c = Num (Int z)) keys ->
  Sorted Z.le (map int_value keys) ->
  NoDup keys ->
  argsort keys = seq 0 (List.length keys).
Proof.
  intros Hints Hsorted Hnd.
  destruct (argsort_ok keys) as [Hperm Hs].
  set (p := argsort keys) in *.
  assert (Hin : forall j, In j p -> j < List.length keys).
  { intros j Hj. apply (Permutation_in _ Hperm) in Hj. apply in_seq in Hj. lia. }
  assert (Hkeys : map (fun i => nth i keys NaN) p = keys).
  { assert (Hpk : Permutation (map (fun i => nth i keys NaN) p) keys).
    { eapply Permutation_trans; [apply Permutation_map; exact Hperm|].
      rewrite map_nth_seq. apply Permutation_refl. }
    assert (Hall : Forall (fun c => exists z, c = Num (Int z))
                          (map (fun i => nth i keys NaN) p)).
    { eapply Permutation_Forall; [apply Permutation_sym; exact Hpk | exact Hints]. }
    pose proof (sorted_ints _ Hall Hs) as Hs'.
    pose proof (sorted_perm_eq _ _ Hs' Hsorted (Permutation_map int_value Hpk)) as Heq.
    exact (ints_by_value _ _ Hall Hints Heq). }
  assert (Hlen : List.length p = List.length keys).
  { rewrite (Permutation_length Hperm). apply length_seq. }
  apply (nth_ext _ _ 0 0).
  - rewrite Hlen, length_seq. reflexivity.
  - intros j Hj. rewrite seq_nth by lia. simpl.
    assert (Hnth : nth (nth j p 0) keys NaN = nth j keys NaN).
    { rewrite <- Hkeys at 2. symmetry.
      exact (nth_map_lt (fun i => nth i keys NaN) p j 0 NaN Hj). }
    apply (proj1 (NoDup_nth keys NaN) Hnd); [apply Hin, nth_In; exact Hj | lia | exact Hnth].
Qed.

Lemma clean_frame_index_name (df out : DataFrame) :
  clean_frame parse_number argsort df = Ok out -> index_name out = None.
Proof.
  unfold clean_frame.
  destruct (getitem df (Str "Year")); [|discriminate]. cbn [rbind].
  destruct (dropna _ _) as [d2|]; [|discriminate]. cbn [rbind].
  destruct (getitem d2 (Str "Year")); [|discriminate]. cbn [rbind].
  destruct (astype_int _); [|discriminate]. cbn [rbind].
  destruct (sort_values _ _ _); [|discriminate]. cbn [rbind].
  intros H. inversion H. reflexivity.
Qed.

Lemma coerce_column_numbers (d : DataFrame) (col : cell) :
  (forall s, lookup_column col (columns d) = Some s ->
             Forall (fun c => is_text c = false) s) ->
  coerce_column parse_number d col = d.
Proof.
  intros H. unfold coerce_column.
  destruct (contains col (labels d)); [|reflexivity].
  destruct (getitem d col) as [s|] eqn:E; [|reflexivity].
  apply getitem_lookup in E.
  rewrite (to_numeric_numbers parse_number s (H s E)). apply setitem_same. exact E.
Qed.

Lemma clean_frame_well_formed (df out : DataFrame) :
  well_formed df ->
  clean_frame parse_number argsort df = Ok out -> well_formed out.
Proof.
  intros Hwf H.
  destruct (clean_frame_shape parse_number argsort argsort_ok df out Hwf H)
    as (years & ints & Hy & Hints & Hidx & _ & _).
  destruct (clean_frame_cast parse_number argsort df years Hwf Hy) as [d2 Hcast].
  rewrite Hcast, Hints in H. cbn [rbind] in H.
  destruct (sort_values _ _ _) as [d5|] eqn:Hsort; [|discriminate]. cbn [rbind] in H.
  inversion H; subst out; clear H.
  unfold sort_values in Hsort.
  destruct (getitem _ (Str "Year")) as [keys|]; [|discriminate]. cbn [rbind] in Hsort.
  destruct (forallb is_number _ || forallb is_text _)%bool; [|discriminate].
  inversion Hsort; subst d5; clear Hsort.
  unfold well_formed, reset_index_drop, take_rows, nrows, range_index.
  cbn [index columns]. rewrite !length_map, length_seq.
  apply Forall_forall. intros cs Hcs. apply in_map_iff in Hcs.
  destruct Hcs as (cs0 & <- & _). cbn [snd]. apply length_map.
Qed.

Lemma nth_to_numeric_not_text (s : Series) (k : nat) :
  is_text (nth k (to_numeric parse_number s) NaN) = false.
Proof.
  unfold to_numeric.
  destruct (nth_in_or_default k (map (to_numeric_cell parse_number) s) NaN) as [Hin|E];
    [|rewrite E; reflexivity].
  apply in_map_iff in Hin. destruct Hin as (c & <- & _).
  destruct c as [|n|t]; simpl; try reflexivity. destruct (parse_number t); reflexivity.
Qed.

(** A table as the cleaner returns it, with Years that are all different,
    is a fixed point of the cleaner. *)
Lemma clean_frame_fixed_point (d : DataFrame) (years : Series) :
  well_formed d ->
  index_name d = None ->
  index d = range_index (nrows d) ->
  lookup_column (Str "Year") (columns d) = Some years ->
  Forall (fun c => exists z, c = Num (Int z)) years ->
  Sorted Z.le (map int_value years) ->
  NoDup years ->
  (forall c s, In c metric_labels -> lookup_column c (columns d) = Some s ->
     Forall (fun v => is_text v = false) s) ->
  clean_frame parse_number argsort d = Ok d.
Proof.
  intros Hwf Hname Hidx Hy Hints Hsorted Hnd Hmet.
  pose proof (well_formed_lookup d _ _ Hwf Hy) as Hlen.
  unfold clean_frame. rewrite (proj2 (getitem_lookup d _ _) Hy). cbn [rbind].
  rewrite (to_numeric_numbers parse_number years (ints_not_text years Hints)).
  rewrite (setitem_same d _ _ Hy).
  rewrite (dropna_single _ d years) by (apply getitem_lookup; exact Hy). cbn [rbind].
  rewrite (filter_rows_all _ d Hwf).
  2:{ intros i Hi. rewrite <- Hlen in Hi.
      rewrite (proj1 (ints_notna years Hints i Hi)). reflexivity. }
  rewrite (proj2 (getitem_lookup d _ _) Hy). cbn [rbind].
  rewrite (astype_int_same years Hints). cbn [rbind].
  rewrite (setitem_same d _ _ Hy).
  unfold metric_labels. cbn [fold_left].
  rewrite (coerce_column_numbers d (Str "Area harvested"))
    by (intros s Hs; eapply Hmet; [|exact Hs]; unfold metric_labels; simpl; auto).
  rewrite (coerce_column_numbers d (Str "Yield"))
    by (intros s Hs; eapply Hmet; [|exact Hs]; unfold metric_labels; simpl; auto).
  rewrite (coerce_column_numbers d (Str "Production"))
    by (intros s Hs; eapply Hmet; [|exact Hs]; unfold metric_labels; simpl; auto).
  rewrite (sort_values_ints argsort argsort_ok d (Str "Year") years)
    by (try apply getitem_lookup; assumption).
  cbn [rbind].
  rewrite (argsort_sorted_distinct years Hints Hsorted Hnd), Hlen, (take_rows_all d Hwf).
  unfold reset_index_drop. rewrite <- Hidx, <- Hname. destruct d; reflexivity.
Qed.

(** Cleaning a cleaned table whose Years are all different returns an equal
    table: [clean_and_sort] is idempotent on such tables.  (When two rows
    share a Year, the second sort may order them differently.) *)
Theorem clean_and_sort_idempotent
    (w w1 : world) (p q : addr) (df out : DataFrame) :
  nth_error (heap w) p = Some df ->
  well_formed df ->
  clean_and_sort parse_number argsort p w = (Ok q, w1) ->
  nth_error (heap w1) q = Some out ->
  NoDup (column out (Str "Year")) ->
  exists (r : addr) (w2 : world),
    clean_and_sort parse_number argsort q w1 = (Ok r, w2) /\
    nth_error (heap w2) r = Some out.
Proof.
  intros Hp Hwf Hrun Hq Hnd.
  destruct (clean_and_sort_result parse_number argsort w w1 p q df Hp Hrun)
    as (out' & Hclean & Hq').
  assert (out' = out) by congruence. subst out'.
  pose proof (clean_frame_well_formed df out Hwf Hclean) as Hwfo.
  pose proof (clean_frame_index_name df out Hclean) as Hname.
  destruct (clean_frame_rows parse_number argsort argsort_ok df out Hwf Hclean)
    as (src & _ & Hidx & Hlab & (years & Hy & _ & Hints & Hsorted) & _).
  apply getitem_lookup in Hy.
  rewrite (column_some _ _ _ Hy) in Hnd.
  assert (Hfix : clean_frame parse_number argsort out = Ok out).
  { apply (clean_frame_fixed_point out years); try assumption.
    - rewrite Hidx. f_equal. symmetry. apply nrows_range. exact Hidx.
    - intros c s Hc Hs.
      assert (Hcm : contains c metric_labels = true).
      { unfold contains. apply existsb_exists. exists c. split; [exact Hc|].
        destruct (metric_label_text c Hc) as [t ->]. apply cell_eqb_str. reflexivity. }
      assert (Hny : cell_eqb c (Str "Year") = false).
      { destruct (metric_label_text c Hc) as [t ->].
        simpl in Hc. destruct Hc as [E|[E|[E|[]]]]; inversion E; reflexivity. }
      assert (Hin : contains c (labels df) = true).
      { rewrite <- Hlab. apply contains_lookup. eauto. }
      apply contains_lookup in Hin. destruct Hin as [s0 Hs0].
      destruct (clean_frame_shape parse_number argsort argsort_ok df out Hwf Hclean)
        as (_ & ints & _ & _ & _ & _ & Hcols).
      rewrite (Hcols c s0 Hs0), Hny, Hcm in Hs. inversion Hs; subst s.
      apply Forall_forall. intros v Hv. apply in_map_iff in Hv.
      destruct Hv as (k & <- & _). apply nth_to_numeric_not_text. }
  destruct (clean_and_sort_run parse_number argsort w1 q out Hq) as (h2 & Hrun2 & _ & Hout2).
  rewrite Hfix in Hrun2. do 2 eexists. split; [exact Hrun2|]. cbn [heap].
  apply Hout2. exact Hfix.
Qed.

End CleanTwice.

(** ** Runs on the example tables *)




(** On two rows that tie the same sort keeps the prior order: a run of at
    most 17 rows is sorted by insertion. *)
Lemma two_tied_years_keep_order :
  exists w' : world,
    clean_and_sort decimal_number quicksort_argsort 0 (world_with tied_years) = (Ok 4, w') /\
    nth_error (heap w') 4 =
    Some (mkDataFrame None [Num (Int 0); Num (Int 1)]
            [(Str "Year", [Num (Int 1961); Num (Int 1961)]);
             (Str "Yield", [Num (Int 1); Num (Int 2)])]).
Proof.
  eexists. split; [vm_compute; reflexivity | reflexivity].
Qed.

(** The two records of [text_years] have the Years "1961" and "+1961", two
    different texts: the reshaped table has a row for each.  The cleaner
    reads both as 1961, so the cleaned table has two rows of Year 1961,
    though neither Year was a number and nothing was truncated. *)
Lemma text_years_clean_to_one_year :
  exists (w1 w2 : world) (reshaped cleaned : DataFrame),
    process_countries_data 0 "Ghana" (world_with text_years) = (Ok 6, w1) /\
    nth_error (heap w1) 6 = Some reshaped /\
    column reshaped (Str "Year") = [Str "+1961"; Str "1961"] /\
    clean_and_sort decimal_number insertion_argsort 6 w1 = (Ok 10, w2) /\
    nth_error (heap w2) 10 = Some cleaned /\
    column cleaned (Str "Year") = [Num (Int 1961); Num (Int 1961)].
Proof.
  do 4 eexists. split; [vm_compute; reflexivity|]. split; [reflexivity|].
  split; [reflexivity|]. split; [vm_compute; reflexivity|]. split; reflexivity.
Qed.


(** ** Instances of the theorems *)



Lemma reshape_has_one_row_per_year_mixed_rows :
  argsort_spec insertion_argsort /\
  nth_error (heap (world_with mixed_rows)) 0 = Some mixed_rows /\
  well_formed mixed_rows /\
  plain_table mixed_rows = true /\
  exists out : DataFrame,
    nth_error (heap (snd (process_countries_data 0 "Ghana" (world_with mixed_rows)))) 6
    = Some out /\
    forall k, k < nrows out -> notna (cell_at out (Str "Year") k) = true.
Proof.
  assert (H1 : nth_error (heap (world_with mixed_rows)) 0 = Some mixed_rows) by reflexivity.
  assert (H2 : well_formed mixed_rows) by (apply well_formed_intro; reflexivity).
  assert (H3 : process_countries_data 0 "Ghana" (world_with mixed_rows)
               = (Ok 6, snd (process_countries_data 0 "Ghana" (world_with mixed_rows))))
    by (vm_compute; reflexivity).
  split; [exact insertion_argsort_spec|]. split; [exact H1|]. split; [exact H2|].
  split; [reflexivity|].
  destruct (reshape_has_one_row_per_year decimal_number insertion_argsort
              insertion_argsort_spec _ _ _ _ _ _ H1 H2 eq_refl H3) as (out & Hq & Hy & _).
  exists out. split; [exact Hq | exact Hy].
Defined.



Lemma ghana_scenario_decimal :
  argsort_spec insertion_argsort /\
  decimal_number "1961" = Some (Int 1961) /\
  decimal_number "300" = Some (Int 300) /\
  decimal_number "100" = Some (Int 100) /\
  nth_error (heap (world_with ghana_rows)) 0 = Some ghana_rows /\
  exists (q r : addr) (w1 w2 : world),
    process_countries_data 0 "Ghana" (world_with ghana_rows) = (Ok q, w1) /\
    clean_and_sort decimal_number insertion_argsort q w1 = (Ok r, w2).
Proof.
  split; [exact insertion_argsort_spec|].
  repeat (split; [reflexivity|]).
  destruct (ghana_scenario decimal_number insertion_argsort insertion_argsort_spec
              (world_with ghana_rows) 0 eq_refl eq_refl eq_refl eq_refl)
    as (q & r & w1 & w2 & Hp & Hc & _).
  exists q, r, w1, w2. split; [exact Hp | exact Hc].
Defined.



Lemma clean_and_sort_returns_mixed_years :
  argsort_spec insertion_argsort /\
  nth_error (heap (world_with mixed_years)) 0 = Some mixed_years /\
  well_formed mixed_years /\
  contains (Str "Year") (labels mixed_years) = true /\
  exists (q : addr) (w' : world) (out : DataFrame),
    clean_and_sort decimal_number insertion_argsort 0 (world_with mixed_years) = (Ok q, w') /\
    nth_error (heap w') q = Some out.
Proof.
  assert (H1 : nth_error (heap (world_with mixed_years)) 0 = Some mixed_years) by reflexivity.
  assert (H2 : well_formed mixed_years) by (apply well_formed_intro; reflexivity).
  split; [exact insertion_argsort_spec|]. split; [exact H1|]. split; [exact H2|].
  split; [reflexivity|].
  apply (clean_and_sort_returns decimal_number insertion_argsort insertion_argsort_spec
           (world_with mixed_years) 0 mixed_years H1 H2 eq_refl).
  intros i b Hi. change (nrows mixed_years) with 3 in Hi.
  destruct i as [|[|[|i]]]; [discriminate | discriminate | discriminate | lia].
Defined.


Lemma clean_and_sort_raises_on_infinite_year_reshaped :
  exists (q : addr) (w1 : world) (df : DataFrame),
    process_countries_data 0 "Ghana" (world_with infinite_year) = (Ok q, w1) /\
    nth_error (heap w1) q = Some df /\
    well_formed df /\
    to_numeric_cell decimal_number (cell_at df (Str "Year") 1) = Num (Inf false) /\
    fst (clean_and_sort decimal_number insertion_argsort q w1) = Raise IntCastingNaNError.
Proof.
  exists 6, (snd (process_countries_data 0 "Ghana" (world_with infinite_year))),
    (mkDataFrame None [Num (Int 0); Num (Int 1)]
       [(Str "Year", [Num (Int 1961); Num (Inf false)]);
        (Str "Yield", [Num (Int 300); Num (Int 310)])]).
  assert (H1 : nth_error
                 (heap (snd (process_countries_data 0 "Ghana" (world_with infinite_year)))) 6
               = Some (mkDataFrame None [Num (Int 0); Num (Int 1)]
                         [(Str "Year", [Num (Int 1961); Num (Inf false)]);
                          (Str "Yield", [Num (Int 300); Num (Int 310)])]))
    by (vm_compute; reflexivity).
  assert (H2 : well_formed
                 (mkDataFrame None [Num (Int 0); Num (Int 1)]
                    [(Str "Year", [Num (Int 1961); Num (Inf false)]);
                     (Str "Yield", [Num (Int 300); Num (Int 310)])]))
    by (apply well_formed_intro; reflexivity).
  split; [vm_compute; reflexivity|]. split; [exact H1|]. split; [exact H2|].
  split; [reflexivity|].
  apply (clean_and_sort_raises_on_infinite_year decimal_number insertion_argsort
           _ 6 _ 1 false H1 H2); [unfold nrows; simpl; lia | reflexivity].
Defined.

(** In the file, Ghana has Production records only.  [main] writes the two
    tables, the single-entity charts skip the Ghana table with a notice and
    draw the other, and the combined chart raises [KeyError] on the Ghana
    table: the run ends there and no combined image is written. *)
Lemma plot_combined_raises_in_main :
  nth_error (heap (world_with production_table)) 0 = Some production_table /\
  contains (Str "Yield") (labels production_table) = false /\
  (exists (l : cell) (w' : world),
     plot_combined 0 0 "output" "combined_plots.pdf" (world_with production_table)
     = (Raise (KeyError [l]), w') /\ files w' = []) /\
  fst (main decimal_number insertion_argsort decimal_text "cocoa.csv" "output"
         world_with_production_file)
  = Raise (KeyError [Str "Yield"]) /\
  map fst (files (snd (main decimal_number insertion_argsort decimal_text "cocoa.csv" "output"
                         world_with_production_file)))
  = ["output/coast_area_bar.png"; "output/coast_yield_scatter.png";
     "output/coast_table.csv"; "output/ghana_table.csv"; "cocoa.csv"] /\
  stdout (snd (main decimal_number insertion_argsort decimal_text "cocoa.csv" "output"
                 world_with_production_file))
  = ["Warning: 'Yield' column not found for Ghana. Skipping scatter plot.";
     "Warning: 'Area harvested' column not found for Ghana. Skipping bar chart.";
     "Saved scatter plot for Côte d'Ivoire: output/coast_yield_scatter.png";
     "Saved bar chart for Côte d'Ivoire: output/coast_area_bar.png"].
Proof.
  assert (H1 : nth_error (heap (world_with production_table)) 0 = Some production_table)
    by reflexivity.
  split; [exact H1|]. split; [reflexivity|]. split.
  - apply (plot_combined_raises_without_column (world_with production_table) 0 0
             production_table production_table "output" "combined_plots.pdf" H1 H1).
    exists (Str "Yield"). split; [simpl; auto | left; reflexivity].
  - vm_compute. repeat split; reflexivity.
Defined.

Lemma process_countries_data_returns_mixed_rows :
  nth_error (heap (world_with mixed_rows)) 0 = Some mixed_rows /\
  well_formed mixed_rows /\
  exists (q : addr) (w' : world) (out : DataFrame),
    process_countries_data 0 "Ghana" (world_with mixed_rows) = (Ok q, w') /\
    nth_error (heap w') q = Some out.
Proof.
  assert (H1 : nth_error (heap (world_with mixed_rows)) 0 = Some mixed_rows) by reflexivity.
  assert (H2 : well_formed mixed_rows) by (apply well_formed_intro; reflexivity).
  split; [exact H1|]. split; [exact H2|].
  apply (process_countries_data_returns (world_with mixed_rows) 0 mixed_rows "Ghana" H1 H2).
  - intros c Hc. simpl in Hc. destruct Hc as [<-|[<-|[<-|[<-|[]]]]]; reflexivity.
  - intros i Hi _. change (nrows mixed_rows) with 3 in Hi.
    destruct i as [|[|[|i]]]; [discriminate | discriminate | discriminate | lia].
Defined.

Lemma outputs_leave_tables_unchanged_cleaned_sample :
  nth_error (heap (world_with cleaned_sample)) 0 = Some cleaned_sample /\
  nth_error (heap (snd (plot_combined 0 0 "output" "combined_plots.pdf"
                          (world_with cleaned_sample)))) 0 = Some cleaned_sample.
Proof.
  assert (H1 : nth_error (heap (world_with cleaned_sample)) 0 = Some cleaned_sample)
    by reflexivity.
  split; [exact H1|].
  apply (outputs_leave_tables_unchanged decimal_text (world_with cleaned_sample) 0 0
           "Ghana" "output" "combined_plots.pdf" "tab:green" 40 0 cleaned_sample H1).
Defined.

Lemma process_countries_data_outcome_year_element :
  nth_error (heap (world_with year_element)) 0 = Some year_element /\
  well_formed year_element /\
  fst (process_countries_data 0 "Ghana" (world_with year_element))
  = Raise (ValueError "cannot insert, already exists") /\
  recorded year_element "Ghana" (Str "Year") = true.
Proof.
  assert (H1 : nth_error (heap (world_with year_element)) 0 = Some year_element)
    by reflexivity.
  assert (H2 : well_formed year_element) by (apply well_formed_intro; reflexivity).
  assert (H3 : fst (process_countries_data 0 "Ghana" (world_with year_element))
               = Raise (ValueError "cannot insert, already exists"))
    by (vm_compute; reflexivity).
  split; [exact H1|]. split; [exact H2|]. split; [exact H3|].
  pose proof (process_countries_data_outcome (world_with year_element) 0 year_element
                "Ghana" H1 H2) as H.
  rewrite H3 in H. destruct H as [[_ E]|(_ & Hrec & _)]; [discriminate E | exact Hrec].
Defined.

Lemma reshape_columns_production_only :
  nth_error (heap (world_with production_only)) 0 = Some production_only /\
  well_formed production_only /\
  exists out : DataFrame,
    nth_error (heap (snd (process_countries_data 0 "Ghana" (world_with production_only)))) 6
    = Some out /\
    labels out = [Str "Year"; Str "Production"].
Proof.
  assert (H1 : nth_error (heap (world_with production_only)) 0 = Some production_only)
    by reflexivity.
  assert (H2 : well_formed production_only) by (apply well_formed_intro; reflexivity).
  assert (H3 : process_countries_data 0 "Ghana" (world_with production_only)
               = (Ok 6, snd (process_countries_data 0 "Ghana" (world_with production_only))))
    by (vm_compute; reflexivity).
  split; [exact H1|]. split; [exact H2|].
  destruct (reshape_columns _ _ _ _ _ _ H1 H2 H3) as (out & Hq & Hl).
  exists out. split; [exact Hq | exact Hl].
Defined.

Lemma clean_and_sort_outcome_yield_only :
  argsort_spec insertion_argsort /\
  nth_error (heap (world_with yield_only)) 0 = Some yield_only /\
  well_formed yield_only /\
  fst (clean_and_sort decimal_number insertion_argsort 0 (world_with yield_only))
  = Raise (KeyError [Str "Year"]) /\
  contains (Str "Year") (labels yield_only) = false.
Proof.
  assert (H1 : nth_error (heap (world_with yield_only)) 0 = Some yield_only) by reflexivity.
  assert (H2 : well_formed yield_only) by (apply well_formed_intro; reflexivity).
  assert (H3 : fst (clean_and_sort decimal_number insertion_argsort 0 (world_with yield_only))
               = Raise (KeyError [Str "Year"])) by (vm_compute; reflexivity).
  split; [exact insertion_argsort_spec|]. split; [exact H1|]. split; [exact H2|].
  split; [exact H3|].
  pose proof (clean_and_sort_outcome decimal_number insertion_argsort insertion_argsort_spec
                (world_with yield_only) 0 yield_only H1 H2) as H.
  rewrite H3 in H. destruct H as [[Hc _]|(_ & _ & E)]; [exact Hc | discriminate E].
Defined.




Lemma reshape_years_come_from_records_mixed_rows :
  nth_error (heap (world_with mixed_rows)) 0 = Some mixed_rows /\
  well_formed mixed_rows /\
  exists out : DataFrame,
    nth_error (heap (snd (process_countries_data 0 "Ghana" (world_with mixed_rows)))) 6
    = Some out.
Proof.
  assert (H1 : nth_error (heap (world_with mixed_rows)) 0 = Some mixed_rows) by reflexivity.
  assert (H2 : well_formed mixed_rows) by (apply well_formed_intro; reflexivity).
  assert (H3 : process_countries_data 0 "Ghana" (world_with mixed_rows)
               = (Ok 6, snd (process_countries_data 0 "Ghana" (world_with mixed_rows))))
    by (vm_compute; reflexivity).
  split; [exact H1|]. split; [exact H2|].
  destruct (reshape_years_come_from_records _ _ _ _ _ _ H1 H2 H3) as (out & Hq & _).
  exists out. exact Hq.
Defined.


Lemma main_fails_before_any_output_short_file :
  main decimal_number insertion_argsort decimal_text "missing.csv" "output"
    world_with_short_file
  = (Raise (FileNotFoundError "missing.csv"), world_with_short_file) /\
  exists (miss : list cell) (w' : world),
    main decimal_number insertion_argsort decimal_text "cocoa.csv" "output"
      world_with_short_file = (Raise (KeyError miss), w') /\
    files w' = files world_with_short_file /\ dirs w' = [] /\ stdout w' = [].
Proof.
  split.
  - apply (proj1 (main_fails_before_any_output decimal_number insertion_argsort decimal_text
                    world_with_short_file "missing.csv" "output")).
    reflexivity.
  - destruct (proj2 (main_fails_before_any_output decimal_number insertion_argsort
                       decimal_text world_with_short_file "cocoa.csv" "output")
                    ["Year"; "Element"; "Value"] [["1961"; "Yield"; "300"]]
                    (mkDataFrame None [Num (Int 0)]
                       [(Str "Year", [Num (Int 1961)]); (Str "Element", [Str "Yield"]);
                        (Str "Value", [Num (Int 300)])]))
      as (miss & w' & Hrun & _ & _ & Hf & Hd & Hs).
    + reflexivity.
    + vm_compute. reflexivity.
    + discriminate.
    + exists miss, w'. auto.
Defined.

Lemma clean_and_sort_idempotent_mixed_years :
  argsort_spec insertion_argsort /\
  nth_error (heap (world_with mixed_years)) 0 = Some mixed_years /\
  well_formed mixed_years /\
  NoDup (column mixed_years_cleaned (Str "Year")) /\
  exists (w1 : world) (r : addr) (w2 : world),
    clean_and_sort decimal_number insertion_argsort 0 (world_with mixed_years) = (Ok 4, w1) /\
    nth_error (heap w1) 4 = Some mixed_years_cleaned /\
    clean_and_sort decimal_number insertion_argsort 4 w1 = (Ok r, w2) /\
    nth_error (heap w2) r = Some mixed_years_cleaned.
Proof.
  assert (H1 : nth_error (heap (world_with mixed_years)) 0 = Some mixed_years) by reflexivity.
  assert (H2 : well_formed mixed_years) by (apply well_formed_intro; reflexivity).
  assert (H3 : clean_and_sort decimal_number insertion_argsort 0 (world_with mixed_years)
               = (Ok 4, snd (clean_and_sort decimal_number insertion_argsort 0
                               (world_with mixed_years))))
    by (vm_compute; reflexivity).
  assert (H4 : nth_error (heap (snd (clean_and_sort decimal_number insertion_argsort 0
                                       (world_with mixed_years)))) 4
               = Some mixed_years_cleaned) by (vm_compute; reflexivity).
  assert (H5 : NoDup (column mixed_years_cleaned (Str "Year"))).
  { repeat constructor; simpl; intuition discriminate. }
  split; [exact insertion_argsort_spec|]. split; [exact H1|]. split; [exact H2|].
  split; [exact H5|].
  destruct (clean_and_sort_idempotent decimal_number insertion_argsort insertion_argsort_spec
              _ _ _ _ _ _ H1 H2 H3 H4 H5) as (r & w2 & Hrun & Hr).
  eexists _, r, w2. split; [exact H3|]. split; [exact H4|]. split; [exact Hrun | exact Hr].
Defined.

